(** * Website health checker: a shallow embedding of [code.py]

    The development follows the source file function by function:
    [validate_url], [check_site_status], [check_ssl_certificate],
    [find_broken_links], [check_mobile_responsiveness],
    [generate_suggestions] and [run_website_test].

    Conventions.
    - A Python [str] is a [string]; one character stands for one code point
      below 256.  Text written to the terminal is the byte stream that
      reaches it, so the pictographs of the messages appear as their UTF-8
      bytes and interpolated values go through [Py.utf8].
    - A Python [int] is a [Z], a [float] is a primitive binary64 [float].
    - A [dict] is a [gmap], a [set] is a [gset], a [list] is a [list].
    - Exceptions are values of [Py.exn]; only subclasses of [Exception] are
      modelled (a keyboard interrupt is not a failure of the program).
    - Everything the program asks of the outside world (the network, the
      clock, the HTML parser, the terminal) is a [call]; a program is a tree
      of calls ([prog]) and its runs are described by [exec].
    - [urllib.parse] is modelled as in CPython 3.11.4 and later (leading
      control characters and spaces stripped, tab, CR and LF removed,
      bracketed hosts checked); what it takes from [unicodedata] and
      [ipaddress] is a parameter ([Runtime]), as are [urljoin] and the
      iteration order of sets. *)

From Stdlib Require Import ZArith Lia Ascii String.
From Stdlib Require Import Floats.PrimFloat Floats.FloatOps Floats.SpecFloat
  Floats.FloatAxioms.
From stdpp Require Import base option list strings pretty gmap.

Local Open Scope Z_scope.

(** ** Python values and the string methods the program uses *)

Module Py.

Definition code (c : ascii) : Z := Z.of_nat (nat_of_ascii c).

Definition chr_eqb (a b : ascii) : bool := Ascii.eqb a b.

(** [s.startswith(prefix)] *)
Definition startswith (s prefix : string) : bool := String.prefix prefix s.

(** [bool(s)] for a string: non-empty. *)
Definition truthy (s : string) : bool :=
  match s with EmptyString => false | String _ _ => true end.

(** [c in s] for a one-character [c]. *)
Fixpoint has_char (c : ascii) (s : string) : bool :=
  match s with
  | EmptyString => false
  | String a s' => chr_eqb a c || has_char c s'
  end.

(** [needle in s] *)
Fixpoint contains (needle s : string) : bool :=
  String.prefix needle s ||
  match s with
  | EmptyString => false
  | String _ s' => contains needle s'
  end.

(** [s.replace(c, '')] for a one-character [c]. *)
Fixpoint remove_char (c : ascii) (s : string) : string :=
  match s with
  | EmptyString => EmptyString
  | String a s' =>
      if chr_eqb a c then remove_char c s' else String a (remove_char c s')
  end.

(** [s.lstrip(chars)], the characters given as a predicate. *)
Fixpoint lstrip (p : ascii -> bool) (s : string) : string :=
  match s with
  | EmptyString => EmptyString
  | String a s' => if p a then lstrip p s' else s
  end.

(** The part of [s] before the first character satisfying [p], and the
    rest starting at that character (empty when there is none). *)
Fixpoint break_at (p : ascii -> bool) (s : string) : string * string :=
  match s with
  | EmptyString => (EmptyString, EmptyString)
  | String a s' =>
      if p a then (EmptyString, s)
      else let '(l, r) := break_at p s' in (String a l, r)
  end.

Definition tail (s : string) : string :=
  match s with EmptyString => EmptyString | String _ s' => s' end.

(** [s.partition(c)]: (before, found, after). *)
Definition partition (c : ascii) (s : string) : string * bool * string :=
  let '(l, r) := break_at (chr_eqb c) s in
  match r with
  | EmptyString => (s, false, EmptyString)
  | String _ r' => (l, true, r')
  end.

(** [s.rpartition(c)[2]]: what follows the last [c], all of [s] when
    there is none. *)
Fixpoint after_last (c : ascii) (s : string) : string :=
  match s with
  | EmptyString => EmptyString
  | String a s' =>
      if has_char c s' then after_last c s'
      else if chr_eqb a c then s' else s
  end.

(** [s.split(c)[0]] *)
Definition split_first (c : ascii) (s : string) : string :=
  fst (break_at (chr_eqb c) s).

Definition is_ascii_chr (c : ascii) : bool := code c <? 128.

(** [s.isascii()] *)
Fixpoint isascii (s : string) : bool :=
  match s with
  | EmptyString => true
  | String a s' => is_ascii_chr a && isascii s'
  end.

Definition is_upper (c : ascii) : bool := (65 <=? code c) && (code c <=? 90).
Definition is_lower (c : ascii) : bool := (97 <=? code c) && (code c <=? 122).
Definition is_digit (c : ascii) : bool := (48 <=? code c) && (code c <=? 57).

(** [c.isascii() and c.isalpha()] *)
Definition is_ascii_alpha (c : ascii) : bool := is_upper c || is_lower c.

(** [c.lower()] on the code points below 256: the capital letters of ASCII
    and of the Latin-1 block (all of 192..222 but the multiplication
    sign 215) move up by 32. *)
Definition lower_chr (c : ascii) : ascii :=
  let n := code c in
  if is_upper c || ((192 <=? n) && (n <=? 222) && negb (n =? 215))
  then ascii_of_nat (Z.to_nat (n + 32))
  else c.

(** [s.lower()] *)
Fixpoint lower (s : string) : string :=
  match s with
  | EmptyString => EmptyString
  | String a s' => String (lower_chr a) (lower s')
  end.

(** [str(n)] for an [int]. *)
Definition str_int (n : Z) : string := pretty n.

(** The UTF-8 encoding of a string of code points below 256. *)
Fixpoint utf8 (s : string) : string :=
  match s with
  | EmptyString => EmptyString
  | String a s' =>
      let n := code a in
      if n <? 128 then String a (utf8 s')
      else String (ascii_of_nat (Z.to_nat (192 + n / 64)))
             (String (ascii_of_nat (Z.to_nat (128 + n mod 64))) (utf8 s'))
  end.

(** *** [format(x, '.2f')]

    The decimal expansion of the exact binary value, rounded to two
    places, ties to the even neighbour. *)

Definition round_half_even (n d : Z) : Z :=
  let q := n / d in
  match Z.compare (2 * (n mod d)) d with
  | Lt => q
  | Gt => q + 1
  | Eq => if Z.even q then q else q + 1
  end.

(** Hundredths in [m * 2^e], rounded. *)
Definition hundredths (m : positive) (e : Z) : Z :=
  if 0 <=? e then 100 * Z.pos m * 2 ^ e
  else round_half_even (100 * Z.pos m) (2 ^ (- e)).

Definition two_digits (n : Z) : string :=
  if n <? 10 then "0" +:+ pretty n else pretty n.

Definition fixed2 (h : Z) : string :=
  pretty (h / 100) +:+ "." +:+ two_digits (h mod 100).

Definition sign_str (s : bool) : string := if s then "-" else EmptyString.

Definition format_2f (x : float) : string :=
  match Prim2SF x with
  | S754_zero s => sign_str s +:+ "0.00"
  | S754_infinity s => sign_str s +:+ "inf"
  | S754_nan => "nan"
  | S754_finite s m e => sign_str s +:+ fixed2 (hundredths m e)
  end.

(** [bool(x)] for a float: [x != 0.0] (a NaN is true). *)
Definition float_truthy (x : float) : bool := negb (PrimFloat.eqb x 0%float).

(** [x > y] on floats.  The program compares with the integer literal
    [3], which converts to the float [3.0] exactly. *)
Definition float_gt (x y : float) : bool := PrimFloat.ltb y x.

(** *** Exceptions *)

Inductive exc_type : Type :=
| ValueError
| KeyError
| TypeError
| AttributeError
| UnicodeError
| OSError
| ConnectionRefusedError
| socket_gaierror
| socket_timeout
| ssl_SSLError
| ssl_SSLCertVerificationError
| requests_RequestException
| requests_ConnectionError
| requests_SSLError
| requests_ProxyError
| requests_Timeout
| requests_ConnectTimeout
| requests_ReadTimeout
| requests_HTTPError
| requests_TooManyRedirects
| requests_MissingSchema
| requests_InvalidSchema
| requests_InvalidURL
| requests_ChunkedEncodingError
| requests_ContentDecodingError
| OtherException (name : string).

(** An exception: its class and [str(e)]. *)
Record exn : Type := Exn { exc_class : exc_type; exc_str : string }.

(** [isinstance(e, requests.exceptions.RequestException)] *)
Definition is_RequestException (e : exn) : bool :=
  match exc_class e with
  | requests_RequestException | requests_ConnectionError | requests_SSLError
  | requests_ProxyError | requests_Timeout | requests_ConnectTimeout
  | requests_ReadTimeout | requests_HTTPError | requests_TooManyRedirects
  | requests_MissingSchema | requests_InvalidSchema | requests_InvalidURL
  | requests_ChunkedEncodingError | requests_ContentDecodingError => true
  | _ => false
  end.

(** [isinstance(e, (socket.gaierror, socket.timeout))] *)
Definition is_gaierror_or_timeout (e : exn) : bool :=
  match exc_class e with
  | socket_gaierror | socket_timeout => true
  | _ => false
  end.

(** [isinstance(e, ssl.SSLError)] *)
Definition is_SSLError (e : exn) : bool :=
  match exc_class e with
  | ssl_SSLError | ssl_SSLCertVerificationError => true
  | _ => false
  end.

(** The outcome of evaluating an expression: a value, or an exception
    on its way up. *)
Inductive result (A : Type) : Type :=
| Ok (a : A)
| Raise (e : exn).
Arguments Ok {A} a.
Arguments Raise {A} e.

End Py.

Export Py(result, Ok, Raise, exn, Exn).

(** ** What the program takes from the Python runtime and its libraries

    Pure functions of the runtime whose tables are not reproduced here.
    The program's properties are stated for every such runtime. *)

Inductive ip_version : Type := IPv4 | IPv6.

(** An iteration order for sets of strings: some enumeration of the
    elements, each once. *)
Record set_order : Type := SetOrder {
  set_list :> gset string -> list string;
  set_list_perm : forall s, set_list s ≡ₚ elements s
}.

Class Runtime : Type := {
  (** [unicodedata.normalize('NFKC', s)] *)
  unicodedata_normalize_NFKC : string -> string;
  (** [ipaddress.ip_address(s)]: the kind of address it returns, or the
      [ValueError] it raises. *)
  ipaddress_ip_address : string -> result ip_version;
  (** [urllib.parse.urljoin(base, url)] *)
  urljoin : string -> string -> result string;
  (** [list(s)] for a set [s] *)
  list_of_set : set_order
}.

(** ** [urllib.parse]: [urlsplit] and [urlparse] *)

Module urllib.
Section WithRuntime.
Context `{Runtime}.

Record ParseResult : Type := mkParseResult {
  scheme : string;
  netloc : string;
  path : string;
  params : string;
  query : string;
  fragment : string
}.

Definition uses_params : list string :=
  [EmptyString; "ftp"; "hdl"; "prospero"; "http"; "imap";
   "https"; "shttp"; "rtsp"; "rtspu"; "sip"; "sips";
   "mms"; "sftp"; "tel"].

Definition in_scheme_chars (c : ascii) : bool :=
  Py.is_lower c || Py.is_upper c || Py.is_digit c ||
  Py.has_char c "+-.".

Fixpoint all_chars (p : ascii -> bool) (s : string) : bool :=
  match s with
  | EmptyString => true
  | String a s' => p a && all_chars p s'
  end.

(** The code points 0..32. *)
Definition _WHATWG_C0_CONTROL_OR_SPACE (c : ascii) : bool := Py.code c <=? 32.

Definition TAB : ascii := ascii_of_nat 9.
Definition LF : ascii := ascii_of_nat 10.
Definition CR : ascii := ascii_of_nat 13.

(** Tab, carriage return and line feed are removed wherever they are. *)
Definition remove_unsafe (url : string) : string :=
  Py.remove_char LF (Py.remove_char CR (Py.remove_char TAB url)).

Definition is_delim (c : ascii) : bool := Py.has_char c "/?#".

(** [_splitnetloc(url, 2)] for a [url] that starts with two slashes. *)
Definition _splitnetloc (url : string) : string * string :=
  Py.break_at is_delim (Py.tail (Py.tail url)).

Definition is_hex (c : ascii) : bool :=
  Py.is_digit c ||
  ((97 <=? Py.code c) && (Py.code c <=? 102)) ||
  ((65 <=? Py.code c) && (Py.code c <=? 70)).

(** [re.match(r"\Av[a-fA-F0-9]+\..+\Z", hostname)] *)
Definition matches_IPvFuture (hostname : string) : bool :=
  match hostname with
  | String "v" rest =>
      let '(digits, after) := Py.break_at (fun c => negb (is_hex c)) rest in
      match after with
      | String "." more =>
          Py.truthy digits && Py.truthy more && negb (Py.has_char LF more)
      | _ => false
      end
  | _ => false
  end.

Definition _check_bracketed_host (hostname : string) : result unit :=
  if Py.startswith hostname "v" then
    if negb (matches_IPvFuture hostname)
    then Raise (Exn Py.ValueError "IPvFuture address is invalid")
    else Ok tt
  else
    match ipaddress_ip_address hostname with
    | Raise e => Raise e
    | Ok IPv4 =>
        Raise (Exn Py.ValueError "An IPv4 address cannot be in brackets")
    | Ok IPv6 => Ok tt
    end.

Definition _check_bracketed_netloc (netloc : string) : result unit :=
  let hostname_and_port := Py.after_last "@" netloc in
  let '(before_bracket, have_open_br, bracketed) :=
    Py.partition "[" hostname_and_port in
  if have_open_br then
    if Py.truthy before_bracket
    then Raise (Exn Py.ValueError "Invalid IPv6 URL")
    else
      let '(hostname, _, port) := Py.partition "]" bracketed in
      if Py.truthy port && negb (Py.startswith port ":")
      then Raise (Exn Py.ValueError "Invalid IPv6 URL")
      else _check_bracketed_host hostname
  else
    let '(hostname, _, port) := Py.partition ":" hostname_and_port in
    _check_bracketed_host hostname.

Definition _checknetloc (netloc : string) : result unit :=
  if negb (Py.truthy netloc) || Py.isascii netloc then Ok tt
  else
    let n := Py.remove_char "?" (Py.remove_char "#"
               (Py.remove_char ":" (Py.remove_char "@" netloc))) in
    let netloc2 := unicodedata_normalize_NFKC n in
    if String.eqb n netloc2 then Ok tt
    else if existsb (fun c => Py.has_char c netloc2)
              ["/"; "?"; "#"; "@"; ":"]%char
    then Raise (Exn Py.ValueError
                  ("netloc '" +:+ netloc +:+ "' contains invalid " +:+
                   "characters under NFKC normalization"))
    else Ok tt.

(** The scheme of [url] and what follows its colon: [i = url.find(':')]
    with [i > 0], a first character that is an ASCII letter and only
    scheme characters before the colon; otherwise no scheme. *)
Definition split_scheme (url : string) : string * string :=
  let '(before, rest) := Py.break_at (Py.chr_eqb ":") url in
  match before, rest with
  | String c0 _, String _ after =>
      if Py.is_ascii_alpha c0 && all_chars in_scheme_chars before
      then (Py.lower before, after)
      else (EmptyString, url)
  | _, _ => (EmptyString, url)
  end.

(** The network location, when [url] starts with two slashes, and the
    rest; the bracket checks may raise. *)
Definition split_netloc (url : string) : result (string * string) :=
  if Py.startswith url "//" then
    let '(netloc, url) := _splitnetloc url in
    if (Py.has_char "[" netloc && negb (Py.has_char "]" netloc)) ||
       (Py.has_char "]" netloc && negb (Py.has_char "[" netloc))
    then Raise (Exn Py.ValueError "Invalid IPv6 URL")
    else if Py.has_char "[" netloc && Py.has_char "]" netloc
    then match _check_bracketed_netloc netloc with
         | Ok _ => Ok (netloc, url)
         | Raise e => Raise e
         end
    else Ok (netloc, url)
  else Ok (EmptyString, url).

(** [url.split(c, 1)] when [c in url]: (url, what follows [c]). *)
Definition split_off (c : ascii) (url : string) : string * string :=
  let '(l, found, r) := Py.partition c url in
  if found then (l, r) else (url, EmptyString).

(** [urlsplit(url)], with the default empty scheme and fragments allowed;
    [params] is left empty. *)
Definition urlsplit (url : string) : result ParseResult :=
  let url := Py.lstrip _WHATWG_C0_CONTROL_OR_SPACE url in
  let url := remove_unsafe url in
  let '(scheme, url) := split_scheme url in
  match split_netloc url with
  | Raise e => Raise e
  | Ok (netloc, url) =>
      let '(url, fragment) := split_off "#" url in
      let '(url, query) := split_off "?" url in
      match _checknetloc netloc with
      | Raise e => Raise e
      | Ok _ => Ok (mkParseResult scheme netloc url EmptyString query fragment)
      end
  end.

(** The index of the first [c] in [s], if any. *)
Fixpoint find (c : ascii) (s : string) : option nat :=
  match s with
  | EmptyString => None
  | String a s' =>
      if Py.chr_eqb a c then Some 0%nat else S <$> find c s'
  end.

(** The index of the last [c] in [s], if any. *)
Fixpoint rfind (c : ascii) (s : string) : option nat :=
  match s with
  | EmptyString => None
  | String a s' =>
      match rfind c s' with
      | Some i => Some (S i)
      | None => if Py.chr_eqb a c then Some 0%nat else None
      end
  end.

Fixpoint drop_str (n : nat) (s : string) : string :=
  match n, s with
  | O, _ => s
  | S n', String _ s' => drop_str n' s'
  | S _, EmptyString => EmptyString
  end.

Fixpoint take_str (n : nat) (s : string) : string :=
  match n, s with
  | S n', String a s' => String a (take_str n' s')
  | _, _ => EmptyString
  end.

(** [_splitparams(url)]: split at the first semicolon of the last path
    segment. *)
Definition _splitparams (url : string) : string * string :=
  let start := default 0%nat (rfind "/" url) in
  match find ";" (drop_str start url) with
  | None => (url, EmptyString)
  | Some j =>
      let i := (start + j)%nat in
      (take_str i url, drop_str (S i) url)
  end.

(** [urlparse(url)] *)
Definition urlparse (url : string) : result ParseResult :=
  match urlsplit url with
  | Raise e => Raise e
  | Ok r =>
      if bool_decide (scheme r ∈ uses_params) && Py.has_char ";" (path r)
      then
        let '(url, params) := _splitparams (path r) in
        Ok (mkParseResult (scheme r) (netloc r) url params
              (query r) (fragment r))
      else Ok r
  end.

End WithRuntime.
End urllib.

(** ** The outside world: calls, programs and their runs *)

(** [requests.Response], the attributes the program reads. *)
Record Response : Type := mkResponse {
  status_code : Z;
  headers : gmap string string;
  text : string
}.

(** [response.ok]: [raise_for_status()] would not raise. *)
Definition ok (r : Response) : bool :=
  negb ((400 <=? status_code r) && (status_code r <? 600)).

(** A [bs4] tag: its attributes and its [.string]. *)
Record Tag : Type := mkTag {
  attrs : gmap string string;
  tag_string : option string
}.

(** A parsed document, as the answers to the four queries made of it. *)
Record Soup : Type := mkSoup {
  (** [soup.find_all('a', href=True)] *)
  find_all_a_href : list Tag;
  (** [soup.find('meta', attrs={'name': 'viewport'})] *)
  find_meta_viewport : option Tag;
  (** [soup.find_all('style')] *)
  find_all_style : list Tag;
  (** [soup.find_all('link', rel='stylesheet')] *)
  find_all_link_stylesheet : list Tag
}.

Inductive socket : Type := Socket (fd : Z).
Inductive SSLContext : Type := DefaultContext.

(** A naive [datetime], in microseconds. *)
Definition datetime : Type := Z.

(** [ssock.getpeercert()]: [None], or a dictionary. *)
Definition peercert : Type := option (gmap string string).

Inductive call : Type :=
| time_time
| requests_get (url : string) (timeout : Z)
    (hdrs : list (string * string)) (allow_redirects : bool)
| requests_head (url : string) (allow_redirects : bool) (timeout : Z)
    (hdrs : list (string * string))
| BeautifulSoup (markup : string) (features : string)
| ssl_create_default_context
| socket_create_connection (host : string) (port : Z) (timeout : Z)
| wrap_socket (context : SSLContext) (sock : socket) (server_hostname : string)
| getpeercert (ssock : socket)
| datetime_strptime (date_string format : string)
| datetime_utcnow
| url_input_value
| output_clear
| print (line : string).

#[global] Instance socket_eq_dec : EqDecision socket.
Proof. solve_decision. Defined.

#[global] Instance SSLContext_eq_dec : EqDecision SSLContext.
Proof. solve_decision. Defined.

#[global] Instance call_eq_dec : EqDecision call.
Proof. solve_decision. Defined.

(** What the world gives back.  A call that can fail answers with a
    [result]. *)
Definition answer (c : call) : Type :=
  match c with
  | time_time => float
  | requests_get _ _ _ _ => result Response
  | requests_head _ _ _ _ => result Response
  | BeautifulSoup _ _ => result Soup
  | ssl_create_default_context => result SSLContext
  | socket_create_connection _ _ _ => result socket
  | wrap_socket _ _ _ => result socket
  | getpeercert _ => result peercert
  | datetime_strptime _ _ => result datetime
  | datetime_utcnow => datetime
  | url_input_value => string
  | output_clear => unit
  | print _ => unit
  end.

Inductive prog (A : Type) : Type :=
| Ret (a : A)
| Do (c : call) (k : answer c -> prog A).
Arguments Ret {A} a.
Arguments Do {A} c k.

Fixpoint prog_bind {A B} (p : prog A) (f : A -> prog B) : prog B :=
  match p with
  | Ret a => f a
  | Do c k => Do c (fun x => prog_bind (k x) f)
  end.

(** Programs that may raise. *)
Definition M (A : Type) : Type := prog (result A).

Definition ret {A} (a : A) : M A := Ret (Ok a).
Definition raise {A} (e : exn) : M A := Ret (Raise e).

Definition bind {A B} (p : M A) (f : A -> M B) : M B :=
  prog_bind p (fun r => match r with Ok a => f a | Raise e => raise e end).

(** [try: body  except ... as e: handler e]; a handler re-raises what its
    clauses do not match. *)
Definition try_except {A} (body : M A) (handler : exn -> M A) : M A :=
  prog_bind body (fun r => match r with Ok a => ret a | Raise e => handler e end).

(** A pure expression that may raise, as a step of a program. *)
Definition lift {A} (r : result A) : M A := Ret r.

Declare Scope prog_scope.
Delimit Scope prog_scope with prog.
Notation "x <- p ;; q" := (bind p (fun x => q))
  (at level 100, p at next level, right associativity) : prog_scope.
Notation "p ;; q" := (bind p (fun _ => q))
  (at level 100, right associativity) : prog_scope.
Local Open Scope prog_scope.

(** The calls as steps. *)
Definition call_time : M float := Do time_time (fun t => ret t).
Definition call_utcnow : M datetime := Do datetime_utcnow (fun t => ret t).
Definition call_print (line : string) : M unit := Do (print line) (fun _ => ret tt).
Definition call_widget_value : M string := Do url_input_value (fun v => ret v).
Definition call_output_clear : M unit := Do output_clear (fun _ => ret tt).
Definition call_get url timeout hdrs redirects : M Response :=
  Do (requests_get url timeout hdrs redirects) Ret.
Definition call_head url redirects timeout hdrs : M Response :=
  Do (requests_head url redirects timeout hdrs) Ret.
Definition call_BeautifulSoup markup features : M Soup :=
  Do (BeautifulSoup markup features) Ret.
Definition call_create_default_context : M SSLContext :=
  Do ssl_create_default_context Ret.
Definition call_create_connection host port timeout : M socket :=
  Do (socket_create_connection host port timeout) Ret.
Definition call_wrap_socket ctx sock hostname : M socket :=
  Do (wrap_socket ctx sock hostname) Ret.
Definition call_getpeercert ssock : M peercert := Do (getpeercert ssock) Ret.
Definition call_strptime s fmt : M datetime := Do (datetime_strptime s fmt) Ret.

(** *** Runs

    An event is a call with the answer it got; [exec p tr a] says that [p]
    can make exactly the calls of [tr], get those answers, and end with
    [a]. *)

Definition event : Type := { c : call & answer c }.

Definition Event (c : call) (x : answer c) : event := existT c x.

Fixpoint exec {A} (p : prog A) (tr : list event) (a : A) : Prop :=
  match p with
  | Ret x => tr = [] /\ a = x
  | Do c k => exists (x : answer c) (tr' : list event),
                tr = Event c x :: tr' /\ exec (k x) tr' a
  end.

(** A world that answers the [n]-th call of a run. *)
Definition world : Type := nat -> forall c : call, answer c.

Fixpoint run_from {A} (w : world) (n : nat) (p : prog A) : list event * A :=
  match p with
  | Ret x => ([], x)
  | Do c k =>
      let x := w n c in
      let '(tr, a) := run_from w (S n) (k x) in
      (Event c x :: tr, a)
  end.

Definition run {A} (w : world) (p : prog A) : list event * A := run_from w 0 p.

(** The calls of a trace, and the exception an event carries, if any. *)
Definition calls (tr : list event) : list call := map (fun ev => projT1 ev) tr.

Definition raised (ev : event) : option exn :=
  match ev with
  | existT c x =>
      match c return answer c -> option exn with
      | requests_get _ _ _ _ | requests_head _ _ _ _ | BeautifulSoup _ _
      | ssl_create_default_context | socket_create_connection _ _ _
      | wrap_socket _ _ _ | getpeercert _ | datetime_strptime _ _ =>
          fun r => match r with Ok _ => None | Raise e => Some e end
      | _ => fun _ => None
      end x
  end.

(** The calls that reach the network. *)
Definition is_network (c : call) : bool :=
  match c with
  | requests_get _ _ _ _ | requests_head _ _ _ _
  | socket_create_connection _ _ _ | wrap_socket _ _ _ | getpeercert _ => true
  | _ => false
  end.

(** The calls that write to the terminal. *)
Definition is_print (c : call) : bool :=
  match c with
  | print _ => true
  | _ => false
  end.

(** The link of a [requests.head] call. *)
Definition head_url (c : call) : option string :=
  match c with
  | requests_head u _ _ _ => Some u
  | _ => None
  end.

Definition head_requests (tr : list event) : list string :=
  omap head_url (calls tr).

(** ** The program *)

Module CONFIG.
Definition REQUEST_TIMEOUT : Z := 15.
Definition HEAD_REQUEST_TIMEOUT : Z := 8.
Definition SSL_EXPIRY_THRESHOLD : Z := 15.
Definition MAX_LINKS_TO_CHECK : Z := 20.
End CONFIG.

Definition NL : string := String (ascii_of_nat 10) EmptyString.

(** [l[:n]] for a non-negative [n]. *)
Definition slice_to {A} (n : Z) (l : list A) : list A := take (Z.to_nat n) l.

(** [sep.join(l)] *)
Fixpoint join (sep : string) (l : list string) : string :=
  match l with
  | [] => EmptyString
  | [x] => x
  | x :: rest => x +:+ sep +:+ join sep rest
  end.

(** The second component of [check_site_status]'s tuple: the status code,
    or the text of the failure. *)
Inductive status_value : Type :=
| StatusCode (n : Z)
| StatusText (s : string).

Definition str_status (v : status_value) : string :=
  match v with
  | StatusCode n => Py.str_int n
  | StatusText s => s
  end.

(** [str(days_left)] *)
Definition str_days (d : option Z) : string :=
  match d with
  | Some n => Py.str_int n
  | None => "None"
  end.

Definition site_status : Type :=
  bool * status_value * gmap string string * option float.

(** The local dictionary [results] of [run_website_test], key by key. *)
Record Results : Type := mkResults {
  r_status : option site_status;
  r_ssl : option (bool * option Z);
  r_broken_links : option (list string);
  r_mobile : option (bool * list string);
  r_suggestions : option (list string)
}.

Definition no_results : Results := mkResults None None None None None.

(** [results[key]] *)
Definition getitem {A} (key : string) (v : option A) : M A :=
  match v with
  | Some a => ret a
  | None => raise (Exn Py.KeyError ("'" +:+ key +:+ "'"))
  end.

Section Program.
Context `{Runtime}.

(** *** 1. Validate URL *)
Definition validate_url (url : string) : result string :=
  if negb (Py.truthy url)
  then Raise (Exn Py.ValueError "URL cannot be empty")
  else
    (* Add protocol if missing *)
    let url :=
      if negb (Py.startswith url "http://" || Py.startswith url "https://")
      then "https://" +:+ url
      else url in
    (* Parse and validate URL structure *)
    match urllib.urlparse url with
    | Raise e => Raise e
    | Ok parsed =>
        if negb (Py.truthy (urllib.netloc parsed))
        then Raise (Exn Py.ValueError ("Invalid URL: " +:+ url))
        else Ok url
    end.

(** *** 2. Check if site is reachable *)
Definition status_headers : list (string * string) :=
  [("User-Agent", "Mozilla/5.0 (Windows NT 10.0; Win64; x64) AppleWebKit/537.36 (KHTML, like Gecko) Chrome/91.0.4472.124 Safari/537.36");
   ("Accept", "text/html,application/xhtml+xml,application/xml;q=0.9,image/webp,*/*;q=0.8");
   ("Accept-Language", "en-US,en;q=0.5")].

Definition check_site_status_try (url : string) : M site_status :=
  start_time <- call_time ;;
  response <- call_get url CONFIG.REQUEST_TIMEOUT status_headers true ;;
  end_time <- call_time ;;
  let load_time := PrimFloat.sub end_time start_time in
  ret (true, StatusCode (status_code response), headers response,
       Some load_time).

Definition check_site_status (url : string) : M site_status :=
  try_except (check_site_status_try url)
    (fun e =>
       if Py.is_RequestException e
       then ret (false, StatusText (Py.exc_str e), ∅, None)
       else raise e).

(** *** 3. Check SSL Certificate *)
Definition microseconds_per_day : Z := 86400 * 1000000.

(** [(expires - now).days] *)
Definition timedelta_days (expires now : datetime) : Z :=
  (expires - now) / microseconds_per_day.

Definition check_ssl_certificate_try (url : string) : M (bool * option Z) :=
  parsed_url <- lift (urllib.urlparse url) ;;
  let hostname := urllib.netloc parsed_url in
  (* Handle cases where hostname includes port number *)
  let hostname :=
    if Py.has_char ":" hostname then Py.split_first ":" hostname
    else hostname in
  context <- call_create_default_context ;;
  sock <- call_create_connection hostname 443 CONFIG.REQUEST_TIMEOUT ;;
  ssock <- call_wrap_socket context sock hostname ;;
  cert <- call_getpeercert ssock ;;
  (* Check if certificate is valid and extract expiration date *)
  match cert with
  | Some entries =>
      if bool_decide (entries ≠ ∅) then
        expires_str <- getitem "notAfter" (entries !! "notAfter") ;;
        expires <- call_strptime expires_str "%b %d %H:%M:%S %Y %Z" ;;
        now <- call_utcnow ;;
        let days_left := timedelta_days expires now in
        ret (true, Some days_left)
      else ret (false, None)
  | None => ret (false, None)
  end.

Definition check_ssl_certificate (url : string) : M (bool * option Z) :=
  try_except (check_ssl_certificate_try url)
    (fun e =>
       if Py.is_gaierror_or_timeout e then ret (false, None)
       else if Py.is_SSLError e then ret (false, None)
       else ret (false, None)).

(** *** 4. Check for broken links *)
Definition links_headers : list (string * string) :=
  [("User-Agent", "Mozilla/5.0 (Windows NT 10.0; Win64; x64) AppleWebKit/537.36 (KHTML, like Gecko) Chrome/91.0.4472.124 Safari/537.36")].

(** The loop that collects the links: the set after the anchors
    [a_tags], starting from [links]. *)
Fixpoint collect_links (url : string) (a_tags : list Tag)
    (links : gset string) : result (gset string) :=
  match a_tags with
  | [] => Ok links
  | a_tag :: rest =>
      match attrs a_tag !! "href" with
      | None => Raise (Exn Py.KeyError "'href'")
      | Some href =>
          if negb (Py.startswith href "#") &&
             negb (Py.startswith href "javascript:")
          then
            match urljoin url href with
            | Raise e => Raise e
            | Ok full_url =>
                (* Only check links from the same domain *)
                match urllib.urlparse full_url with
                | Raise e => Raise e
                | Ok parsed_full =>
                    match urllib.urlparse url with
                    | Raise e => Raise e
                    | Ok parsed =>
                        if String.eqb (urllib.netloc parsed_full)
                             (urllib.netloc parsed)
                        then collect_links url rest ({[full_url]} ∪ links)
                        else collect_links url rest links
                    end
                end
            end
          else collect_links url rest links
      end
  end.

(** The loop that checks the links.  The list [broken] is shared with
    the handler of the enclosing [try], so the loop hands it back with
    the exception that ended it early, if one did. *)
Fixpoint check_links (links_to_check : list string) (broken : list string)
    : prog (list string * option exn) :=
  match links_to_check with
  | [] => Ret (broken, None)
  | link :: rest =>
      Do (requests_head link true CONFIG.HEAD_REQUEST_TIMEOUT links_headers)
         (fun r =>
            match r with
            | Ok resp =>
                if status_code resp >=? 400
                then check_links rest
                       (broken ++ [link +:+ " (Status: " +:+
                                   Py.str_int (status_code resp) +:+ ")"])
                else check_links rest broken
            | Raise e =>
                if Py.is_RequestException e
                then check_links rest
                       (broken ++ [link +:+ " (Error: Connection failed)"])
                else Ret (broken, Some e)
            end)
  end.

(** The links the loop checks, for a parsed page. *)
Definition links_to_check (links : gset string) : list string :=
  slice_to CONFIG.MAX_LINKS_TO_CHECK (list_of_set links).

(** The body of the [try], given the list [broken] as it is on entry.
    It ends with [broken] as it is on exit and with the exception that
    left the block, if one did. *)
Definition find_broken_links_try (url : string) (broken : list string)
    : prog (list string * option exn) :=
  Do (requests_get url CONFIG.REQUEST_TIMEOUT links_headers true)
     (fun r =>
        match r with
        | Raise e => Ret (broken, Some e)
        | Ok response =>
            if negb (ok response) then Ret (broken, None)
            else
              Do (BeautifulSoup (text response) "html.parser")
                 (fun r =>
                    match r with
                    | Raise e => Ret (broken, Some e)
                    | Ok soup =>
                        (* Collect all links *)
                        match collect_links url (find_all_a_href soup) ∅ with
                        | Raise e => Ret (broken, Some e)
                        | Ok links =>
                            (* Check each link *)
                            check_links (links_to_check links) broken
                        end
                    end)
        end).

(** Both ways out of the [try] return [broken]. *)
Definition find_broken_links (url : string) : M (list string) :=
  prog_bind (find_broken_links_try url [])
    (fun '(broken, stopped) =>
       match stopped with
       | None => ret broken
       | Some _ => ret broken
       end).

(** *** 5. Check for mobile responsiveness *)
Definition mobile_headers : list (string * string) :=
  [("User-Agent", "Mozilla/5.0 (iPhone; CPU iPhone OS 13_5 like Mac OS X) " +:+
                  "AppleWebKit/605.1.15 (KHTML, like Gecko) Version/13.1.1 Mobile/15E148 Safari/604.1");
   ("Accept", "text/html,application/xhtml+xml,application/xml;q=0.9,image/webp,*/*;q=0.8")].

(** [tag.get(key, '')] *)
Definition tag_get (t : Tag) (key : string) : string :=
  default EmptyString (attrs t !! key).

Definition responsive_frameworks : list string :=
  ["bootstrap"; "foundation"; "materialize"; "bulma"; "tailwind"].

Definition check_mobile_responsiveness_try (url : string)
    : M (bool * list string) :=
  response <- call_get url CONFIG.REQUEST_TIMEOUT mobile_headers true ;;
  soup <- call_BeautifulSoup (text response) "html.parser" ;;
  (* Check for viewport meta tag *)
  let has_viewport :=
    match find_meta_viewport soup with
    | Some viewport =>
        Py.contains "width=device-width" (Py.lower (tag_get viewport "content")) ||
        Py.contains "initial-scale" (Py.lower (tag_get viewport "content"))
    | None => false
    end in
  (* Check for media queries in style tags *)
  let media_queries :=
    existsb (fun style =>
               match tag_string style with
               | Some s => Py.truthy s && Py.contains "@media" s
               | None => false
               end) (find_all_style soup) in
  (* Check for responsive frameworks *)
  let frameworks :=
    existsb (fun link =>
               let href := Py.lower (tag_get link "href") in
               existsb (fun fw => Py.contains fw href) responsive_frameworks)
            (find_all_link_stylesheet soup) in
  (* Overall assessment *)
  let responsive := has_viewport || media_queries || frameworks in
  let details : list string := [] in
  let details :=
    if has_viewport then details ++ ["Has viewport meta tag"] else details in
  let details :=
    if media_queries then details ++ ["Uses media queries"] else details in
  let details :=
    if frameworks then details ++ ["Uses responsive framework"] else details in
  ret (responsive, details).

Definition check_mobile_responsiveness (url : string)
    : M (bool * list string) :=
  try_except (check_mobile_responsiveness_try url)
    (fun _ => ret (false, ["Error checking responsiveness"])).

(** *** 6. Generate suggestions *)
Definition generate_suggestions (ssl_ok : bool) (days_left : option Z)
    (broken : list string) (mobile_result : bool * list string)
    (load_time : option float) : list string :=
  let '(mobile_friendly, mobile_details) := mobile_result in
  let suggestions : list string := [] in
  (* SSL suggestions *)
  let suggestions :=
    if negb ssl_ok
    then suggestions ++
           ["Install a valid SSL certificate using Let's Encrypt or a trusted CA"]
    else
      match days_left with
      | Some d =>
          if d <? CONFIG.SSL_EXPIRY_THRESHOLD
          then suggestions ++
                 ["Renew your SSL certificate soon. It expires in " +:+
                  Py.str_int d +:+ " days"]
          else suggestions
      | None => suggestions
      end in
  (* Broken links suggestions *)
  let suggestions :=
    match broken with
    | [] => suggestions
    | _ :: _ =>
        suggestions ++
          ["Fix " +:+ Py.str_int (Z.of_nat (length broken)) +:+
           " broken links on your website"]
    end in
  (* Mobile responsiveness suggestions *)
  let suggestions :=
    if negb mobile_friendly
    then (suggestions ++
            ["Improve mobile responsiveness by adding a viewport meta tag"]) ++
           ["Consider using responsive frameworks like Bootstrap or Tailwind CSS"]
    else suggestions in
  (* Performance suggestions *)
  let suggestions :=
    match load_time with
    | Some t =>
        if Py.float_truthy t && Py.float_gt t 3
        then ((suggestions ++
                 ["Optimize page load time (currently " +:+
                  Py.format_2f t +:+ "s)"]) ++
                ["Compress images and minify CSS/JavaScript files"]) ++
               ["Consider using a CDN for static assets"]
        else suggestions
    | None => suggestions
    end in
  suggestions.

(** *** 7. Main function *)

(** [for i, link in enumerate(broken[:5]): print(...)], from index [i]. *)
Fixpoint print_links (i : Z) (links : list string) : M unit :=
  match links with
  | [] => ret tt
  | link :: rest =>
      call_print ("   " +:+ Py.str_int (i + 1) +:+ ". " +:+ Py.utf8 link) ;;
      print_links (i + 1) rest
  end.

(** [for suggestion in suggestions: print(...)] *)
Fixpoint print_suggestions (suggestions : list string) : M unit :=
  match suggestions with
  | [] => ret tt
  | suggestion :: rest =>
      call_print ("  • " +:+ Py.utf8 suggestion) ;;
      print_suggestions rest
  end.

(** The [try] block from the point where [check_site_status] has
    returned [st] and [results['status']] holds it.  It ends with the
    dictionary [results], which the Python function builds and then
    drops. *)
Definition run_website_test_from_status (url : string) (results : Results)
    : M Results :=
  st <- getitem "status" (r_status results) ;;
  let '(reachable, status, _, load_time) := st in
  results <-
    (if reachable : bool then
       call_print ("✅ Site is reachable (Status: " +:+ Py.utf8 (str_status status) +:+ ")") ;;
       (match load_time with
        | Some t =>
            if Py.float_truthy t
            then call_print ("⏱️ Load time: " +:+ Py.format_2f t +:+ " seconds")
            else ret tt
        | None => ret tt
        end) ;;
       ret results
     else
       call_print ("❌ Site is not reachable: " +:+ Py.utf8 (str_status status)) ;;
       ret (mkResults (r_status results) (Some (false, None)) (Some [])
              (Some (false, ["Site not reachable"])) (r_suggestions results))) ;;
  results <-
    (if reachable : bool then
       (* Check SSL certificate *)
       call_print (NL +:+ "⏳ Checking SSL certificate...") ;;
       ssl <- check_ssl_certificate url ;;
       let results := mkResults (r_status results) (Some ssl)
                        (r_broken_links results) (r_mobile results)
                        (r_suggestions results) in
       ssl <- getitem "ssl" (r_ssl results) ;;
       let '(ssl_ok, days_left) := ssl in
       (if ssl_ok : bool
        then call_print ("✅ SSL certificate is valid (Expires in: " +:+
                         str_days days_left +:+ " days)")
        else call_print "❌ Invalid or missing SSL certificate") ;;
       (* Find broken links *)
       call_print (NL +:+ "⏳ Checking for broken links...") ;;
       found <- find_broken_links url ;;
       let results := mkResults (r_status results) (r_ssl results)
                        (Some found) (r_mobile results)
                        (r_suggestions results) in
       broken <- getitem "broken_links" (r_broken_links results) ;;
       (match broken with
        | [] => call_print "✅ No broken links found"
        | _ :: _ =>
            call_print ("❌ Found " +:+ Py.str_int (Z.of_nat (length broken)) +:+
                        " broken links:") ;;
            print_links 0 (slice_to 5 broken) ;;
            if Z.of_nat (length broken) >? 5
            then call_print ("   ... and " +:+
                             Py.str_int (Z.of_nat (length broken) - 5) +:+ " more")
            else ret tt
        end) ;;
       (* Check mobile responsiveness *)
       call_print (NL +:+ "⏳ Checking mobile responsiveness...") ;;
       mobile <- check_mobile_responsiveness url ;;
       let results := mkResults (r_status results) (r_ssl results)
                        (r_broken_links results) (Some mobile)
                        (r_suggestions results) in
       mobile <- getitem "mobile" (r_mobile results) ;;
       let '(mobile_friendly, mobile_details) := mobile in
       (if mobile_friendly : bool
        then call_print ("✅ Site appears to be mobile responsive (" +:+
                         Py.utf8 (join ", " mobile_details) +:+ ")")
        else call_print "⚠️ Site may not be fully mobile responsive") ;;
       ret results
     else ret results) ;;
  (* Generate suggestions *)
  ssl <- getitem "ssl" (r_ssl results) ;;
  let '(ssl_ok, days_left) := ssl in
  broken <- getitem "broken_links" (r_broken_links results) ;;
  mobile_result <- getitem "mobile" (r_mobile results) ;;
  let suggestions :=
    generate_suggestions ssl_ok days_left broken mobile_result load_time in
  let results := mkResults (r_status results) (r_ssl results)
                   (r_broken_links results) (r_mobile results)
                   (Some suggestions) in
  (* Print recommendations *)
  call_print (NL +:+ "📝 RECOMMENDATIONS:") ;;
  (match suggestions with
   | [] => call_print "  ✅ Your site is in excellent health. Keep it up!"
   | _ :: _ => print_suggestions suggestions
   end) ;;
  call_print (NL +:+ "✅ Health check completed!" +:+ NL) ;;
  ret results.

(** The body of the [try]. *)
Definition run_website_test_try (url : string) : M Results :=
  url <- lift (validate_url url) ;;
  call_print (NL +:+ "📊 Starting health check for " +:+ Py.utf8 url +:+ "..." +:+ NL) ;;
  let results := no_results in
  (* Check site status *)
  call_print "⏳ Checking site status..." ;;
  st <- check_site_status url ;;
  let results := mkResults (Some st) (r_ssl results) (r_broken_links results)
                   (r_mobile results) (r_suggestions results) in
  run_website_test_from_status url results.

(** [run_website_test(url)]: the dictionary it built, [None] when the
    handler reported an error instead. *)
Definition run_website_test (url : string) : M (option Results) :=
  try_except
    (results <- run_website_test_try url ;; ret (Some results))
    (fun e =>
       call_print ("❌ An error occurred: " +:+ Py.utf8 (Py.exc_str e)) ;;
       ret None).

(** *** The button *)

(** The characters [str.strip()] removes, among the code points below
    256. *)
Definition is_space (c : ascii) : bool :=
  let n := Py.code c in
  ((9 <=? n) && (n <=? 13)) || ((28 <=? n) && (n <=? 32)) ||
  (n =? 133) || (n =? 160).

Fixpoint rstrip (s : string) : string :=
  match s with
  | EmptyString => EmptyString
  | String a s' =>
      match rstrip s' with
      | EmptyString => if is_space a then EmptyString else String a EmptyString
      | t => String a t
      end
  end.

(** [s.strip()] *)
Definition strip (s : string) : string := rstrip (Py.lstrip is_space s).

Definition run_check : M (option Results) :=
  value <- call_widget_value ;;
  let url := strip value in
  if Py.truthy url then
    call_output_clear ;;
    run_website_test url
  else
    call_print "Please enter a valid URL" ;;
    ret None.

End Program.

(** ** The suggestion rules of the design, one by one

    The texts are the program's; the rules and their order are those of
    the design document (section 4.6). *)

Module Rules.

Definition install_certificate : string :=
  "Install a valid SSL certificate using Let's Encrypt or a trusted CA".
Definition renew_certificate (days : Z) : string :=
  "Renew your SSL certificate soon. It expires in " +:+ Py.str_int days +:+ " days".
Definition fix_broken_links (count : nat) : string :=
  "Fix " +:+ Py.str_int (Z.of_nat count) +:+ " broken links on your website".
Definition add_viewport : string :=
  "Improve mobile responsiveness by adding a viewport meta tag".
Definition use_framework : string :=
  "Consider using responsive frameworks like Bootstrap or Tailwind CSS".
Definition optimize_load_time (seconds : float) : string :=
  "Optimize page load time (currently " +:+ Py.format_2f seconds +:+ "s)".
Definition compress_assets : string :=
  "Compress images and minify CSS/JavaScript files".
Definition use_cdn : string :=
  "Consider using a CDN for static assets".

(** 1. Certificate invalid: install; else expiry present and below the
    threshold: renew. *)
Definition certificate (valid : bool) (daysUntilExpiry : option Z) : list string :=
  if valid then
    match daysUntilExpiry with
    | Some d => if d <? CONFIG.SSL_EXPIRY_THRESHOLD
                then [renew_certificate d] else []
    | None => []
    end
  else [install_certificate].

(** 2. Broken links non-empty: name the count. *)
Definition links (brokenLinks : list string) : list string :=
  match brokenLinks with
  | [] => []
  | _ :: _ => [fix_broken_links (length brokenLinks)]
  end.

(** 3. Not responsive: two suggestions. *)
Definition responsiveness (responsive : bool) : list string :=
  if responsive then [] else [add_viewport; use_framework].

(** 4. Load time present and above 3.0: three suggestions. *)
Definition performance (loadTimeSeconds : option float) : list string :=
  match loadTimeSeconds with
  | Some t => if Py.float_gt t 3
              then [optimize_load_time t; compress_assets; use_cdn] else []
  | None => []
  end.

Definition synthesize (valid : bool) (daysUntilExpiry : option Z)
    (brokenLinks : list string) (responsive : bool)
    (loadTimeSeconds : option float) : list string :=
  certificate valid daysUntilExpiry ++ links brokenLinks ++
  responsiveness responsive ++ performance loadTimeSeconds.

End Rules.

(** ** Notions the properties are stated with *)

(** What [validate_url] does to an input it does not reject as empty. *)
Definition with_scheme (url : string) : string :=
  if Py.startswith url "http://" || Py.startswith url "https://"
  then url else "https://" +:+ url.

(** The characters [urlsplit] removes from a URL wherever they stand: tab,
    line feed and carriage return. *)
Definition tab_or_line_end (c : ascii) : bool :=
  Py.has_char c
    (String urllib.TAB (String urllib.LF (String urllib.CR EmptyString))).

(** Some call of the run raised [e]. *)
Definition raised_in (tr : list event) (e : exn) : Prop :=
  exists ev, ev ∈ tr /\ raised ev = Some e.

(** The ways the network fails under [requests.get], and the exception
    [requests] raises for each. *)
Inductive network_failure : Type :=
| DNS_failure
| connection_refused
| connect_timeout
| read_timeout
| TLS_handshake_failure.

Definition requests_exception (f : network_failure) : Py.exc_type :=
  match f with
  | DNS_failure | connection_refused => Py.requests_ConnectionError
  | connect_timeout => Py.requests_ConnectTimeout
  | read_timeout => Py.requests_ReadTimeout
  | TLS_handshake_failure => Py.requests_SSLError
  end.

(** The entry [find_broken_links] writes for a link it found broken. *)
Definition reports (link entry : string) : Prop :=
  (exists n : Z, 400 <= n /\
                 entry = link +:+ " (Status: " +:+ Py.str_int n +:+ ")") \/
  entry = link +:+ " (Error: Connection failed)".

(** [link] is what an anchor of the page resolves to, the anchor's [href]
    starts with neither [#] nor [javascript:], and the resolved network
    location is the page's. *)
Definition same_domain_anchor `{Runtime} (url : string) (soup : Soup)
    (link : string) : Prop :=
  exists tag href parsed_full parsed,
    tag ∈ find_all_a_href soup /\
    attrs tag !! "href" = Some href /\
    Py.startswith href "#" = false /\
    Py.startswith href "javascript:" = false /\
    urljoin url href = Ok link /\
    urllib.urlparse link = Ok parsed_full /\
    urllib.urlparse url = Ok parsed /\
    urllib.netloc parsed_full = urllib.netloc parsed.

(** ** A runtime and worlds for the examples *)

(** On the URLs of the examples (ASCII, no brackets, references that are
    absolute or a bare file name under a base ending in a slash) these are
    Python's answers. *)
Definition example_runtime : Runtime := {|
  unicodedata_normalize_NFKC := fun s => s;
  ipaddress_ip_address := fun s =>
    Raise (Exn Py.ValueError
             ("'" +:+ s +:+ "' does not appear to be an IPv4 or IPv6 address"));
  urljoin := fun base url =>
    Ok (if Py.contains "://" url then url else base +:+ url);
  list_of_set := SetOrder elements (fun s => reflexivity (elements s))
|}.

(** The exceptions of the examples. *)
Definition name_not_resolved : exn :=
  Exn Py.requests_ConnectionError
    "HTTPSConnectionPool(host='example.invalid', port=443): Max retries exceeded".
Definition gaierror : exn :=
  Exn Py.socket_gaierror "[Errno -2] Name or service not known".
Definition handshake_failure : exn :=
  Exn Py.ssl_SSLError "[SSL: SSLV3_ALERT_HANDSHAKE_FAILURE] sslv3 alert handshake failure".
Definition bad_date : exn :=
  Exn Py.ValueError "time data does not match format".

Definition empty_soup : Soup := mkSoup [] None [] [].

(** A world without network: no name resolves. *)
Definition offline_world : world := fun n c =>
  match c return answer c with
  | time_time => 1000%float
  | requests_get _ _ _ _ => Raise name_not_resolved
  | requests_head _ _ _ _ => Raise name_not_resolved
  | BeautifulSoup _ _ => Ok empty_soup
  | ssl_create_default_context => Ok DefaultContext
  | socket_create_connection _ _ _ => Raise gaierror
  | wrap_socket _ _ _ => Raise handshake_failure
  | getpeercert _ => Ok None
  | datetime_strptime _ _ => Raise bad_date
  | datetime_utcnow => 0
  | url_input_value => "example.invalid"
  | output_clear => tt
  | print _ => tt
  end.

(** A world where the host answers the fetch but its HTML does not
    parse. *)
Definition unparsable_world : world := fun n c =>
  match c return answer c with
  | requests_get _ _ _ _ => Ok (mkResponse 200 ∅ "<html")
  | BeautifulSoup _ _ => Raise (Exn Py.TypeError "object of type 'NoneType' has no len()")
  | c => offline_world n c
  end.

(** A page with five anchors: two to the same host, one to another host,
    a fragment and a script link. *)
Definition anchor (href : string) : Tag := mkTag {[ "href" := href ]} None.

Definition example_soup : Soup :=
  mkSoup
    [anchor "about"; anchor "#top"; anchor "javascript:void(0)";
     anchor "https://other.example.org/x"; anchor "missing"; anchor "about"]
    None [] [].

(** A world where the host serves that page; its link [missing] answers
    404, the other one 200.  The clock advances 2.25 seconds per call. *)
Definition online_world : world := fun n c =>
  match c return answer c with
  | time_time => Nat.iter n (fun t => PrimFloat.add t 2.25) 1000%float
  | requests_get _ _ _ _ => Ok (mkResponse 200 ∅ "<html>...</html>")
  | requests_head u _ _ _ =>
      Ok (mkResponse (if Py.contains "missing" u then 404 else 200) ∅ EmptyString)
  | BeautifulSoup _ _ => Ok example_soup
  | ssl_create_default_context => Ok DefaultContext
  | socket_create_connection _ _ _ => Ok (Socket 3)
  | wrap_socket _ _ _ => Ok (Socket 4)
  | getpeercert _ => Ok (Some {[ "notAfter" := "Dec 31 23:59:59 2026 GMT" ]})
  | datetime_strptime _ _ => Ok (40 * microseconds_per_day + 5)
  | datetime_utcnow => 0
  | url_input_value => "  example.com/ "
  | output_clear => tt
  | print _ => tt
  end.

(** A world where the text box holds blanks only. *)
Definition blank_world : world := fun n c =>
  match c return answer c with
  | url_input_value => "   "
  | c => offline_world n c
  end.

(** What [run_website_test] leaves in [results] in the world without
    network. *)
Definition unreachable_results : Results :=
  {| r_status := Some (false, StatusText (Py.exc_str name_not_resolved), ∅, None);
     r_ssl := Some (false, None);
     r_broken_links := Some [];
     r_mobile := Some (false, ["Site not reachable"]);
     r_suggestions :=
       Some ["Install a valid SSL certificate using Let's Encrypt or a trusted CA";
             "Improve mobile responsiveness by adding a viewport meta tag";
             "Consider using responsive frameworks like Bootstrap or Tailwind CSS"] |}.

(** The link probe on the example page. *)
Definition example_links_run : list event * result (list string) :=
  run online_world (@find_broken_links example_runtime "https://example.com/").

(** ** Further notions and worlds *)

(** What the link loop writes for one event of its run: an entry for a
    [requests.head] answered with a status of 400 or more or with a
    [RequestException], nothing for anything else. *)
Definition head_report (ev : event) : option string :=
  match ev with
  | existT c x =>
      match c return answer c -> option string with
      | requests_head link _ _ _ =>
          fun r =>
            match r with
            | Ok resp =>
                if status_code resp >=? 400
                then Some (link +:+ " (Status: " +:+
                           Py.str_int (status_code resp) +:+ ")")
                else None
            | Raise e =>
                if Py.is_RequestException e
                then Some (link +:+ " (Error: Connection failed)")
                else None
            end
      | _ => fun _ => None
      end x
  end.

(** The three labels of [check_mobile_responsiveness], in its order. *)
Definition responsiveness_labels : list string :=
  ["Has viewport meta tag"; "Uses media queries"; "Uses responsive framework"].

(** An exception of the HTTP client that is not a [RequestException]. *)
Definition label_too_long : exn :=
  Exn Py.UnicodeError "encoding with 'idna' codec failed (UnicodeError: label empty or too long)".

(** A world where the HTTP client fails with that exception. *)
Definition failing_client_world : world := fun n c =>
  match c return answer c with
  | requests_get _ _ _ _ => Raise label_too_long
  | requests_head _ _ _ _ => Raise label_too_long
  | c => offline_world n c
  end.

(** A world where the host answers every request with 404. *)
Definition not_found_world : world := fun n c =>
  match c return answer c with
  | requests_get _ _ _ _ => Ok (mkResponse 404 ∅ "Not Found")
  | requests_head _ _ _ _ => Ok (mkResponse 404 ∅ EmptyString)
  | c => online_world n c
  end.

(** A world like [online_world] where the certificate's [notAfter] lies
    one microsecond in the past. *)
Definition expired_world : world := fun n c =>
  match c return answer c with
  | datetime_strptime _ _ => Ok (-1)
  | c => online_world n c
  end.

(** A world like [online_world] where the link [missing] does not answer
    at all. *)
Definition flaky_world : world := fun n c =>
  match c return answer c with
  | requests_head u _ _ _ =>
      if Py.contains "missing" u then Raise name_not_resolved
      else Ok (mkResponse 200 ∅ EmptyString)
  | c => online_world n c
  end.

Definition flaky_links_run : list event * result (list string) :=
  run flaky_world (@find_broken_links example_runtime "https://example.com/").

(** The three signals [check_mobile_responsiveness] computes from the
    parsed page, under the names of its local variables. *)
Definition has_viewport (soup : Soup) : bool :=
  match find_meta_viewport soup with
  | Some viewport =>
      Py.contains "width=device-width" (Py.lower (tag_get viewport "content")) ||
      Py.contains "initial-scale" (Py.lower (tag_get viewport "content"))
  | None => false
  end.

Definition media_queries (soup : Soup) : bool :=
  existsb (fun style =>
             match tag_string style with
             | Some s => Py.truthy s && Py.contains "@media" s
             | None => false
             end) (find_all_style soup).

Definition frameworks (soup : Soup) : bool :=
  existsb (fun link =>
             let href := Py.lower (tag_get link "href") in
             existsb (fun fw => Py.contains fw href) responsive_frameworks)
          (find_all_link_stylesheet soup).

(** A page whose only sign of responsiveness is an upper-case viewport
    declaration; its style sheet mentions [@MEDIA] in capitals. *)
Definition shouting_soup : Soup :=
  mkSoup []
    (Some (mkTag {[ "name" := "viewport";
                    "content" := "WIDTH=DEVICE-WIDTH, INITIAL-SCALE=1" ]} None))
    [mkTag ∅ (Some "@MEDIA (max-width: 600px) { body { margin: 0 } }")]
    [mkTag {[ "rel" := "stylesheet"; "href" := "/static/site.css" ]} None].

Definition shouting_world : world := fun n c =>
  match c return answer c with
  | BeautifulSoup _ _ => Ok shouting_soup
  | c => online_world n c
  end.



(** Every run of [p] ends without an exception, with a value in [Q]. *)
Definition returns {A} (p : M A) (Q : A -> Prop) : Prop :=
  forall tr r, exec p tr r -> exists a, r = Ok a /\ Q a.



(** ** Properties *)

(** *** Strings and floats *)

Lemma startswith_app (p s : string) : Py.startswith (p +:+ s) p = true.
Proof.
  unfold Py.startswith. induction p as [|a p IH]; simpl.
  - by destruct s.
  - destruct (Ascii.ascii_dec a a) as [_|Hne]; [exact IH | by destruct Hne].
Qed.

Lemma truthy_true (s : string) : Py.truthy s = true <-> s <> EmptyString.
Proof. destruct s; simpl; split; intros; congruence. Qed.

(** A float above three is not zero, so [load_time and load_time > 3] is
    [load_time > 3]. *)
Lemma float_gt_3_truthy (t : float) :
  Py.float_gt t 3 = true -> Py.float_truthy t = true.
Proof.
  unfold Py.float_gt, Py.float_truthy.
  rewrite FloatAxioms.ltb_spec, FloatAxioms.eqb_spec.
  destruct (Prim2SF t) as [s| s| |s m e]; try done.
  - intros _. by destruct s.
  - intros _. by destruct s.
Qed.

Lemma slow_load_test (t : float) :
  Py.float_truthy t && Py.float_gt t 3 = Py.float_gt t 3.
Proof.
  destruct (Py.float_gt t 3) eqn:Hgt.
  - by rewrite (float_gt_3_truthy t Hgt).
  - by rewrite andb_false_r.
Qed.

(** *** The suggestion synthesizer *)

Lemma generate_suggestions_rules ssl_ok days_left broken mobile_friendly
    mobile_details load_time :
  generate_suggestions ssl_ok days_left broken
    (mobile_friendly, mobile_details) load_time
  = Rules.synthesize ssl_ok days_left broken mobile_friendly load_time.
Proof.
  unfold generate_suggestions, Rules.synthesize.
  assert (Hperf : forall l : list string,
    match load_time with
    | Some t =>
        if Py.float_truthy t && Py.float_gt t 3
        then ((l ++ [Rules.optimize_load_time t]) ++ [Rules.compress_assets])
               ++ [Rules.use_cdn]
        else l
    | None => l
    end = l ++ Rules.performance load_time).
  { intros l. destruct load_time as [t|]; simpl; [|by rewrite app_nil_r].
    rewrite slow_load_test. destruct (Py.float_gt t 3).
    - by rewrite <- !app_assoc.
    - by rewrite app_nil_r. }
  unfold Rules.optimize_load_time, Rules.compress_assets, Rules.use_cdn in Hperf.
  rewrite Hperf. clear Hperf.
  assert (Hcert :
    (if negb ssl_ok
     then [] ++ ["Install a valid SSL certificate using Let's Encrypt or a trusted CA"]
     else match days_left with
          | Some d =>
              if d <? CONFIG.SSL_EXPIRY_THRESHOLD
              then [] ++ ["Renew your SSL certificate soon. It expires in " +:+
                          Py.str_int d +:+ " days"]
              else []
          | None => []
          end) = Rules.certificate ssl_ok days_left).
  { destruct ssl_ok; simpl; [|done].
    destruct days_left as [d|]; [|done]. by destruct (d <? _). }
  rewrite Hcert. clear Hcert.
  generalize (Rules.certificate ssl_ok days_left) as c. intros c.
  destruct broken as [|b broken], mobile_friendly; simpl;
    rewrite <- ?app_assoc; simpl; by rewrite ?app_nil_r.
Qed.

(** C1.  [generate_suggestions] applies its rules in a fixed order.  With
    an invalid certificate, broken links, a non-responsive site and a load
    time above 3.0 seconds the output is exactly: the certificate-install
    suggestion, the broken-links suggestion with the count, the two
    responsiveness suggestions, then the three performance suggestions
    (the first with the measured value to two decimals).  In general the
    output is the four rules' blocks in that order, each rule contributing
    its block once or not at all, and it is empty when no rule triggers. *)
Theorem generate_suggestions_fixed_order :
  (forall days_left broken mobile_details t,
      broken <> [] -> Py.float_gt t 3 = true ->
      generate_suggestions false days_left broken (false, mobile_details) (Some t)
      = [Rules.install_certificate;
         Rules.fix_broken_links (length broken);
         Rules.add_viewport; Rules.use_framework;
         Rules.optimize_load_time t; Rules.compress_assets; Rules.use_cdn])
  /\ (forall ssl_ok days_left broken mobile_friendly mobile_details load_time,
         generate_suggestions ssl_ok days_left broken
           (mobile_friendly, mobile_details) load_time
         = Rules.certificate ssl_ok days_left ++ Rules.links broken ++
           Rules.responsiveness mobile_friendly ++ Rules.performance load_time)
  /\ (forall days_left mobile_details load_time,
         (days_left = None \/
          exists d, days_left = Some d /\ CONFIG.SSL_EXPIRY_THRESHOLD <= d) ->
         (load_time = None \/
          exists t, load_time = Some t /\ Py.float_gt t 3 = false) ->
         generate_suggestions true days_left [] (true, mobile_details) load_time
         = []).
Proof.
  split; [|split].
  - intros days_left broken details t Hbroken Hslow.
    rewrite generate_suggestions_rules. unfold Rules.synthesize. simpl.
    rewrite Hslow. destruct broken as [|b rest]; [congruence | reflexivity].
  - intros. apply generate_suggestions_rules.
  - intros days_left details load_time Hdays Hload.
    rewrite generate_suggestions_rules. unfold Rules.synthesize.
    assert (Rules.certificate true days_left = []) as ->.
    { destruct Hdays as [-> | (d & -> & Hd)]; simpl; [done|].
      destruct (Z.ltb_spec d CONFIG.SSL_EXPIRY_THRESHOLD); [lia | done]. }
    destruct Hload as [-> | (t & -> & Ht)]; simpl; [done|]. by rewrite Ht.
Qed.

Lemma generate_suggestions_fixed_order_witness :
  generate_suggestions false None
    ["https://example.com/old (Status: 404)"] (false, []) (Some 4.5%float)
  = [Rules.install_certificate; Rules.fix_broken_links 1;
     Rules.add_viewport; Rules.use_framework;
     Rules.optimize_load_time 4.5; Rules.compress_assets; Rules.use_cdn].
Proof.
  apply (proj1 generate_suggestions_fixed_order None
           ["https://example.com/old (Status: 404)"] [] 4.5%float).
  - discriminate.
  - reflexivity.
Defined.

(** The same run, with the texts written out. *)
Example generate_suggestions_all_rules :
  generate_suggestions false None
    ["https://example.com/old (Status: 404)"] (false, []) (Some 4.5%float)
  = ["Install a valid SSL certificate using Let's Encrypt or a trusted CA";
     "Fix 1 broken links on your website";
     "Improve mobile responsiveness by adding a viewport meta tag";
     "Consider using responsive frameworks like Bootstrap or Tailwind CSS";
     "Optimize page load time (currently 4.50s)";
     "Compress images and minify CSS/JavaScript files";
     "Consider using a CDN for static assets"].
Proof. vm_compute. reflexivity. Qed.

(** A certificate with ten days left: the renewal suggestion, with the
    day count, and nothing else. *)
Example generate_suggestions_renewal :
  generate_suggestions true (Some 10) [] (true, ["Has viewport meta tag"])
    (Some 1.25%float)
  = ["Renew your SSL certificate soon. It expires in 10 days"].
Proof. vm_compute. reflexivity. Qed.

(** *** The URL normalizer *)

Section ValidateUrl.
Context `{Runtime}.

Lemma validate_url_unfold (url : string) :
  url <> EmptyString ->
  validate_url url =
    match urllib.urlparse (with_scheme url) with
    | Raise e => Raise e
    | Ok parsed =>
        if Py.truthy (urllib.netloc parsed) then Ok (with_scheme url)
        else Raise (Exn Py.ValueError ("Invalid URL: " +:+ with_scheme url))
    end.
Proof.
  intros Hne. unfold validate_url, with_scheme.
  destruct url as [|a url]; [done|]. cbn [Py.truthy negb].
  destruct (Py.startswith _ "http://" || Py.startswith _ "https://");
    cbn [negb]; destruct (urllib.urlparse _) as [p|e]; try done;
    by destruct (Py.truthy (urllib.netloc p)).
Qed.

Lemma validate_url_Ok (url u : string) :
  validate_url url = Ok u ->
  url <> EmptyString /\ u = with_scheme url /\
  exists parsed, urllib.urlparse u = Ok parsed /\
                 urllib.netloc parsed <> EmptyString.
Proof.
  intros Hv. assert (url <> EmptyString) as Hne.
  { intros ->. discriminate Hv. }
  rewrite (validate_url_unfold url Hne) in Hv.
  destruct (urllib.urlparse (with_scheme url)) as [p|e] eqn:Hp; [|done].
  destruct (Py.truthy (urllib.netloc p)) eqn:Hn; [|done].
  injection Hv as <-. split; [done|]. split; [done|].
  exists p. split; [done|]. by apply truthy_true.
Qed.

Lemma with_scheme_startswith (url : string) :
  Py.startswith (with_scheme url) "http://" ||
  Py.startswith (with_scheme url) "https://" = true.
Proof.
  unfold with_scheme.
  destruct (Py.startswith url "http://" || Py.startswith url "https://") eqn:Hs;
    [done|].
  rewrite (startswith_app "https://" url). apply orb_true_r.
Qed.

Lemma with_scheme_idem (url : string) :
  with_scheme (with_scheme url) = with_scheme url.
Proof.
  unfold with_scheme at 1. by rewrite with_scheme_startswith.
Qed.

End ValidateUrl.

Section ValidateUrlClaims.
Context `{Runtime}.

Lemma urlsplit_https (rest : string) (p : urllib.ParseResult) :
  urllib.urlsplit ("https://" +:+ rest) = Ok p -> urllib.scheme p = "https".
Proof.
  unfold urllib.urlsplit.
  change (Py.lstrip urllib._WHATWG_C0_CONTROL_OR_SPACE ("https://" +:+ rest))
    with ("https://" +:+ rest).
  change (urllib.remove_unsafe ("https://" +:+ rest))
    with ("https://" +:+ urllib.remove_unsafe rest).
  change (urllib.split_scheme ("https://" +:+ urllib.remove_unsafe rest))
    with ("https", "//" +:+ urllib.remove_unsafe rest).
  cbv beta iota.
  destruct (urllib.split_netloc _) as [[netloc url]|e]; [|done].
  destruct (urllib.split_off "#" url) as [url1 fragment].
  destruct (urllib.split_off "?" url1) as [url2 query].
  destruct (urllib._checknetloc netloc); [|done].
  by intros [= <-].
Qed.

Lemma urlsplit_http (rest : string) (p : urllib.ParseResult) :
  urllib.urlsplit ("http://" +:+ rest) = Ok p -> urllib.scheme p = "http".
Proof.
  unfold urllib.urlsplit.
  change (Py.lstrip urllib._WHATWG_C0_CONTROL_OR_SPACE ("http://" +:+ rest))
    with ("http://" +:+ rest).
  change (urllib.remove_unsafe ("http://" +:+ rest))
    with ("http://" +:+ urllib.remove_unsafe rest).
  change (urllib.split_scheme ("http://" +:+ urllib.remove_unsafe rest))
    with ("http", "//" +:+ urllib.remove_unsafe rest).
  cbv beta iota.
  destruct (urllib.split_netloc _) as [[netloc url]|e]; [|done].
  destruct (urllib.split_off "#" url) as [url1 fragment].
  destruct (urllib.split_off "?" url1) as [url2 query].
  destruct (urllib._checknetloc netloc); [|done].
  by intros [= <-].
Qed.

Lemma urlparse_scheme (url : string) (p : urllib.ParseResult) :
  urllib.urlparse url = Ok p ->
  exists q, urllib.urlsplit url = Ok q /\ urllib.scheme p = urllib.scheme q /\
            urllib.netloc p = urllib.netloc q.
Proof.
  unfold urllib.urlparse. destruct (urllib.urlsplit url) as [q|e]; [|done].
  destruct (_ && _).
  - destruct (urllib._splitparams _) as [u ps]. intros [= <-]. by exists q.
  - intros [= <-]. by exists q.
Qed.

(** A string with the prefix [p] is [p] followed by something. *)
Lemma startswith_inv (s p : string) :
  Py.startswith s p = true -> exists rest, s = p +:+ rest.
Proof.
  unfold Py.startswith. revert s. induction p as [|a p IH]; intros s Hs.
  - by exists s.
  - destruct s as [|b s]; [done|]. simpl in Hs.
    destruct (Ascii.ascii_dec a b) as [->|]; [|done].
    destruct (IH s Hs) as [rest ->]. by exists rest.
Qed.

Lemma with_scheme_scheme (url : string) (p : urllib.ParseResult) :
  urllib.urlparse (with_scheme url) = Ok p ->
  urllib.scheme p = "http" \/ urllib.scheme p = "https".
Proof.
  intros Hp. destruct (urlparse_scheme _ _ Hp) as (q & Hq & -> & _).
  pose proof (with_scheme_startswith url) as Hs.
  apply orb_true_iff in Hs as [Hs|Hs];
    apply startswith_inv in Hs as [rest Hrest]; rewrite Hrest in Hq.
  - left. by apply (urlsplit_http rest).
  - right. by apply (urlsplit_https rest).
Qed.

(** The network location [urlparse] finds after an [http] or [https]
    scheme: what lies before the first [/], [?] or [#], tabs and line
    ends dropped. *)
Lemma urlparse_netloc (prefix rest : string) :
  prefix = "http://" \/ prefix = "https://" ->
  let netloc := (Py.break_at urllib.is_delim (urllib.remove_unsafe rest)).1 in
  Py.has_char "[" netloc = false ->
  Py.has_char "]" netloc = false ->
  Py.isascii netloc = true ->
  exists parsed, urllib.urlparse (prefix +:+ rest) = Ok parsed /\
                 urllib.netloc parsed = netloc.
Proof.
  intros Hprefix netloc Hopen Hclose Hascii.
  assert (exists q, urllib.urlsplit (prefix +:+ rest) = Ok q /\
                    urllib.netloc q = netloc) as (q & Hq & Hn).
  { unfold urllib.urlsplit.
    assert (exists scheme,
               urllib.split_scheme
                 (urllib.remove_unsafe
                    (Py.lstrip urllib._WHATWG_C0_CONTROL_OR_SPACE (prefix +:+ rest)))
               = (scheme, "//" +:+ urllib.remove_unsafe rest)) as [scheme ->].
    { destruct Hprefix as [-> | ->]; [by exists "http" | by exists "https"]. }
    cbv beta iota. unfold urllib.split_netloc.
    rewrite (startswith_app "//" (urllib.remove_unsafe rest)).
    change (urllib._splitnetloc ("//" +:+ urllib.remove_unsafe rest))
      with (Py.break_at urllib.is_delim (urllib.remove_unsafe rest)).
    subst netloc.
    destruct (Py.break_at urllib.is_delim (urllib.remove_unsafe rest))
      as [netloc url] eqn:Hbreak.
    cbn [fst] in *. rewrite Hopen, Hclose. cbn [andb orb negb].
    destruct (urllib.split_off "#" url) as [url1 fragment].
    destruct (urllib.split_off "?" url1) as [url2 query].
    unfold urllib._checknetloc. rewrite Hascii, orb_true_r.
    eexists. split; reflexivity. }
  unfold urllib.urlparse. rewrite Hq.
  destruct (_ && _).
  - destruct (urllib._splitparams _) as [u ps]. eexists. split; [reflexivity|done].
  - by exists q.
Qed.

(** C3, as the program has it.  On a non-empty input that starts with
    neither ["http://"] nor ["https://"], [validate_url] works on the
    input with ["https://"] put in front: that is the URL it parses,
    returns, or names in its error.  Every URL it returns is non-empty,
    starts with one of the two prefixes, parses with scheme [http] or
    [https], and has a non-empty network location ([netloc], the one field
    [validate_url] tests).  A host inside that network location is not
    promised. *)
Theorem validate_url_prepends_https :
  (forall url,
      url <> EmptyString ->
      Py.startswith url "http://" = false ->
      Py.startswith url "https://" = false ->
      validate_url url =
        match urllib.urlparse ("https://" +:+ url) with
        | Raise e => Raise e
        | Ok parsed =>
            if Py.truthy (urllib.netloc parsed) then Ok ("https://" +:+ url)
            else Raise (Exn Py.ValueError ("Invalid URL: https://" +:+ url))
        end)
  /\ (forall url u,
         validate_url url = Ok u ->
         u <> EmptyString /\
         (Py.startswith u "http://" = true \/ Py.startswith u "https://" = true) /\
         exists parsed,
           urllib.urlparse u = Ok parsed /\
           (urllib.scheme parsed = "http" \/ urllib.scheme parsed = "https") /\
           urllib.netloc parsed <> EmptyString).
Proof.
  split.
  - intros url Hne H1 H2. rewrite (validate_url_unfold url Hne).
    unfold with_scheme. by rewrite H1, H2.
  - intros url u Hv.
    destruct (validate_url_Ok url u Hv) as (Hne & -> & p & Hp & Hn).
    pose proof (with_scheme_startswith url) as Hs.
    split; [|split].
    + intros Hu. rewrite Hu in Hs. discriminate Hs.
    + by apply orb_true_iff.
    + exists p. split; [done|]. split; [|done]. by apply (with_scheme_scheme url).
Qed.

(** C10.  [validate_url] is idempotent: on its own output it returns that
    output unchanged. *)
Theorem validate_url_idempotent (url u : string) :
  validate_url url = Ok u -> validate_url u = Ok u.
Proof.
  intros Hv. destruct (validate_url_Ok url u Hv) as (Hne & -> & p & Hp & Hn).
  assert (with_scheme url <> EmptyString) as Hne'.
  { intros Hu. pose proof (with_scheme_startswith url) as Hs.
    rewrite Hu in Hs. discriminate Hs. }
  rewrite (validate_url_unfold _ Hne'), with_scheme_idem, Hp.
  apply truthy_true in Hn. by rewrite Hn.
Qed.

End ValidateUrlClaims.

Lemma validate_url_prepends_https_witness :
  @validate_url example_runtime "example.com" = Ok "https://example.com" /\
  "https://example.com" <> EmptyString /\
  (Py.startswith "https://example.com" "http://" = true \/
   Py.startswith "https://example.com" "https://" = true) /\
  exists parsed,
    @urllib.urlparse example_runtime "https://example.com" = Ok parsed /\
    (urllib.scheme parsed = "http" \/ urllib.scheme parsed = "https") /\
    urllib.netloc parsed <> EmptyString.
Proof.
  split.
  - rewrite (proj1 (@validate_url_prepends_https example_runtime) "example.com");
      [reflexivity | discriminate | reflexivity | reflexivity].
  - apply (proj2 (@validate_url_prepends_https example_runtime) "example.com").
    reflexivity.
Defined.

(** C3, as the claim words it, fails: [":80"] is accepted and returned as
    ["https://:80"], in every runtime.  Its network location [":80"] is not
    empty, but the host in it is: cut at the colon, as
    [check_ssl_certificate] cuts it, nothing is left, and the certificate
    probe opens its connection to the empty host name. *)
Lemma validate_url_empty_host :
  (forall rt : Runtime, @validate_url rt ":80" = Ok "https://:80")
  /\ (forall rt : Runtime,
         exists parsed,
           @urllib.urlparse rt "https://:80" = Ok parsed /\
           urllib.netloc parsed = ":80" /\
           Py.split_first ":" (urllib.netloc parsed) = EmptyString)
  /\ socket_create_connection EmptyString 443 CONFIG.REQUEST_TIMEOUT
       ∈ calls (run online_world
                  (@check_ssl_certificate example_runtime "https://:80")).1.
Proof.
  split; [intros rt; reflexivity|]. split.
  - intros rt. eexists. split; [reflexivity|]. split; reflexivity.
  - apply list_elem_of_further, list_elem_of_here.
Qed.

Lemma validate_url_idempotent_witness :
  @validate_url example_runtime "https://example.com" = Ok "https://example.com".
Proof.
  apply (@validate_url_idempotent example_runtime "example.com").
  reflexivity.
Defined.

(** Inputs with a scheme are kept as they are; a bare path has no host. *)
Example validate_url_examples :
  @validate_url example_runtime "http://example.com/a?b=1" = Ok "http://example.com/a?b=1" /\
  @validate_url example_runtime "example.com:8080/x" = Ok "https://example.com:8080/x" /\
  @validate_url example_runtime "/only/a/path"
    = Raise (Exn Py.ValueError "Invalid URL: https:///only/a/path").
Proof. repeat split; vm_compute; reflexivity. Qed.

(** *** Runs of programs *)

(** An event determines its answer. *)
Lemma Event_inj (c : call) (x y : answer c) : Event c x = Event c y -> x = y.
Proof.
  intros Heq. apply (Eqdep_dec.inj_pair2_eq_dec call call_eq_dec) in Heq.
  exact Heq.
Qed.

Lemma exec_prog_bind {A B} (p : prog A) (f : A -> prog B) tr (b : B) :
  exec (prog_bind p f) tr b <->
  exists tr1 tr2 a, tr = tr1 ++ tr2 /\ exec p tr1 a /\ exec (f a) tr2 b.
Proof.
  revert tr. induction p as [a|c k IH]; intros tr; simpl.
  - split.
    + intros Hf. by exists [], tr, a.
    + intros (tr1 & tr2 & a' & -> & [-> ->] & Hf). exact Hf.
  - split.
    + intros (x & tr' & -> & Hk). apply IH in Hk as (tr1 & tr2 & a & -> & Hp & Hf).
      exists (Event c x :: tr1), tr2, a. split; [done|]. split; [|done].
      by exists x, tr1.
    + intros (tr1 & tr2 & a & -> & (x & tr' & -> & Hk) & Hf).
      exists x, (tr' ++ tr2). split; [done|]. apply IH. by exists tr', tr2, a.
Qed.

Lemma exec_bind {A B} (p : M A) (f : A -> M B) tr (r : result B) :
  exec (bind p f) tr r <->
  (exists tr1 tr2 a, tr = tr1 ++ tr2 /\ exec p tr1 (Ok a) /\ exec (f a) tr2 r) \/
  (exists e, exec p tr (Raise e) /\ r = Raise e).
Proof.
  unfold bind. rewrite exec_prog_bind. split.
  - intros (tr1 & tr2 & [a|e] & -> & Hp & Hf).
    + left. by exists tr1, tr2, a.
    + right. destruct Hf as [-> ->]. rewrite app_nil_r. by exists e.
  - intros [(tr1 & tr2 & a & -> & Hp & Hf) | (e & Hp & ->)].
    + by exists tr1, tr2, (Ok a).
    + exists tr, [], (Raise e). by rewrite app_nil_r.
Qed.

Lemma exec_try_except {A} (body : M A) (handler : exn -> M A) tr (r : result A) :
  exec (try_except body handler) tr r <->
  (exists a, exec body tr (Ok a) /\ r = Ok a) \/
  (exists tr1 tr2 e, tr = tr1 ++ tr2 /\ exec body tr1 (Raise e) /\
                     exec (handler e) tr2 r).
Proof.
  unfold try_except. rewrite exec_prog_bind. split.
  - intros (tr1 & tr2 & [a|e] & -> & Hp & Hf).
    + left. destruct Hf as [-> ->]. rewrite app_nil_r. by exists a.
    + right. by exists tr1, tr2, e.
  - intros [(a & Hp & ->) | (tr1 & tr2 & e & -> & Hp & Hf)].
    + exists tr, [], (Ok a). by rewrite app_nil_r.
    + by exists tr1, tr2, (Raise e).
Qed.

(** A program run in a world is one of its runs: every program ends,
    whatever the world answers. *)
Lemma run_from_exec {A} (w : world) (p : prog A) (n : nat) :
  exec p (run_from w n p).1 (run_from w n p).2.
Proof.
  revert n. induction p as [a|c k IH]; intros n; simpl; [done|].
  specialize (IH (w n c) (S n)).
  destruct (run_from w (S n) (k (w n c))) as [tr a]. by exists (w n c), tr.
Qed.

Lemma run_exec {A} (w : world) (p : prog A) : exec p (run w p).1 (run w p).2.
Proof. apply run_from_exec. Qed.

Lemma exec_total {A} (p : prog A) : exists tr a, exec p tr a.
Proof.
  exists (run offline_world p).1, (run offline_world p).2. apply run_exec.
Qed.

Lemma exec_Do {A} (c : call) (k : answer c -> prog A) (x : answer c) tr (r : A) :
  exec (Do c k) (Event c x :: tr) r <-> exec (k x) tr r.
Proof.
  simpl. split.
  - intros (y & tr' & Heq & Hk). injection Heq as Hev <-.
    by apply Event_inj in Hev as <-.
  - intros Hk. by exists x, tr.
Qed.

(** The calls and their answers determine the result. *)
Lemma exec_deterministic {A} (p : prog A) tr (a b : A) :
  exec p tr a -> exec p tr b -> a = b.
Proof.
  revert tr. induction p as [x|c k IH]; intros tr; simpl.
  - by intros [_ ->] [_ ->].
  - intros (x & tr1 & -> & Ha) (y & tr2 & Heq & Hb).
    injection Heq as Hev <-. apply Event_inj in Hev as <-. by eapply IH.
Qed.

Lemma calls_cons (ev : event) (tr : list event) :
  calls (ev :: tr) = projT1 ev :: calls tr.
Proof. reflexivity. Qed.

Lemma calls_app (tr1 tr2 : list event) : calls (tr1 ++ tr2) = calls tr1 ++ calls tr2.
Proof. apply List.map_app. Qed.

Lemma raised_in_app tr1 tr2 e :
  raised_in (tr1 ++ tr2) e <-> raised_in tr1 e \/ raised_in tr2 e.
Proof.
  unfold raised_in. split.
  - intros (ev & [Hin|Hin]%elem_of_app & He); [left|right]; by exists ev.
  - intros [(ev & Hin & He)|(ev & Hin & He)]; exists ev;
      (split; [apply elem_of_app; auto | done]).
Qed.

Lemma raised_in_nil e : ~ raised_in [] e.
Proof. intros (ev & Hin & _). by apply elem_of_nil in Hin. Qed.

Lemma raised_in_cons ev tr e :
  raised_in (ev :: tr) e <-> raised ev = Some e \/ raised_in tr e.
Proof.
  unfold raised_in. split.
  - intros (ev' & [->|Hin]%elem_of_cons & He); [by left|right]. by exists ev'.
  - intros [He|(ev' & Hin & He)].
    + exists ev. split; [apply list_elem_of_here | done].
    + exists ev'. split; [by apply list_elem_of_further | done].
Qed.

(** Sequencing, step by step. *)

Lemma bind_ret_l {A B} (a : A) (f : A -> M B) : bind (ret a) f = f a.
Proof. reflexivity. Qed.

Lemma bind_raise_l {A B} (e : exn) (f : A -> M B) : bind (raise e) f = raise e.
Proof. reflexivity. Qed.

Lemma exec_bind_print {B} (line : string) (f : unit -> M B) tr r :
  exec (bind (call_print line) f) tr r <->
  exists tr', tr = Event (print line) tt :: tr' /\ exec (f tt) tr' r.
Proof.
  simpl. split.
  - intros ([] & tr' & -> & Hf). by exists tr'.
  - intros (tr' & -> & Hf). by exists tt, tr'.
Qed.

Lemma exec_bind_widget_value {B} (f : string -> M B) (value : string) tr r :
  exec (bind call_widget_value f) (Event url_input_value value :: tr) r <->
  exec (f value) tr r.
Proof. exact (exec_Do url_input_value (fun x => f x) value tr r). Qed.

Lemma exec_bind_assoc {A B C} (p : M A) (f : A -> M B) (g : B -> M C) tr r :
  exec (bind (bind p f) g) tr r <-> exec (bind p (fun a => bind (f a) g)) tr r.
Proof.
  rewrite !exec_bind. split.
  - intros [(tr1 & tr2 & b & -> & Hpf & Hg) | (e & Hpf & ->)].
    + apply exec_bind in Hpf as [(tr3 & tr4 & a & -> & Hp & Hf) | (e & Hp & [=])].
      left. exists tr3, (tr4 ++ tr2), a. rewrite app_assoc. split; [done|].
      split; [done|]. apply exec_bind. left. by exists tr4, tr2, b.
    + apply exec_bind in Hpf as [(tr3 & tr4 & a & -> & Hp & Hf) | (e' & Hp & [= ->])].
      * left. exists tr3, tr4, a. split; [done|]. split; [done|].
        apply exec_bind. right. by exists e.
      * right. by exists e'.
  - intros [(tr1 & tr2 & a & -> & Hp & Hfg) | (e & Hp & ->)].
    + apply exec_bind in Hfg as [(tr3 & tr4 & b & -> & Hf & Hg) | (e & Hf & ->)].
      * left. exists (tr1 ++ tr3), tr4, b. rewrite app_assoc. split; [done|].
        split; [|done]. apply exec_bind. left. by exists tr1, tr3, a.
      * right. exists e. split; [|done]. apply exec_bind. left.
        by exists tr1, tr2, a.
    + right. exists e. split; [|done]. apply exec_bind. right. by exists e.
Qed.

(** One call of a run, or its end. *)
Ltac exec_step H :=
  simpl in H;
  match type of H with
  | exists _, _ => let x := fresh "x" in let tr := fresh "tr" in
                   destruct H as (x & tr & -> & H)
  | _ /\ _ => destruct H as [-> H]
  end.

(** No event of an explicit list of successful events raised. *)
Ltac no_raise H :=
  repeat (apply raised_in_cons in H as [H|H]; [discriminate H|]);
  by apply raised_in_nil in H.

(** One step along a run that ended well: sequencing is reassociated, a
    print is recorded, a pure step is taken, a lookup in [results] either
    finds its value or ends the run, and anything else is split off as a
    run of its own. *)
Ltac walk H :=
  repeat (cbv beta in H;
    cbn [r_status r_ssl r_broken_links r_mobile r_suggestions getitem] in H;
    match type of H with
    | exec (bind (bind _ _) _) _ _ =>
        apply (proj1 (exec_bind_assoc _ _ _ _ _)) in H
    | exec (bind (call_print _) _) _ _ =>
        apply exec_bind_print in H as (? & -> & H)
    | exec (bind (ret _) _) _ _ => rewrite bind_ret_l in H
    | exec (bind (raise _) _) _ (Ok _) =>
        rewrite bind_raise_l in H; destruct H as [_ [=]]
    | exec (bind (getitem _ ?x) _) _ _ => destruct x eqn:?
    | exec (let '(_, _) := ?x in _) _ _ => destruct x
    | exec (bind _ _) _ (Ok _) =>
        apply exec_bind in H as [(? & ? & ? & -> & ? & H) | (? & _ & [=])]
    end).

(** The same along a run whose steps are all known. *)
Ltac walk_det H :=
  repeat (cbv beta iota in H;
    cbn [r_status r_ssl r_broken_links r_mobile r_suggestions getitem] in H;
    match type of H with
    | exec (bind (bind _ _) _) _ _ =>
        apply (proj1 (exec_bind_assoc _ _ _ _ _)) in H
    | exec (bind (call_print _) _) _ _ =>
        apply exec_bind_print in H as (? & -> & H)
    | exec (bind (ret _) _) _ _ => rewrite bind_ret_l in H
    end).

(** *** The reachability probe *)

Lemma network_failure_is_RequestException (f : network_failure) (msg : string) :
  Py.is_RequestException (Exn (requests_exception f) msg) = true.
Proof. by destruct f. Qed.

Lemma check_site_status_cases (url : string) tr (r : result site_status) :
  exec (check_site_status url) tr r ->
  exists t0 x,
    (exists response t1,
        x = Ok response /\
        tr = [Event time_time t0;
              Event (requests_get url CONFIG.REQUEST_TIMEOUT status_headers true) x;
              Event time_time t1] /\
        r = Ok (true, StatusCode (status_code response), headers response,
                Some (PrimFloat.sub t1 t0))) \/
    (exists e,
        x = Raise e /\
        tr = [Event time_time t0;
              Event (requests_get url CONFIG.REQUEST_TIMEOUT status_headers true) x] /\
        r = if Py.is_RequestException e
            then Ok (false, StatusText (Py.exc_str e), ∅, None)
            else Raise e).
Proof.
  intros Hex. simpl in Hex.
  destruct Hex as (t0 & tr1 & -> & x & tr2 & -> & Hex). exists t0, x.
  destruct x as [response|e]; simpl in Hex.
  - destruct Hex as (t1 & tr3 & -> & -> & ->). left. by exists response, t1.
  - right. exists e.
    destruct (Py.is_RequestException e); simpl in Hex; by destruct Hex as [-> ->].
Qed.

(** C7.  When the network fails under the fetch (no address for the name,
    connection refused, a timeout, a failed TLS handshake: each reaches
    the program as a [RequestException]), [check_site_status] returns
    [reachable = False], the text of the failure in place of the status,
    an empty headers mapping and no load time; it returns them as its
    result and raises nothing. *)
Theorem check_site_status_network_failure :
  (forall (f : network_failure) (msg : string),
      Py.is_RequestException (Exn (requests_exception f) msg) = true)
  /\ (forall (url : string) tr (r : result site_status) (e : exn),
         exec (check_site_status url) tr r ->
         raised_in tr e ->
         Py.is_RequestException e = true ->
         r = Ok (false, StatusText (Py.exc_str e), ∅, None)).
Proof.
  split; [apply network_failure_is_RequestException|].
  intros url tr r e Hex Hraised He.
  destruct (check_site_status_cases url tr r Hex)
    as (t0 & x & [(resp & t1 & -> & -> & ->) | (e' & -> & -> & ->)]).
  - exfalso. repeat (apply raised_in_cons in Hraised as [Hr|Hraised]; [done|]).
    by apply raised_in_nil in Hraised.
  - apply raised_in_cons in Hraised as [Hr|Hraised]; [done|].
    apply raised_in_cons in Hraised as [Hr|Hraised].
    + simpl in Hr. injection Hr as ->. by rewrite He.
    + by apply raised_in_nil in Hraised.
Qed.

Lemma check_site_status_network_failure_witness :
  (run offline_world (check_site_status "https://example.invalid")).2
  = Ok (false, StatusText (Py.exc_str name_not_resolved), ∅, None).
Proof.
  apply (proj2 check_site_status_network_failure "https://example.invalid"
           (run offline_world (check_site_status "https://example.invalid")).1
           _ name_not_resolved).
  - apply run_exec.
  - exists (Event (requests_get "https://example.invalid" CONFIG.REQUEST_TIMEOUT
                     status_headers true) (Raise name_not_resolved)).
    split; [|reflexivity]. apply list_elem_of_further, list_elem_of_here.
  - reflexivity.
Defined.

(** A site that answers, with its status and load time (the clock is
    read at 1000.0 and at 1004.5). *)
Example check_site_status_reachable :
  (run online_world (check_site_status "https://example.com/")).2
  = Ok (true, StatusCode 200, ∅, Some 4.5%float).
Proof. vm_compute. reflexivity. Qed.

(** *** The certificate probe *)

Section Probes.
Context `{Runtime}.

Lemma check_ssl_certificate_try_Ok (url : string) tr v :
  exec (check_ssl_certificate_try url) tr (Ok v) -> forall e, ~ raised_in tr e.
Proof.
  intros Hex e Hr. unfold check_ssl_certificate_try in Hex. simpl in Hex.
  destruct (urllib.urlparse url) as [parsed|e0]; simpl in Hex; [|by destruct Hex].
  do 4 (exec_step Hex;
        match goal with x : result _ |- _ => destruct x as [?|?] end;
        [|by destruct Hex]).
  match goal with c : peercert |- _ => destruct c as [entries|] end;
    [|exec_step Hex; no_raise Hr].
  destruct (bool_decide (entries ≠ ∅)); [|exec_step Hex; no_raise Hr].
  destruct (entries !! "notAfter") as [expires_str|]; simpl in Hex;
    [|by destruct Hex].
  exec_step Hex.
  match goal with x : result datetime |- _ => destruct x as [?|?] end;
    [|by destruct Hex].
  exec_step Hex. exec_step Hex. no_raise Hr.
Qed.

Lemma check_ssl_certificate_handler (e : exn) :
  exec (if Py.is_gaierror_or_timeout e then ret (false, None)
        else if Py.is_SSLError e then ret (false, None)
        else ret (false, None)) [] (Ok (false, @None Z)).
Proof. destruct (Py.is_gaierror_or_timeout e), (Py.is_SSLError e); by simpl. Qed.

(** C8.  Whatever exception leaves the [try] block of
    [check_ssl_certificate] (a name that does not resolve, a connection
    that times out, a TLS error, or any other), the function returns
    [(False, None)] on that run.  It never raises, and on every run in
    which a call raised, its result is [(False, None)]. *)
Theorem check_ssl_certificate_failures (url : string) :
  (forall tr e,
      exec (check_ssl_certificate_try url) tr (Raise e) ->
      exec (check_ssl_certificate url) tr (Ok (false, None)))
  /\ (forall tr r,
         exec (check_ssl_certificate url) tr r ->
         (exists v, r = Ok v) /\
         (forall e, raised_in tr e -> r = Ok (false, None))).
Proof.
  split.
  - intros tr e Hex. apply exec_try_except. right. exists tr, [], e.
    rewrite app_nil_r. split; [done|]. split; [done|].
    apply check_ssl_certificate_handler.
  - intros tr r Hex. apply exec_try_except in Hex
      as [(v & Hex & ->) | (tr1 & tr2 & e & -> & Hex & Hh)].
    + split; [by exists v|]. intros e Hr.
      by destruct (check_ssl_certificate_try_Ok url tr v Hex e).
    + assert (tr2 = [] /\ r = Ok (false, None)) as [-> ->].
      { destruct (Py.is_gaierror_or_timeout e), (Py.is_SSLError e);
          simpl in Hh; by destruct Hh. }
      split; [by eexists|done].
Qed.

End Probes.

Lemma check_ssl_certificate_failures_witness :
  (run offline_world
     (@check_ssl_certificate example_runtime "https://example.invalid")).2
  = Ok (false, None).
Proof.
  apply (proj2 (proj2 (@check_ssl_certificate_failures example_runtime
                         "https://example.invalid")
                  (run offline_world
                     (@check_ssl_certificate example_runtime
                        "https://example.invalid")).1
                  _ (run_exec _ _))
           gaierror).
  exists (Event (socket_create_connection "example.invalid" 443
                   CONFIG.REQUEST_TIMEOUT) (Raise gaierror)).
  split; [|reflexivity]. apply list_elem_of_further, list_elem_of_here.
Defined.

(** A certificate that expires in forty days and five microseconds. *)
Example check_ssl_certificate_valid :
  (run online_world
     (@check_ssl_certificate example_runtime "https://example.com:8443/")).2
  = Ok (true, Some 40)
  /\ calls (run online_world
              (@check_ssl_certificate example_runtime
                 "https://example.com:8443/")).1
     = [ssl_create_default_context;
        socket_create_connection "example.com" 443 15;
        wrap_socket DefaultContext (Socket 3) "example.com";
        getpeercert (Socket 4);
        datetime_strptime "Dec 31 23:59:59 2026 GMT" "%b %d %H:%M:%S %Y %Z";
        datetime_utcnow].
Proof. split; vm_compute; reflexivity. Qed.

(** *** The responsiveness probe *)

Lemma check_mobile_responsiveness_try_Ok (url : string) tr v :
  exec (check_mobile_responsiveness_try url) tr (Ok v) ->
  forall e, ~ raised_in tr e.
Proof.
  intros Hex e Hr. unfold check_mobile_responsiveness_try in Hex.
  do 2 (exec_step Hex;
        match goal with x : result _ |- _ => destruct x as [?|?] end;
        [|by destruct Hex]).
  exec_step Hex. no_raise Hr.
Qed.

(** C6, as the program has it.  Whatever exception leaves the [try] block
    of [check_mobile_responsiveness] (the fetch failed, the parser failed),
    the function returns [responsive = False] with the one-element list
    [["Error checking responsiveness"]] (capital E).  It never raises, and
    on every run in which a call raised, that is its result. *)
Theorem check_mobile_responsiveness_failures (url : string) :
  (forall tr e,
      exec (check_mobile_responsiveness_try url) tr (Raise e) ->
      exec (check_mobile_responsiveness url) tr
        (Ok (false, ["Error checking responsiveness"])))
  /\ (forall tr r,
         exec (check_mobile_responsiveness url) tr r ->
         (exists v, r = Ok v) /\
         (forall e, raised_in tr e ->
                    r = Ok (false, ["Error checking responsiveness"]))).
Proof.
  split.
  - intros tr e Hex. apply exec_try_except. right. exists tr, [], e.
    rewrite app_nil_r. by repeat split.
  - intros tr r Hex. apply exec_try_except in Hex
      as [(v & Hex & ->) | (tr1 & tr2 & e & -> & Hex & [-> ->])].
    + split; [by exists v|]. intros e Hr.
      by destruct (check_mobile_responsiveness_try_Ok url tr v Hex e).
    + split; [by eexists|done].
Qed.

Lemma check_mobile_responsiveness_failures_witness :
  (run unparsable_world (check_mobile_responsiveness "https://example.com/")).2
  = Ok (false, ["Error checking responsiveness"]).
Proof.
  apply (proj2 (proj2 (check_mobile_responsiveness_failures "https://example.com/")
                  (run unparsable_world
                     (check_mobile_responsiveness "https://example.com/")).1
                  _ (run_exec _ _))
           (Exn Py.TypeError "object of type 'NoneType' has no len()")).
  exists (Event (BeautifulSoup "<html" "html.parser")
            (Raise (Exn Py.TypeError "object of type 'NoneType' has no len()"))).
  split; [|reflexivity]. apply list_elem_of_further, list_elem_of_here.
Defined.

(** C6, as the claim words it, fails: when the fetch fails the one signal
    is ["Error checking responsiveness"], not the lower-case text. *)
Lemma check_mobile_responsiveness_error_text :
  raised_in
    (run offline_world (check_mobile_responsiveness "https://example.invalid")).1
    name_not_resolved
  /\ (run offline_world (check_mobile_responsiveness "https://example.invalid")).2
     = Ok (false, ["Error checking responsiveness"])
  /\ (run offline_world (check_mobile_responsiveness "https://example.invalid")).2
     <> Ok (false, ["error checking responsiveness"]).
Proof.
  split; [|split].
  - exists (Event (requests_get "https://example.invalid" CONFIG.REQUEST_TIMEOUT
                     mobile_headers true) (Raise name_not_resolved)).
    split; [apply list_elem_of_here | reflexivity].
  - reflexivity.
  - discriminate.
Qed.

(** *** The link probe *)

Section Links.
Context `{Runtime}.

Lemma collect_links_elem (url : string) (a_tags : list Tag)
    (links0 links : gset string) :
  collect_links url a_tags links0 = Ok links ->
  forall link, link ∈ links ->
    link ∈ links0 \/
    exists tag href parsed_full parsed,
      tag ∈ a_tags /\
      attrs tag !! "href" = Some href /\
      Py.startswith href "#" = false /\
      Py.startswith href "javascript:" = false /\
      urljoin url href = Ok link /\
      urllib.urlparse link = Ok parsed_full /\
      urllib.urlparse url = Ok parsed /\
      urllib.netloc parsed_full = urllib.netloc parsed.
Proof.
  revert links0. induction a_tags as [|a_tag rest IH]; intros links0 Hc link Hin.
  - simpl in Hc. injection Hc as <-. by left.
  - simpl in Hc.
    assert (forall l0, collect_links url rest l0 = Ok links -> link ∈ l0 \/
              exists tag href parsed_full parsed,
                tag ∈ a_tag :: rest /\
                attrs tag !! "href" = Some href /\
                Py.startswith href "#" = false /\
                Py.startswith href "javascript:" = false /\
                urljoin url href = Ok link /\
                urllib.urlparse link = Ok parsed_full /\
                urllib.urlparse url = Ok parsed /\
                urllib.netloc parsed_full = urllib.netloc parsed) as Hrest.
    { intros l0 Hl0. destruct (IH l0 Hl0 link Hin)
        as [Hl | (tag & href & pf & pu & Htag & Hrem)]; [by left|right].
      exists tag, href, pf, pu. split; [by apply list_elem_of_further | exact Hrem]. }
    destruct (attrs a_tag !! "href") as [href|] eqn:Hhref; [|done].
    destruct (Py.startswith href "#") eqn:Hfrag; simpl in Hc; [by apply Hrest|].
    destruct (Py.startswith href "javascript:") eqn:Hjs; simpl in Hc;
      [by apply Hrest|].
    destruct (urljoin url href) as [full_url|e] eqn:Hjoin; [|done].
    destruct (urllib.urlparse full_url) as [pf|e] eqn:Hpf; [|done].
    destruct (urllib.urlparse url) as [pu|e] eqn:Hpu; [|done].
    destruct (String.eqb (urllib.netloc pf) (urllib.netloc pu)) eqn:Heq;
      [|by apply Hrest].
    destruct (Hrest _ Hc) as [Hl|Hex]; [|by right].
    apply elem_of_union in Hl as [Hl|Hl]; [|by left].
    apply elem_of_singleton in Hl as ->. right.
    exists a_tag, href, pf, pu. apply String.eqb_eq in Heq.
    repeat split; try done. apply list_elem_of_here.
Qed.

Lemma check_links_run (links broken : list string) tr b stopped :
  exec (check_links links broken) tr (b, stopped) ->
  exists added,
    head_requests tr `prefix_of` links /\
    b = broken ++ added /\
    (length added <= length (head_requests tr))%nat /\
    Forall (fun entry => exists link, link ∈ head_requests tr /\
                                      reports link entry) added.
Proof.
  revert broken tr. induction links as [|link rest IH]; intros broken tr Hex.
  - simpl in Hex. destruct Hex as [-> [= -> ->]]. exists [].
    rewrite app_nil_r. by repeat split.
  - simpl in Hex. destruct Hex as (x & tr' & -> & Hex).
    change (head_requests (Event (requests_head link true
                                    CONFIG.HEAD_REQUEST_TIMEOUT links_headers) x :: tr'))
      with (link :: head_requests tr').
    assert (forall entry added',
               reports link entry ->
               head_requests tr' `prefix_of` rest ->
               (length added' <= length (head_requests tr'))%nat ->
               Forall (fun entry => exists l, l ∈ head_requests tr' /\
                                              reports l entry) added' ->
               link :: head_requests tr' `prefix_of` link :: rest /\
               (length (entry :: added') <= length (link :: head_requests tr'))%nat /\
               Forall (fun entry => exists l, l ∈ link :: head_requests tr' /\
                                              reports l entry) (entry :: added'))
      as Hadd.
    { intros entry added' Hrep Hpre Hlen Hall. split; [by apply prefix_cons|].
      split; [simpl; lia|]. constructor.
      - exists link. split; [apply list_elem_of_here | done].
      - eapply Forall_impl; [exact Hall|]. intros y (l & Hl & Hy).
        exists l. split; [by apply list_elem_of_further | done]. }
    assert (forall added',
               head_requests tr' `prefix_of` rest ->
               (length added' <= length (head_requests tr'))%nat ->
               Forall (fun entry => exists l, l ∈ head_requests tr' /\
                                              reports l entry) added' ->
               link :: head_requests tr' `prefix_of` link :: rest /\
               (length added' <= length (link :: head_requests tr'))%nat /\
               Forall (fun entry => exists l, l ∈ link :: head_requests tr' /\
                                              reports l entry) added')
      as Hskip.
    { intros added' Hpre Hlen Hall. split; [by apply prefix_cons|].
      split; [simpl; lia|].
      eapply Forall_impl; [exact Hall|]. intros y (l & Hl & Hy).
      exists l. split; [by apply list_elem_of_further | done]. }
    destruct x as [resp|e].
    + destruct (Z.geb_spec (status_code resp) 400) as [Hge|Hlt].
      * apply IH in Hex as (added' & Hpre & -> & Hlen & Hall).
        exists ((link +:+ " (Status: " +:+ Py.str_int (status_code resp) +:+ ")")
                  :: added').
        rewrite <- app_assoc. simpl.
        destruct (Hadd (link +:+ " (Status: " +:+ Py.str_int (status_code resp) +:+ ")")
                    added') as (? & ? & ?); try done.
        left. exists (status_code resp). split; [lia | done].
      * apply IH in Hex as (added' & Hpre & -> & Hlen & Hall).
        exists added'. destruct (Hskip added') as (? & ? & ?); done.
    + destruct (Py.is_RequestException e).
      * apply IH in Hex as (added' & Hpre & -> & Hlen & Hall).
        exists ((link +:+ " (Error: Connection failed)") :: added').
        rewrite <- app_assoc. simpl.
        destruct (Hadd (link +:+ " (Error: Connection failed)") added')
          as (? & ? & ?); try done.
        by right.
      * simpl in Hex. destruct Hex as [-> [= -> ->]]. exists [].
        rewrite app_nil_r. split; [apply prefix_cons, prefix_nil|].
        split; [done|]. split; [simpl; lia|]. constructor.
Qed.

(** The runs of [find_broken_links]: it always returns a list; either no
    link is checked and the list is empty, or the page parsed to [soup],
    its anchors gave the set [links], and the links checked are the first
    of [links_to_check links]. *)
Lemma find_broken_links_run (url : string) tr r :
  exec (find_broken_links url) tr r ->
  exists broken,
    r = Ok broken /\
    ((head_requests tr = [] /\ broken = []) \/
     exists response soup links tr',
       tr = Event (requests_get url CONFIG.REQUEST_TIMEOUT links_headers true)
              (Ok response)
            :: Event (BeautifulSoup (text response) "html.parser") (Ok soup)
            :: tr' /\
       collect_links url (find_all_a_href soup) ∅ = Ok links /\
       head_requests tr = head_requests tr' /\
       head_requests tr' `prefix_of` links_to_check links /\
       (length broken <= length (head_requests tr'))%nat /\
       Forall (fun entry => exists link, link ∈ head_requests tr' /\
                                         reports link entry) broken).
Proof.
  intros Hex. unfold find_broken_links in Hex.
  apply exec_prog_bind in Hex as (tr1 & tr2 & [b stopped] & -> & Hex & Hret).
  assert (tr2 = [] /\ r = Ok b) as [-> ->].
  { destruct stopped; simpl in Hret; by destruct Hret. }
  rewrite app_nil_r. exists b. split; [done|].
  unfold find_broken_links_try in Hex. simpl in Hex.
  destruct Hex as (x & tr & -> & Hex).
  destruct x as [response|e]; simpl in Hex;
    [|destruct Hex as [-> [= -> ->]]; by left].
  destruct (ok response); simpl in Hex;
    [|destruct Hex as [-> [= -> ->]]; by left].
  destruct Hex as (x & tr' & -> & Hex).
  destruct x as [soup|e]; simpl in Hex;
    [|destruct Hex as [-> [= -> ->]]; by left].
  destruct (collect_links url (find_all_a_href soup) ∅) as [links|e] eqn:Hc;
    simpl in Hex; [|destruct Hex as [-> [= -> ->]]; by left].
  apply check_links_run in Hex as (added & Hpre & -> & Hlen & Hall).
  right. exists response, soup, links, tr'. by repeat split.
Qed.

Lemma links_to_check_NoDup (links : gset string) : NoDup (links_to_check links).
Proof.
  unfold links_to_check, slice_to.
  assert (NoDup (list_of_set links)) as Hnd.
  { rewrite (set_list_perm list_of_set links). apply NoDup_elements. }
  rewrite <- (take_drop (Z.to_nat CONFIG.MAX_LINKS_TO_CHECK) (list_of_set links))
    in Hnd.
  by apply NoDup_app in Hnd as (Hnd & _).
Qed.

Lemma links_to_check_length (links : gset string) :
  (length (links_to_check links) <= Z.to_nat CONFIG.MAX_LINKS_TO_CHECK)%nat.
Proof. unfold links_to_check, slice_to. rewrite length_take. lia. Qed.

Lemma links_to_check_elem (links : gset string) (link : string) :
  link ∈ links_to_check links -> link ∈ links.
Proof.
  unfold links_to_check, slice_to. intros Hin.
  apply subseteq_take in Hin.
  rewrite (set_list_perm list_of_set links) in Hin. by apply elem_of_elements.
Qed.

Lemma prefix_NoDup {A} (l1 l2 : list A) : l1 `prefix_of` l2 -> NoDup l2 -> NoDup l1.
Proof. intros [k ->] Hnd. by apply NoDup_app in Hnd as (Hnd & _). Qed.

Lemma trace_cons_inv (ev ev' : event) (tr tr' : list event) :
  ev :: tr = ev' :: tr' -> ev = ev' /\ tr = tr'.
Proof.
  intros Heq. split.
  - exact (f_equal (fun l => List.hd ev l) Heq).
  - exact (f_equal (@List.tl event) Heq).
Qed.

(** The anchors that resolve to the page's network location all end up in
    the set, and nothing leaves it. *)
Lemma collect_links_complete (url : string) (a_tags : list Tag)
    (links0 links : gset string) :
  collect_links url a_tags links0 = Ok links ->
  links0 ⊆ links /\
  forall link tag href parsed_full parsed,
    tag ∈ a_tags ->
    attrs tag !! "href" = Some href ->
    Py.startswith href "#" = false ->
    Py.startswith href "javascript:" = false ->
    urljoin url href = Ok link ->
    urllib.urlparse link = Ok parsed_full ->
    urllib.urlparse url = Ok parsed ->
    urllib.netloc parsed_full = urllib.netloc parsed ->
    link ∈ links.
Proof.
  revert links0. induction a_tags as [|a_tag rest IH]; intros links0 Hc.
  - simpl in Hc. injection Hc as <-. split; [done|].
    intros ? ? ? ? ? Hin. by apply elem_of_nil in Hin.
  - simpl in Hc.
    destruct (attrs a_tag !! "href") as [href0|] eqn:Hhref; [|done].
    assert (forall l1, links0 ⊆ l1 ->
              collect_links url rest l1 = Ok links ->
              (forall link, urljoin url href0 = Ok link ->
                 Py.startswith href0 "#" = false ->
                 Py.startswith href0 "javascript:" = false ->
                 forall parsed_full parsed,
                   urllib.urlparse link = Ok parsed_full ->
                   urllib.urlparse url = Ok parsed ->
                   urllib.netloc parsed_full = urllib.netloc parsed ->
                   link ∈ l1) ->
              links0 ⊆ links /\
              forall link tag href parsed_full parsed,
                tag ∈ a_tag :: rest ->
                attrs tag !! "href" = Some href ->
                Py.startswith href "#" = false ->
                Py.startswith href "javascript:" = false ->
                urljoin url href = Ok link ->
                urllib.urlparse link = Ok parsed_full ->
                urllib.urlparse url = Ok parsed ->
                urllib.netloc parsed_full = urllib.netloc parsed ->
                link ∈ links) as Hstep.
    { intros l1 Hsub Hl1 Hhead. destruct (IH l1 Hl1) as [Hmono Hrest].
      split; [by transitivity l1|].
      intros link tag href pf pu [->|Hin]%elem_of_cons Ha Hf Hj Hu Hpf Hpu Hn.
      - rewrite Hhref in Ha. injection Ha as <-.
        apply Hmono. by eapply Hhead.
      - by eapply Hrest. }
    destruct (Py.startswith href0 "#") eqn:Hfrag; simpl in Hc.
    { apply (Hstep links0); [done|done|]. intros; congruence. }
    destruct (Py.startswith href0 "javascript:") eqn:Hjs; simpl in Hc.
    { apply (Hstep links0); [done|done|]. intros; congruence. }
    destruct (urljoin url href0) as [full_url|e] eqn:Hjoin; [|done].
    destruct (urllib.urlparse full_url) as [pf|e] eqn:Hpf; [|done].
    destruct (urllib.urlparse url) as [pu|e] eqn:Hpu; [|done].
    destruct (String.eqb (urllib.netloc pf) (urllib.netloc pu)) eqn:Heq.
    + apply (Hstep ({[full_url]} ∪ links0)); [apply union_subseteq_r|done|].
      intros link [= <-] _ _ ? ? _ _ _. by apply elem_of_union_l, elem_of_singleton.
    + apply (Hstep links0); [done|done|].
      intros link [= <-] _ _ pf' pu' Hpf' Hpu' Hn.
      rewrite Hpf in Hpf'. injection Hpf' as <-. injection Hpu' as <-.
      apply String.eqb_neq in Heq. done.
Qed.

(** The loop over the links: what it appends is the report of each
    request, in order; it stops early only on an exception that is not a
    [RequestException], and otherwise requests every link. *)
Lemma check_links_reports (links broken : list string) tr b stopped :
  exec (check_links links broken) tr (b, stopped) ->
  b = broken ++ omap head_report tr /\
  (stopped = None -> head_requests tr = links) /\
  (forall e, stopped = Some e ->
             raised_in tr e /\ Py.is_RequestException e = false).
Proof.
  revert broken tr. induction links as [|link rest IH]; intros broken tr Hex.
  - simpl in Hex. destruct Hex as [-> [= -> ->]].
    rewrite app_nil_r. by repeat split.
  - simpl in Hex. destruct Hex as (x & tr' & -> & Hex).
    change (head_requests (Event (requests_head link true
                                    CONFIG.HEAD_REQUEST_TIMEOUT links_headers) x :: tr'))
      with (link :: head_requests tr').
    destruct x as [resp|e].
    + cbn [omap list_omap head_report Event].
      destruct (status_code resp >=? 400);
        apply IH in Hex as (-> & Hall & Hstop);
        (split; [by rewrite <- ?app_assoc|]);
        (split; [intros Hn; by rewrite (Hall Hn)|]);
        intros e He; destruct (Hstop e He) as [Hr Hne];
        (split; [apply raised_in_cons; by right | done]).
    + cbn [omap list_omap head_report Event].
      destruct (Py.is_RequestException e) eqn:He.
      * apply IH in Hex as (-> & Hall & Hstop).
        split; [by rewrite <- ?app_assoc|].
        split; [intros Hn; by rewrite (Hall Hn)|].
        intros e' He'. destruct (Hstop e' He') as [Hr Hne].
        split; [apply raised_in_cons; by right | done].
      * simpl in Hex. destruct Hex as [-> [= -> ->]].
        split; [by rewrite app_nil_r|]. split; [done|].
        intros e' [= <-]. split; [|done]. apply raised_in_cons. by left.
Qed.

(** The runs of [find_broken_links], case by case. *)
Lemma find_broken_links_cases (url : string) tr r :
  exec (find_broken_links url) tr r ->
  exists x,
    (exists tr', tr = Event (requests_get url CONFIG.REQUEST_TIMEOUT
                               links_headers true) x :: tr') /\
    match x with
    | Raise _ => tr = [Event (requests_get url CONFIG.REQUEST_TIMEOUT
                                 links_headers true) x] /\ r = Ok []
    | Ok response =>
        if ok response then
          exists y tr',
            tr = Event (requests_get url CONFIG.REQUEST_TIMEOUT
                          links_headers true) x
                 :: Event (BeautifulSoup (text response) "html.parser") y :: tr' /\
            match y with
            | Raise _ => tr' = [] /\ r = Ok []
            | Ok soup =>
                match collect_links url (find_all_a_href soup) ∅ with
                | Raise _ => tr' = [] /\ r = Ok []
                | Ok links =>
                    exists broken stopped,
                      exec (check_links (links_to_check links) []) tr'
                        (broken, stopped) /\
                      r = Ok broken
                end
            end
        else tr = [Event (requests_get url CONFIG.REQUEST_TIMEOUT
                            links_headers true) x] /\ r = Ok []
    end.
Proof.
  intros Hex. unfold find_broken_links in Hex.
  apply exec_prog_bind in Hex as (tr1 & tr2 & [b stopped] & -> & Hex & Hret).
  assert (tr2 = [] /\ r = Ok b) as [-> ->].
  { destruct stopped; simpl in Hret; by destruct Hret. }
  rewrite app_nil_r. unfold find_broken_links_try in Hex. simpl in Hex.
  destruct Hex as (x & tr & -> & Hex). exists x. split; [by eexists|].
  destruct x as [response|e]; simpl in Hex;
    [|by destruct Hex as [-> [= -> ->]]].
  destruct (ok response); simpl in Hex;
    [|by destruct Hex as [-> [= -> ->]]].
  destruct Hex as (y & tr' & -> & Hex). exists y, tr'. split; [done|].
  destruct y as [soup|e]; simpl in Hex;
    [|by destruct Hex as [-> [= -> ->]]].
  destruct (collect_links url (find_all_a_href soup) ∅) as [links|e];
    simpl in Hex; [|by destruct Hex as [-> [= -> ->]]].
  by exists b, stopped.
Qed.

(** The requests of a run on a page that was fetched and parsed, when
    only [RequestException]s were raised. *)
Lemma find_broken_links_head_requests (url : string) response soup links tr' r :
  exec (find_broken_links url)
    (Event (requests_get url CONFIG.REQUEST_TIMEOUT links_headers true)
       (Ok response)
     :: Event (BeautifulSoup (text response) "html.parser") (Ok soup) :: tr') r ->
  collect_links url (find_all_a_href soup) ∅ = Ok links ->
  (forall e, raised_in tr' e -> Py.is_RequestException e = true) ->
  head_requests tr' = links_to_check links.
Proof.
  intros Hex Hc Hreq.
  destruct (find_broken_links_cases url _ r Hex) as (x & [tr0 Htr] & Hcase).
  apply trace_cons_inv in Htr as [Hx <-]. apply Event_inj in Hx as <-.
  destruct (ok response).
  2: { destruct Hcase as [Htr _]. apply trace_cons_inv in Htr as [_ [=]]. }
  destruct Hcase as (y & tr1 & Htr & Hcase).
  apply trace_cons_inv in Htr as [_ Htr].
  apply trace_cons_inv in Htr as [Hy <-].
  apply Event_inj in Hy as <-. rewrite Hc in Hcase.
  destruct Hcase as (broken & stopped & Hloop & ->).
  apply check_links_reports in Hloop as (_ & Hall & Hstop).
  destruct stopped as [e|]; [|by apply Hall].
  destruct (Hstop e eq_refl) as [Hr Hne]. rewrite (Hreq e Hr) in Hne. done.
Qed.

(** C4.  [find_broken_links] always returns a list, of at most
    [MAX_LINKS_TO_CHECK] (20) entries, however many anchors the page has,
    and it requests at most 20 links, none of them twice.  The ceiling is
    applied after deduplication: when the page was fetched and parsed,
    its anchors are collected into one set, which holds exactly the URLs
    the same-domain anchors resolve to; the links requested are the first
    of the first 20 of an enumeration of that set, and they are all of
    these 20 unless an exception other than a [RequestException] ended
    the loop. *)
Theorem find_broken_links_ceiling (url : string) tr r :
  exec (find_broken_links url) tr r ->
  exists broken,
    r = Ok broken /\
    (length broken <= Z.to_nat CONFIG.MAX_LINKS_TO_CHECK)%nat /\
    (length (head_requests tr) <= Z.to_nat CONFIG.MAX_LINKS_TO_CHECK)%nat /\
    NoDup (head_requests tr) /\
    forall response soup (links : gset string) tr',
      tr = Event (requests_get url CONFIG.REQUEST_TIMEOUT links_headers true)
             (Ok response)
           :: Event (BeautifulSoup (text response) "html.parser") (Ok soup)
           :: tr' ->
      collect_links url (find_all_a_href soup) ∅ = Ok links ->
      (forall link, link ∈ links <-> same_domain_anchor url soup link) /\
      list_of_set links ≡ₚ elements links /\
      head_requests tr `prefix_of`
        take (Z.to_nat CONFIG.MAX_LINKS_TO_CHECK) (list_of_set links) /\
      ((forall e, raised_in tr' e -> Py.is_RequestException e = true) ->
       head_requests tr
       = take (Z.to_nat CONFIG.MAX_LINKS_TO_CHECK) (list_of_set links)).
Proof.
  intros Hex. destruct (find_broken_links_run url tr r Hex)
    as (broken & -> & Hcase).
  exists broken. split; [done|].
  assert ((length broken <= Z.to_nat CONFIG.MAX_LINKS_TO_CHECK)%nat /\
          (length (head_requests tr) <= Z.to_nat CONFIG.MAX_LINKS_TO_CHECK)%nat /\
          NoDup (head_requests tr)) as (Hb & Hh & Hnd).
  { destruct Hcase as [[Hnone ->] | (resp & soup & links & tr' & -> & Hc & Hh
                                     & Hpre & Hlen & Hall)].
    - rewrite Hnone. split; [simpl; lia|]. split; [simpl; lia | constructor].
    - rewrite Hh.
      pose proof (prefix_length _ _ Hpre) as Hle.
      pose proof (links_to_check_length links) as Hcap.
      split; [lia|]. split; [lia|].
      exact (prefix_NoDup _ _ Hpre (links_to_check_NoDup links)). }
  repeat (split; [done|]).
  intros response soup links tr' Htr Hc. split; [|split; [|split]].
  - intros link. split.
    + intros Hin.
      destruct (collect_links_elem url _ _ _ Hc link Hin) as [Hempty|Hanchor];
        [by apply elem_of_empty in Hempty | exact Hanchor].
    + intros (tag & href & pf & pu & Htag & Ha & Hf & Hj & Hu & Hpf & Hpu & Hn).
      destruct (collect_links_complete url _ _ _ Hc) as [_ Hall].
      by apply (Hall link tag href pf pu).
  - apply set_list_perm.
  - destruct Hcase as [[Hnone _] | (resp0 & soup0 & links0 & tr0 & Htr0 & Hc0
                                    & Hh0 & Hpre & _)].
    + rewrite Hnone. apply prefix_nil.
    + rewrite Htr in Htr0.
      apply trace_cons_inv in Htr0 as [Hresp Htr0].
      apply Event_inj in Hresp. injection Hresp as <-.
      apply trace_cons_inv in Htr0 as [Hsoup <-].
      apply Event_inj in Hsoup. injection Hsoup as <-.
      rewrite Hc in Hc0. injection Hc0 as <-.
      rewrite Htr, Hh0 in *. exact Hpre.
  - intros Hreq. rewrite Htr in Hex |- *.
    exact (find_broken_links_head_requests url response soup links tr' _
             Hex Hc Hreq).
Qed.

(** C5.  Every link [find_broken_links] checks is what an anchor of the
    fetched page resolves to, where the anchor's [href] starts with neither
    [#] nor [javascript:] and the resolved network location equals the
    page's; every entry of the result is the report of a link that was
    checked.  So no link to another host, no fragment link and no script
    link is checked or reported. *)
Theorem find_broken_links_same_domain (url : string) tr r :
  exec (find_broken_links url) tr r ->
  (forall link, link ∈ head_requests tr ->
     exists markup soup,
       Event (BeautifulSoup markup "html.parser") (Ok soup) ∈ tr /\
       same_domain_anchor url soup link)
  /\ (forall broken entry,
         r = Ok broken -> entry ∈ broken ->
         exists link, link ∈ head_requests tr /\ reports link entry).
Proof.
  intros Hex. destruct (find_broken_links_run url tr r Hex)
    as (broken & -> & [[Hnone ->] | (resp & soup & links & tr' & -> & Hc & Hh
                                     & Hpre & Hlen & Hall)]).
  - split.
    + intros link Hin. rewrite Hnone in Hin. by apply elem_of_nil in Hin.
    + intros b entry [= <-] Hin. by apply elem_of_nil in Hin.
  - split.
    + intros link Hin. rewrite Hh in Hin.
      exists (text resp), soup. split.
      { apply list_elem_of_further, list_elem_of_here. }
      apply (elem_of_prefix _ _ _ Hin) in Hpre.
      apply links_to_check_elem in Hpre.
      destruct (collect_links_elem url _ _ _ Hc link Hpre) as [Hempty|Hanchor].
      * by apply elem_of_empty in Hempty.
      * exact Hanchor.
    + intros b entry [= <-] Hin. rewrite Hh.
      rewrite Forall_forall in Hall. by apply Hall.
Qed.

End Links.

(** Six anchors, two links checked (the fragment, the script link and the
    link to another host are dropped, the repeated one counts once), one
    found broken. *)
Example example_links_run_value :
  head_requests example_links_run.1
  = ["https://example.com/missing"; "https://example.com/about"]
  /\ example_links_run.2 = Ok ["https://example.com/missing (Status: 404)"].
Proof. split; vm_compute; reflexivity. Qed.

Example example_links_run_trace :
  example_links_run.1
  = [Event (requests_get "https://example.com/" CONFIG.REQUEST_TIMEOUT
              links_headers true) (Ok (mkResponse 200 ∅ "<html>...</html>"));
     Event (BeautifulSoup (text (mkResponse 200 ∅ "<html>...</html>"))
              "html.parser") (Ok example_soup);
     Event (requests_head "https://example.com/missing" true
              CONFIG.HEAD_REQUEST_TIMEOUT links_headers)
       (Ok (mkResponse 404 ∅ EmptyString));
     Event (requests_head "https://example.com/about" true
              CONFIG.HEAD_REQUEST_TIMEOUT links_headers)
       (Ok (mkResponse 200 ∅ EmptyString))].
Proof. vm_compute. reflexivity. Qed.

Lemma example_collect_links :
  @collect_links example_runtime "https://example.com/"
    (find_all_a_href example_soup) ∅
  = Ok {[ "https://example.com/about"; "https://example.com/missing" ]}.
Proof. vm_compute. reflexivity. Qed.

Lemma find_broken_links_ceiling_witness :
  (exists broken,
      example_links_run.2 = Ok broken /\
      (length broken <= Z.to_nat CONFIG.MAX_LINKS_TO_CHECK)%nat /\
      (length (head_requests example_links_run.1)
       <= Z.to_nat CONFIG.MAX_LINKS_TO_CHECK)%nat /\
      NoDup (head_requests example_links_run.1)) /\
  (forall link,
      link ∈ ({[ "https://example.com/about"; "https://example.com/missing" ]}
              : gset string) <->
      @same_domain_anchor example_runtime "https://example.com/" example_soup
        link) /\
  head_requests example_links_run.1
  = take (Z.to_nat CONFIG.MAX_LINKS_TO_CHECK)
      (@list_of_set example_runtime
         {[ "https://example.com/about"; "https://example.com/missing" ]}).
Proof.
  destruct (@find_broken_links_ceiling example_runtime "https://example.com/"
              example_links_run.1 example_links_run.2
              (run_exec online_world
                 (@find_broken_links example_runtime "https://example.com/")))
    as (broken & Hr & Hb & Hh & Hnd & Hpage).
  split.
  { exists broken. split; [exact Hr|]. split; [exact Hb|].
    split; [exact Hh | exact Hnd]. }
  destruct (Hpage (mkResponse 200 ∅ "<html>...</html>") example_soup
              {[ "https://example.com/about"; "https://example.com/missing" ]}
              (drop 2 example_links_run.1))
    as (Hiff & _ & _ & Hall).
  - rewrite example_links_run_trace. reflexivity.
  - apply example_collect_links.
  - split; [exact Hiff|]. apply Hall. intros e Hraised.
    rewrite example_links_run_trace in Hraised. cbn [drop] in Hraised.
    exfalso. no_raise Hraised.
Defined.

Lemma find_broken_links_same_domain_witness :
  (forall link, link ∈ head_requests example_links_run.1 ->
     exists markup soup,
       Event (BeautifulSoup markup "html.parser") (Ok soup) ∈ example_links_run.1 /\
       @same_domain_anchor example_runtime "https://example.com/" soup link)
  /\ (forall broken entry,
         example_links_run.2 = Ok broken -> entry ∈ broken ->
         exists link, link ∈ head_requests example_links_run.1 /\
                      reports link entry).
Proof.
  apply (@find_broken_links_same_domain example_runtime "https://example.com/").
  apply run_exec.
Defined.

(** *** The orchestrator *)

Lemma print_suggestions_run (suggestions : list string) tr r :
  exec (print_suggestions suggestions) tr r ->
  r = Ok tt /\ Forall (fun c => is_print c = true) (calls tr).
Proof.
  revert tr. induction suggestions as [|s rest IH]; intros tr Hex.
  - destruct Hex as [-> ->]. split; [done | constructor].
  - cbn [print_suggestions] in Hex.
    apply exec_bind_print in Hex as (tr' & -> & Hex).
    destruct (IH tr' Hex) as [-> Hall]. split; [done|]. by constructor.
Qed.

Lemma print_recommendations_run (suggestions : list string) tr r :
  exec (match suggestions with
        | [] => call_print "  ✅ Your site is in excellent health. Keep it up!"
        | _ :: _ => print_suggestions suggestions
        end) tr r ->
  r = Ok tt /\ Forall (fun c => is_print c = true) (calls tr).
Proof.
  destruct suggestions as [|s rest]; [|apply print_suggestions_run].
  simpl. intros ([] & tr' & -> & -> & ->). split; [done|]. by repeat constructor.
Qed.

Lemma prints_only (l : list call) :
  Forall (fun c => is_print c = true) l ->
  List.filter (fun c => negb (is_print c)) l = [].
Proof.
  induction 1 as [|c l Hc _ IH]; [done|]. simpl. by rewrite Hc, IH.
Qed.

Section Orchestrator.
Context `{Runtime}.

(** Once the site is known to be unreachable the rest of the run is
    fixed: the three defaults, the suggestions for them, and nothing but
    printing. *)
Lemma from_status_unreachable url results0 sv hdrs lt tr r :
  r_status results0 = Some (false, sv, hdrs, lt) ->
  exec (run_website_test_from_status url results0) tr r ->
  r = Ok {| r_status := Some (false, sv, hdrs, lt);
            r_ssl := Some (false, None);
            r_broken_links := Some [];
            r_mobile := Some (false, ["Site not reachable"]);
            r_suggestions :=
              Some (generate_suggestions false None []
                      (false, ["Site not reachable"]) lt) |}
  /\ Forall (fun c => is_print c = true) (calls tr).
Proof.
  intros Hst Hex. unfold run_website_test_from_status in Hex.
  rewrite Hst in Hex. walk_det Hex.
  apply exec_bind in Hex as [(tr3 & tr4 & [] & -> & Hrec & Hex) | (e & Hrec & ->)].
  - apply print_recommendations_run in Hrec as [_ Hprints].
    apply exec_bind_print in Hex as (tr5 & -> & [-> ->]).
    split; [done|]. rewrite !calls_cons, calls_app.
    repeat (constructor; [done|]). apply Forall_app. split; [exact Hprints|].
    by repeat constructor.
  - by apply print_recommendations_run in Hrec as [[=] _].
Qed.

(** The status entry of [results] is never written again. *)
Lemma from_status_status url results0 tr results :
  exec (run_website_test_from_status url results0) tr (Ok results) ->
  r_status results = r_status results0.
Proof.
  intros Hex. unfold run_website_test_from_status in Hex.
  destruct (r_status results0) as [[[[reachable status] hdrs] load_time]|] eqn:Hst;
    cbn [getitem] in Hex; [rewrite bind_ret_l in Hex|by destruct Hex as [_ [=]]].
  apply exec_bind in Hex as [(tr1 & tr2 & results1 & -> & H1 & Hex) | (? & _ & [=])].
  assert (r_status results1 = Some (reachable, status, hdrs, load_time)) as Hs1.
  { destruct reachable; walk H1; destruct H1 as [_ [= ->]]; done. }
  apply exec_bind in Hex as [(tr3 & tr4 & results2 & -> & H2 & Hex) | (? & _ & [=])].
  assert (r_status results2 = r_status results1) as Hs2.
  { destruct reachable; walk H2; destruct H2 as [_ [= ->]]; done. }
  walk Hex. destruct Hex as [_ [= ->]]. cbn [r_status]. by rewrite Hs2, Hs1.
Qed.

End Orchestrator.

Section OrchestratorClaims.
Context `{Runtime}.

(** C9.  When [check_site_status] has reported [reachable = False], the
    rest of [run_website_test] makes no call but [print]: no certificate,
    link or responsiveness probe runs.  It sets the three results to
    their defaults ([(False, None)], [[]], [(False, ["Site not
    reachable"])]), runs [generate_suggestions] on them and ends without
    an error.  Seen from the whole function: a run that ends with
    [reachable = False] in [results['status']] made, besides printing, two
    calls only, the clock read and the fetch of the reachability probe, and
    holds these defaults and the three suggestions they lead to. *)
Theorem run_website_test_unreachable :
  (forall url results0 sv hdrs lt tr r,
      r_status results0 = Some (false, sv, hdrs, lt) ->
      exec (run_website_test_from_status url results0) tr r ->
      r = Ok {| r_status := Some (false, sv, hdrs, lt);
                r_ssl := Some (false, None);
                r_broken_links := Some [];
                r_mobile := Some (false, ["Site not reachable"]);
                r_suggestions :=
                  Some (generate_suggestions false None []
                          (false, ["Site not reachable"]) lt) |}
      /\ Forall (fun c => is_print c = true) (calls tr))
  /\ (forall raw tr results sv hdrs lt,
         exec (run_website_test raw) tr (Ok (Some results)) ->
         r_status results = Some (false, sv, hdrs, lt) ->
         exists url,
           validate_url raw = Ok url /\
           List.filter (fun c => negb (is_print c)) (calls tr)
           = [time_time;
              requests_get url CONFIG.REQUEST_TIMEOUT status_headers true] /\
           hdrs = ∅ /\ lt = None /\
           r_ssl results = Some (false, None) /\
           r_broken_links results = Some [] /\
           r_mobile results = Some (false, ["Site not reachable"]) /\
           r_suggestions results
           = Some [Rules.install_certificate; Rules.add_viewport;
                   Rules.use_framework]).
Proof.
  split; [apply from_status_unreachable|].
  intros raw tr results sv hdrs lt Hex Hst.
  apply exec_try_except in Hex
    as [(a & Hex & [= <-]) | (tr1 & tr2 & e & -> & _ & Hh)].
  2: { apply exec_bind_print in Hh as (tr' & -> & [_ [=]]). }
  apply exec_bind in Hex as [(tr1 & tr2 & a & -> & Hex & [-> [= ->]]) | (? & _ & [=])].
  rewrite app_nil_r. unfold run_website_test_try in Hex.
  destruct (validate_url raw) as [url|e] eqn:Hv; [|by destruct Hex as [_ [=]]].
  exists url. split; [done|].
  unfold lift in Hex. change (Ret (Ok url)) with (ret url) in Hex.
  rewrite bind_ret_l in Hex.
  apply exec_bind_print in Hex as (tr2 & -> & Hex).
  apply exec_bind_print in Hex as (tr3 & -> & Hex).
  apply exec_bind in Hex as [(tr4 & tr5 & st & -> & Hstatus & Hex) | (? & _ & [=])].
  cbn [r_ssl r_broken_links r_mobile r_suggestions no_results] in Hex.
  pose proof (from_status_status _ _ _ _ Hex) as Hkeep.
  cbn [r_status] in Hkeep. rewrite Hst in Hkeep. injection Hkeep as <-.
  destruct (check_site_status_cases url tr4 _ Hstatus)
    as (t0 & x & [(resp & t1 & -> & -> & [=]) | (e & -> & -> & Hr)]).
  destruct (Py.is_RequestException e); [|done].
  injection Hr as -> -> ->.
  destruct (from_status_unreachable url
              {| r_status := Some (false, StatusText (Py.exc_str e), ∅, None);
                 r_ssl := None; r_broken_links := None; r_mobile := None;
                 r_suggestions := None |}
              (StatusText (Py.exc_str e)) ∅ None tr5 (Ok a) eq_refl Hex)
    as [[= ->] Hprints].
  cbn [r_ssl r_broken_links r_mobile r_suggestions].
  apply prints_only in Hprints.
  rewrite !calls_cons, calls_app, !calls_cons.
  cbn [projT1 Event List.filter is_print negb]. rewrite List.filter_app.
  cbn [List.filter is_print negb app]. rewrite Hprints. by repeat split.
Qed.

End OrchestratorClaims.

Lemma run_website_test_offline :
  (run offline_world (@run_website_test example_runtime "example.invalid")).2
  = Ok (Some unreachable_results).
Proof. vm_compute. reflexivity. Qed.

Lemma run_website_test_unreachable_witness :
  exists url,
    @validate_url example_runtime "example.invalid" = Ok url /\
    List.filter (fun c => negb (is_print c))
      (calls (run offline_world
                (@run_website_test example_runtime "example.invalid")).1)
    = [time_time;
       requests_get url CONFIG.REQUEST_TIMEOUT status_headers true] /\
    (∅ : gmap string string) = ∅ /\ @None float = None /\
    r_ssl unreachable_results = Some (false, None) /\
    r_broken_links unreachable_results = Some [] /\
    r_mobile unreachable_results = Some (false, ["Site not reachable"]) /\
    r_suggestions unreachable_results
    = Some [Rules.install_certificate; Rules.add_viewport; Rules.use_framework].
Proof.
  apply (proj2 (@run_website_test_unreachable example_runtime) "example.invalid"
           (run offline_world
              (@run_website_test example_runtime "example.invalid")).1
           unreachable_results
           (StatusText (Py.exc_str name_not_resolved)) ∅ None).
  - rewrite <- run_website_test_offline. apply run_exec.
  - reflexivity.
Defined.

(** What the terminal shows for a host that does not resolve. *)
Example run_website_test_offline_output :
  omap (fun c => match c with print line => Some line | _ => None end)
    (calls (run offline_world
              (@run_website_test example_runtime "example.invalid")).1)
  = [NL +:+ "📊 Starting health check for https://example.invalid..." +:+ NL;
     "⏳ Checking site status...";
     "❌ Site is not reachable: HTTPSConnectionPool(host='example.invalid', port=443): Max retries exceeded";
     NL +:+ "📝 RECOMMENDATIONS:";
     "  • Install a valid SSL certificate using Let's Encrypt or a trusted CA";
     "  • Improve mobile responsiveness by adding a viewport meta tag";
     "  • Consider using responsive frameworks like Bootstrap or Tailwind CSS";
     NL +:+ "✅ Health check completed!" +:+ NL].
Proof. vm_compute. reflexivity. Qed.

(** A reachable site: all four probes run, in order. *)
Example run_website_test_online :
  List.filter is_network
    (calls (run online_world
              (@run_website_test example_runtime "example.com/")).1)
  = [requests_get "https://example.com/" 15 status_headers true;
     socket_create_connection "example.com" 443 15;
     wrap_socket DefaultContext (Socket 3) "example.com";
     getpeercert (Socket 4);
     requests_get "https://example.com/" 15 links_headers true;
     requests_head "https://example.com/missing" true 8 links_headers;
     requests_head "https://example.com/about" true 8 links_headers;
     requests_get "https://example.com/" 15 mobile_headers true]
  /\ match (run online_world
              (@run_website_test example_runtime "example.com/")).2 with
     | Ok (Some results) => r_suggestions results
     | _ => None
     end
     = Some ["Fix 1 broken links on your website";
             "Improve mobile responsiveness by adding a viewport meta tag";
             "Consider using responsive frameworks like Bootstrap or Tailwind CSS";
             "Optimize page load time (currently 4.50s)";
             "Compress images and minify CSS/JavaScript files";
             "Consider using a CDN for static assets"].
Proof. split; vm_compute; reflexivity. Qed.

(** *** Empty and blank input *)

(** No whitespace character is a delimiter of the network location, a
    square bracket or the letter [h]. *)
Lemma is_space_plain (a : ascii) :
  is_space a = true ->
  urllib.is_delim a = false /\ Py.chr_eqb a "[" = false /\
  Py.chr_eqb a "]" = false /\ a <> "h"%char.
Proof.
  intros Hs.
  destruct a as [[] [] [] [] [] [] [] []]; vm_compute in Hs;
    try discriminate Hs; by repeat split.
Qed.

Lemma tab_or_line_end_is_space (a : ascii) :
  tab_or_line_end a = true -> is_space a = true.
Proof.
  intros Hs.
  destruct a as [[] [] [] [] [] [] [] []]; vm_compute in Hs;
    try discriminate Hs; reflexivity.
Qed.

(** What [urlsplit] does to the first character of a URL. *)
Lemma remove_unsafe_cons (a : ascii) (s : string) :
  urllib.remove_unsafe (String a s) =
    if tab_or_line_end a then urllib.remove_unsafe s
    else String a (urllib.remove_unsafe s).
Proof. destruct a as [[] [] [] [] [] [] [] []]; reflexivity. Qed.

(** Nothing is left of a URL exactly when it is made of tabs and line
    ends only. *)
Lemma remove_unsafe_empty (s : string) :
  urllib.remove_unsafe s = EmptyString <->
  urllib.all_chars tab_or_line_end s = true.
Proof.
  induction s as [|a s IH]; [done|].
  rewrite remove_unsafe_cons. cbn [urllib.all_chars].
  destruct (tab_or_line_end a); [exact IH | done].
Qed.

Lemma all_chars_remove_unsafe (p : ascii -> bool) (s : string) :
  urllib.all_chars p s = true -> urllib.all_chars p (urllib.remove_unsafe s) = true.
Proof.
  induction s as [|a s IH]; [done|].
  rewrite remove_unsafe_cons. cbn [urllib.all_chars].
  intros [Ha Hs]%andb_true_iff.
  destruct (tab_or_line_end a); [by apply IH|].
  cbn [urllib.all_chars]. by rewrite Ha, IH.
Qed.

Lemma isascii_all_chars (s : string) :
  Py.isascii s = urllib.all_chars Py.is_ascii_chr s.
Proof. induction s as [|a s IH]; [done|]. simpl. by rewrite IH. Qed.

Lemma all_chars_break_at (p q : ascii -> bool) (s : string) :
  urllib.all_chars p s = true ->
  (forall a, p a = true -> q a = false) ->
  Py.break_at q s = (s, EmptyString).
Proof.
  intros Hs Hpq. induction s as [|a s IH]; [done|].
  cbn [urllib.all_chars] in Hs. apply andb_true_iff in Hs as [Ha Hs].
  cbn [Py.break_at]. by rewrite (Hpq a Ha), (IH Hs).
Qed.

Lemma all_chars_has_char (p : ascii -> bool) (c : ascii) (s : string) :
  urllib.all_chars p s = true ->
  (forall a, p a = true -> Py.chr_eqb a c = false) ->
  Py.has_char c s = false.
Proof.
  intros Hs Hpc. induction s as [|a s IH]; [done|].
  cbn [urllib.all_chars] in Hs. apply andb_true_iff in Hs as [Ha Hs].
  cbn [Py.has_char]. by rewrite (Hpc a Ha), (IH Hs).
Qed.

(** A string that does not begin with [h] has neither prefix. *)
Lemma with_scheme_not_h (a : ascii) (s : string) :
  a <> "h"%char -> with_scheme (String a s) = "https://" +:+ String a s.
Proof.
  intros Ha. unfold with_scheme, Py.startswith. cbn [String.prefix].
  destruct (Ascii.ascii_dec "h" a) as [Heq|_]; [by destruct Ha | reflexivity].
Qed.

Section EmptyInput.
Context `{Runtime}.

(** C2, as the program has it.  [validate_url] rejects the empty string
    with [ValueError("URL cannot be empty")], and it rejects every input
    made of tabs, line feeds and carriage returns only, with
    [ValueError("Invalid URL: https://...")]: [urlparse] drops these
    characters and finds no network location.  Any other whitespace-only
    input in ASCII is returned with ["https://"] in front.  Blank input
    from the text box does not get that far: [run_check] strips the text
    and, when nothing is left, prints ["Please enter a valid URL"] and
    calls nothing else. *)
Theorem validate_url_rejects_empty :
  validate_url EmptyString = Raise (Exn Py.ValueError "URL cannot be empty")
  /\ (forall url,
         url <> EmptyString ->
         urllib.all_chars tab_or_line_end url = true ->
         validate_url url
         = Raise (Exn Py.ValueError ("Invalid URL: https://" +:+ url)))
  /\ (forall url,
         urllib.all_chars is_space url = true ->
         Py.isascii url = true ->
         urllib.all_chars tab_or_line_end url = false ->
         validate_url url = Ok ("https://" +:+ url))
  /\ (forall value tr r,
         strip value = EmptyString ->
         exec run_check (Event url_input_value value :: tr) r ->
         tr = [Event (print "Please enter a valid URL") tt] /\ r = Ok None).
Proof.
  split; [reflexivity|]. split; [|split].
  - intros url Hne Hall.
    assert (urllib.all_chars is_space url = true) as Hblank.
    { clear Hne. induction url as [|a s IH]; [done|].
      cbn [urllib.all_chars] in *. apply andb_true_iff in Hall as [Ha Hs].
      by rewrite (tab_or_line_end_is_space a Ha), (IH Hs). }
    apply remove_unsafe_empty in Hall.
    rewrite (validate_url_unfold url Hne).
    destruct url as [|a s]; [done|].
    cbn [urllib.all_chars] in Hblank. apply andb_true_iff in Hblank as [Ha _].
    destruct (is_space_plain a Ha) as (_ & _ & _ & Hh).
    rewrite (with_scheme_not_h a s Hh).
    pose proof (urlparse_netloc "https://" (String a s) (or_intror eq_refl))
      as Hparse.
    cbv zeta in Hparse. rewrite Hall in Hparse.
    destruct (Hparse eq_refl eq_refl eq_refl) as (parsed & -> & ->).
    reflexivity.
  - intros url Hblank Hascii Hsome.
    assert (urllib.remove_unsafe url <> EmptyString) as Hleft.
    { intros Hnone. apply remove_unsafe_empty in Hnone. congruence. }
    assert (url <> EmptyString) as Hne by (by intros ->).
    rewrite (validate_url_unfold url Hne).
    pose proof (all_chars_remove_unsafe is_space url Hblank) as Hclean.
    assert (Py.break_at urllib.is_delim (urllib.remove_unsafe url)
            = (urllib.remove_unsafe url, EmptyString)) as Hbreak.
    { apply (all_chars_break_at is_space); [done|].
      intros a Ha. by destruct (is_space_plain a Ha). }
    destruct url as [|a s]; [done|].
    cbn [urllib.all_chars] in Hblank. apply andb_true_iff in Hblank as [Ha _].
    destruct (is_space_plain a Ha) as (_ & _ & _ & Hh).
    rewrite (with_scheme_not_h a s Hh).
    pose proof (urlparse_netloc "https://" (String a s) (or_intror eq_refl))
      as Hparse.
    cbv zeta in Hparse. rewrite Hbreak in Hparse. cbn [fst] in Hparse.
    destruct Hparse as (parsed & -> & ->).
    + apply (all_chars_has_char is_space); [done|].
      intros c Hc. by destruct (is_space_plain c Hc) as (_ & ? & _).
    + apply (all_chars_has_char is_space); [done|].
      intros c Hc. by destruct (is_space_plain c Hc) as (_ & _ & ? & _).
    + rewrite isascii_all_chars in Hascii |- *.
      by apply all_chars_remove_unsafe.
    + apply truthy_true in Hleft. by rewrite Hleft.
  - intros value tr r Hblank Hex. unfold run_check in Hex.
    apply exec_bind_widget_value in Hex. rewrite Hblank in Hex.
    cbn [Py.truthy] in Hex.
    by apply exec_bind_print in Hex as (tr' & -> & [-> ->]).
Qed.

End EmptyInput.

Lemma validate_url_rejects_empty_witness :
  @validate_url example_runtime EmptyString
  = Raise (Exn Py.ValueError "URL cannot be empty")
  /\ @validate_url example_runtime (String urllib.TAB (String urllib.LF EmptyString))
     = Raise (Exn Py.ValueError
                ("Invalid URL: https://" +:+
                 String urllib.TAB (String urllib.LF EmptyString)))
  /\ @validate_url example_runtime (String " " (String urllib.TAB EmptyString))
     = Ok ("https://" +:+ String " " (String urllib.TAB EmptyString))
  /\ (run blank_world (@run_check example_runtime)).1
     = [Event url_input_value "   ";
        Event (print "Please enter a valid URL") tt]
  /\ (run blank_world (@run_check example_runtime)).2 = Ok None.
Proof.
  split; [apply (@validate_url_rejects_empty example_runtime)|].
  split.
  { apply (proj1 (proj2 (@validate_url_rejects_empty example_runtime)));
      [discriminate | reflexivity]. }
  split.
  { apply (proj1 (proj2 (proj2 (@validate_url_rejects_empty example_runtime))));
      reflexivity. }
  destruct (proj2 (proj2 (proj2 (@validate_url_rejects_empty example_runtime)))
              "   "
              [Event (print "Please enter a valid URL") tt]
              (run blank_world (@run_check example_runtime)).2)
    as [_ Hr].
  - reflexivity.
  - exact (run_exec blank_world (@run_check example_runtime)).
  - split; [reflexivity | exact Hr].
Defined.

(** C2, as the claim words it, fails: a single space is whitespace only,
    and [validate_url] returns ["https:// "] for it, in every runtime. *)
Lemma validate_url_accepts_space :
  strip " " = EmptyString
  /\ forall rt : Runtime, @validate_url rt " " = Ok "https:// ".
Proof. split; [reflexivity|]. intros rt. reflexivity. Qed.

(** The button with text in the box: the text is stripped, the output
    cleared, and the check runs on what is left. *)
Example run_check_strips :
  take 3 (calls (run online_world (@run_check example_runtime)).1)
  = [url_input_value; output_clear;
     print (NL +:+ "📊 Starting health check for https://example.com/..." +:+ NL)].
Proof. vm_compute. reflexivity. Qed.

(** ** Further properties of the program *)

(** *** The reachability probe, when the fetch returns *)

(** X1.  When no call of [check_site_status] raised, the run is: read the
    clock, one fetch, read the clock; the result is [reachable = True]
    with the status code of the response (whatever it is, 404 and 500
    included), its headers, and the difference of the two clock
    readings. *)
Theorem check_site_status_response (url : string) tr (r : result site_status) :
  exec (check_site_status url) tr r ->
  (forall e, ~ raised_in tr e) ->
  exists t0 response t1,
    tr = [Event time_time t0;
          Event (requests_get url CONFIG.REQUEST_TIMEOUT status_headers true)
            (Ok response);
          Event time_time t1] /\
    r = Ok (true, StatusCode (status_code response), headers response,
            Some (PrimFloat.sub t1 t0)).
Proof.
  intros Hex Hclean.
  destruct (check_site_status_cases url tr r Hex)
    as (t0 & x & [(resp & t1 & -> & -> & ->) | (e & -> & -> & _)]).
  - by exists t0, resp, t1.
  - destruct (Hclean e).
    exists (Event (requests_get url CONFIG.REQUEST_TIMEOUT status_headers true)
              (Raise e)).
    split; [apply list_elem_of_further, list_elem_of_here | reflexivity].
Qed.

Lemma check_site_status_response_witness :
  exists t0 response t1,
    (run not_found_world (check_site_status "https://example.com/gone")).1
    = [Event time_time t0;
       Event (requests_get "https://example.com/gone" CONFIG.REQUEST_TIMEOUT
                status_headers true) (Ok response);
       Event time_time t1] /\
    (run not_found_world (check_site_status "https://example.com/gone")).2
    = Ok (true, StatusCode (status_code response), headers response,
          Some (PrimFloat.sub t1 t0)).
Proof.
  apply (check_site_status_response "https://example.com/gone").
  - apply run_exec.
  - intros e Hr. cbn in Hr.
    repeat (apply raised_in_cons in Hr as [Hr|Hr]; [discriminate Hr|]).
    by apply raised_in_nil in Hr.
Defined.

(** X2.  An exception under the fetch that is not a [RequestException] is
    not turned into a result: [check_site_status] raises it, after the one
    fetch and without reading the clock again. *)
Theorem check_site_status_propagates (url : string) tr (r : result site_status)
    (e : exn) :
  exec (check_site_status url) tr r ->
  raised_in tr e ->
  Py.is_RequestException e = false ->
  r = Raise e /\
  calls tr = [time_time;
              requests_get url CONFIG.REQUEST_TIMEOUT status_headers true].
Proof.
  intros Hex Hr He.
  destruct (check_site_status_cases url tr r Hex)
    as (t0 & x & [(resp & t1 & -> & -> & ->) | (e' & -> & -> & ->)]).
  - exfalso. no_raise Hr.
  - apply raised_in_cons in Hr as [Hr|Hr]; [done|].
    apply raised_in_cons in Hr as [Hr|Hr]; [|by apply raised_in_nil in Hr].
    simpl in Hr. injection Hr as ->. by rewrite He.
Qed.

Lemma check_site_status_propagates_witness :
  (run failing_client_world (check_site_status "https://example.com/")).2
  = Raise label_too_long /\
  calls (run failing_client_world (check_site_status "https://example.com/")).1
  = [time_time;
     requests_get "https://example.com/" CONFIG.REQUEST_TIMEOUT status_headers true].
Proof.
  apply (check_site_status_propagates "https://example.com/" _ _ label_too_long).
  - apply run_exec.
  - exists (Event (requests_get "https://example.com/" CONFIG.REQUEST_TIMEOUT
                     status_headers true) (Raise label_too_long)).
    split; [apply list_elem_of_further, list_elem_of_here | reflexivity].
  - reflexivity.
Defined.

(** *** The certificate probe, run by run *)

Lemma break_at_absent (c : ascii) (s : string) :
  Py.has_char c s = false -> Py.break_at (Py.chr_eqb c) s = (s, EmptyString).
Proof.
  induction s as [|a s IH]; [done|]. simpl. unfold Py.chr_eqb in *.
  rewrite (Ascii.eqb_sym c a). destruct (Ascii.eqb a c); [done|].
  simpl. intros Hs. by rewrite (IH Hs).
Qed.

Lemma break_at_fst_absent (c : ascii) (s : string) :
  Py.has_char c (Py.break_at (Py.chr_eqb c) s).1 = false.
Proof.
  induction s as [|a s IH]; [done|]. simpl. unfold Py.chr_eqb in *.
  destruct (Ascii.eqb c a) eqn:Hca; [done|].
  destruct (Py.break_at _ s) as [l r]. simpl in *. unfold Py.chr_eqb.
  by rewrite (Ascii.eqb_sym a c), Hca.
Qed.

(** The host the probe connects to: the network location up to its first
    colon. *)
Lemma ssl_hostname (netloc : string) :
  (if Py.has_char ":" netloc then Py.split_first ":" netloc else netloc)
  = Py.split_first ":" netloc.
Proof.
  destruct (Py.has_char ":" netloc) eqn:Hc; [done|].
  unfold Py.split_first. by rewrite (break_at_absent _ _ Hc).
Qed.

(** A member of a list that is written out. *)
Ltac elem_of_explicit :=
  repeat first [apply list_elem_of_here | apply list_elem_of_further].

(** The connections among the calls of a run that is written out. *)
Ltac connection_in H :=
  cbn [calls map projT1 Event] in H;
  repeat (apply elem_of_cons in H as [H|H];
          [try discriminate H; injection H as -> -> -> |]);
  [.. | by apply elem_of_nil in H].

Section CertificateRuns.
Context `{Runtime}.

(** What a run of the [try] block shows: where it connects, and how it
    can end. *)
Lemma check_ssl_certificate_try_run (url : string) tr r :
  exec (check_ssl_certificate_try url) tr r ->
  (forall host port timeout,
      socket_create_connection host port timeout ∈ calls tr ->
      exists parsed,
        urllib.urlparse url = Ok parsed /\
        host = Py.split_first ":" (urllib.netloc parsed) /\
        port = 443 /\ timeout = CONFIG.REQUEST_TIMEOUT)
  /\ ((exists e, r = Raise e) \/
      (r = Ok (false, None) /\
       forall s fmt, datetime_strptime s fmt ∉ calls tr) \/
      exists ssock entries expires_str expires now,
        r = Ok (true, Some (timedelta_days expires now)) /\
        Event (getpeercert ssock) (Ok (Some entries)) ∈ tr /\
        entries !! "notAfter" = Some expires_str /\
        Event (datetime_strptime expires_str "%b %d %H:%M:%S %Y %Z")
          (Ok expires) ∈ tr /\
        Event datetime_utcnow now ∈ tr).
Proof.
  intros Hex. unfold check_ssl_certificate_try in Hex. simpl in Hex.
  destruct (urllib.urlparse url) as [parsed|e0] eqn:Hp; simpl in Hex.
  2: { destruct Hex as [-> ->]. split; [|left; by eexists].
       intros ? ? ? Hin. by apply elem_of_nil in Hin. }
  rewrite ssl_hostname in Hex.
  assert (forall tr' : list event,
             (forall host port timeout,
                 socket_create_connection host port timeout ∈ calls tr' ->
                 host = Py.split_first ":" (urllib.netloc parsed) /\
                 port = 443 /\ timeout = CONFIG.REQUEST_TIMEOUT) ->
             forall host port timeout,
               socket_create_connection host port timeout ∈ calls tr' ->
               exists parsed0,
                 Ok parsed = Ok parsed0 /\
                 host = Py.split_first ":" (urllib.netloc parsed0) /\
                 port = 443 /\ timeout = CONFIG.REQUEST_TIMEOUT) as Hconn.
  { intros tr' Hall host port timeout Hin. exists parsed.
    split; [done|]. by apply Hall. }
  destruct Hex as (x & tr1 & -> & Hex). destruct x as [context|e]; simpl in Hex.
  2: { destruct Hex as [-> ->]. split; [|left; by eexists].
       apply Hconn. intros ? ? ? Hin. connection_in Hin. }
  destruct Hex as (x & tr2 & -> & Hex). destruct x as [sock|e]; simpl in Hex.
  2: { destruct Hex as [-> ->]. split; [|left; by eexists].
       apply Hconn. intros ? ? ? Hin. connection_in Hin. done. }
  destruct Hex as (x & tr3 & -> & Hex). destruct x as [ssock|e]; simpl in Hex.
  2: { destruct Hex as [-> ->]. split; [|left; by eexists].
       apply Hconn. intros ? ? ? Hin. connection_in Hin. done. }
  destruct Hex as (x & tr4 & -> & Hex). destruct x as [cert|e]; simpl in Hex.
  2: { destruct Hex as [-> ->]. split; [|left; by eexists].
       apply Hconn. intros ? ? ? Hin. connection_in Hin. done. }
  assert (forall tr' : list event,
             tr' = [Event ssl_create_default_context (Ok context);
                    Event (socket_create_connection
                             (Py.split_first ":" (urllib.netloc parsed)) 443
                             CONFIG.REQUEST_TIMEOUT) (Ok sock);
                    Event (wrap_socket context sock
                             (Py.split_first ":" (urllib.netloc parsed)))
                      (Ok ssock);
                    Event (getpeercert ssock) (Ok cert)] ->
             forall s fmt, datetime_strptime s fmt ∉ calls tr') as Hnone.
  { intros tr' -> s fmt Hin. cbn [calls map projT1 Event] in Hin.
    repeat (apply elem_of_cons in Hin as [Hin|Hin]; [discriminate Hin|]).
    by apply elem_of_nil in Hin. }
  destruct cert as [entries|].
  2: { destruct Hex as [-> ->]. split.
       - apply Hconn. intros ? ? ? Hin. connection_in Hin. done.
       - right. left. split; [done|]. by apply Hnone. }
  destruct (bool_decide (entries ≠ ∅)).
  2: { destruct Hex as [-> ->]. split.
       - apply Hconn. intros ? ? ? Hin. connection_in Hin. done.
       - right. left. split; [done|]. by apply Hnone. }
  destruct (entries !! "notAfter") as [expires_str|] eqn:Hkey; simpl in Hex.
  2: { destruct Hex as [-> ->]. split; [|left; by eexists].
       apply Hconn. intros ? ? ? Hin. connection_in Hin. done. }
  destruct Hex as (x & tr5 & -> & Hex). destruct x as [expires|e]; simpl in Hex.
  2: { destruct Hex as [-> ->]. split; [|left; by eexists].
       apply Hconn. intros ? ? ? Hin. connection_in Hin. done. }
  destruct Hex as (now & tr6 & -> & -> & ->). split.
  - apply Hconn. intros ? ? ? Hin. connection_in Hin. done.
  - right. right. exists ssock, entries, expires_str, expires, now.
    split; [done|]. split; [elem_of_explicit|]. split; [done|].
    split; elem_of_explicit.
Qed.

(** The runs of the function are the runs of its [try] block, with
    [(False, None)] in place of an exception. *)
Lemma check_ssl_certificate_run (url : string) tr r :
  exec (check_ssl_certificate url) tr r ->
  exists r0,
    exec (check_ssl_certificate_try url) tr r0 /\
    r = match r0 with Ok v => Ok v | Raise _ => Ok (false, None) end.
Proof.
  intros Hex. apply exec_try_except in Hex
    as [(v & Hex & ->) | (tr1 & tr2 & e & -> & Hex & Hh)].
  - by exists (Ok v).
  - assert (tr2 = [] /\ r = Ok (false, None)) as [-> ->].
    { destruct (Py.is_gaierror_or_timeout e), (Py.is_SSLError e);
        simpl in Hh; by destruct Hh. }
    rewrite app_nil_r. by exists (Raise e).
Qed.

(** X3.  [check_ssl_certificate] returns either [(False, None)] or
    [(True, days)] with [days] a number: the day count is present exactly
    when the certificate is reported valid. *)
Theorem check_ssl_certificate_days_iff_valid (url : string) tr r :
  exec (check_ssl_certificate url) tr r ->
  exists ssl_ok days_left,
    r = Ok (ssl_ok, days_left) /\ (ssl_ok = true <-> is_Some days_left).
Proof.
  intros Hex. destruct (check_ssl_certificate_run url tr r Hex) as (r0 & Hrun & ->).
  destruct (check_ssl_certificate_try_run url tr r0 Hrun)
    as [_ [(e & ->) | [[-> _] | (? & ? & ? & expires & now & -> & _)]]].
  - exists false, None. split; [done|]. split; [done | by intros [? ?]].
  - exists false, None. split; [done|]. split; [done | by intros [? ?]].
  - exists true, (Some (timedelta_days expires now)). split; [done|].
    split; [by eexists | done].
Qed.

(** X4.  When [check_ssl_certificate] reports a valid certificate, the
    day count is the time from now to the parsed [notAfter] entry of the
    peer certificate, in whole days rounded down: it is negative when
    that instant has passed. *)
Theorem check_ssl_certificate_days_floor (url : string) tr (days_left : Z) :
  exec (check_ssl_certificate url) tr (Ok (true, Some days_left)) ->
  exists ssock entries expires_str expires now,
    Event (getpeercert ssock) (Ok (Some entries)) ∈ tr /\
    entries !! "notAfter" = Some expires_str /\
    Event (datetime_strptime expires_str "%b %d %H:%M:%S %Y %Z") (Ok expires) ∈ tr /\
    Event datetime_utcnow now ∈ tr /\
    days_left * microseconds_per_day <= expires - now
      < (days_left + 1) * microseconds_per_day /\
    (days_left < 0 <-> expires < now).
Proof.
  intros Hex.
  destruct (check_ssl_certificate_run url tr _ Hex) as (r0 & Hrun & Hr).
  destruct (check_ssl_certificate_try_run url tr r0 Hrun)
    as [_ [(e & ->) | [[-> _] | (ssock & entries & s & expires & now & -> & Hc
                                 & Hkey & Hparse & Hnow)]]]; try done.
  injection Hr as ->. exists ssock, entries, s, expires, now.
  repeat (split; [done|]). unfold timedelta_days, microseconds_per_day.
  pose proof (Z.div_mod (expires - now) (86400 * 1000000) ltac:(lia)) as Hdm.
  pose proof (Z.mod_pos_bound (expires - now) (86400 * 1000000) ltac:(lia)) as Hm.
  split; [lia|]. split; intros Hneg; [|apply Z.div_lt_upper_bound; lia].
  destruct (Z.lt_ge_cases expires now) as [|Hge]; [done|].
  pose proof (Z.div_pos (expires - now) (86400 * 1000000) ltac:(lia) ltac:(lia)).
  lia.
Qed.

(** X5.  Whatever the scheme and the port of the URL, every connection
    [check_ssl_certificate] opens is to port 443 of the network location
    cut at its first colon, with the request timeout; the host it
    connects to holds no colon. *)
Theorem check_ssl_certificate_port_443 (url : string) tr r :
  exec (check_ssl_certificate url) tr r ->
  forall host port timeout,
    socket_create_connection host port timeout ∈ calls tr ->
    port = 443 /\ timeout = CONFIG.REQUEST_TIMEOUT /\
    Py.has_char ":" host = false /\
    exists parsed,
      urllib.urlparse url = Ok parsed /\
      host = Py.split_first ":" (urllib.netloc parsed).
Proof.
  intros Hex host port timeout Hin.
  destruct (check_ssl_certificate_run url tr r Hex) as (r0 & Hrun & _).
  destruct (proj1 (check_ssl_certificate_try_run url tr r0 Hrun) _ _ _ Hin)
    as (parsed & Hp & -> & -> & ->).
  split; [done|]. split; [done|]. split; [apply break_at_fst_absent|].
  by exists parsed.
Qed.

End CertificateRuns.

Lemma check_ssl_certificate_expired :
  (run expired_world
     (@check_ssl_certificate example_runtime "http://example.com:8080/")).2
  = Ok (true, Some (-1)).
Proof. vm_compute. reflexivity. Qed.

Lemma check_ssl_certificate_days_iff_valid_witness :
  exists ssl_ok days_left,
    (run expired_world
       (@check_ssl_certificate example_runtime "http://example.com:8080/")).2
    = Ok (ssl_ok, days_left) /\ (ssl_ok = true <-> is_Some days_left).
Proof.
  apply (@check_ssl_certificate_days_iff_valid example_runtime
           "http://example.com:8080/"
           (run expired_world
              (@check_ssl_certificate example_runtime
                 "http://example.com:8080/")).1).
  apply run_exec.
Defined.

Lemma check_ssl_certificate_days_floor_witness :
  exists ssock entries expires_str expires now,
    Event (getpeercert ssock) (Ok (Some entries))
      ∈ (run expired_world
           (@check_ssl_certificate example_runtime "http://example.com:8080/")).1 /\
    entries !! "notAfter" = Some expires_str /\
    Event (datetime_strptime expires_str "%b %d %H:%M:%S %Y %Z") (Ok expires)
      ∈ (run expired_world
           (@check_ssl_certificate example_runtime "http://example.com:8080/")).1 /\
    Event datetime_utcnow now
      ∈ (run expired_world
           (@check_ssl_certificate example_runtime "http://example.com:8080/")).1 /\
    (-1) * microseconds_per_day <= expires - now
      < (-1 + 1) * microseconds_per_day /\
    (-1 < 0 <-> expires < now).
Proof.
  apply (@check_ssl_certificate_days_floor example_runtime
           "http://example.com:8080/").
  rewrite <- check_ssl_certificate_expired. apply run_exec.
Defined.

Lemma check_ssl_certificate_port_443_witness :
  443 = 443 /\ CONFIG.REQUEST_TIMEOUT = CONFIG.REQUEST_TIMEOUT /\
  Py.has_char ":" "example.com" = false /\
  exists parsed,
    @urllib.urlparse example_runtime "http://example.com:8080/" = Ok parsed /\
    "example.com" = Py.split_first ":" (urllib.netloc parsed).
Proof.
  apply (@check_ssl_certificate_port_443 example_runtime
           "http://example.com:8080/"
           (run expired_world
              (@check_ssl_certificate example_runtime
                 "http://example.com:8080/")).1
           (run expired_world
              (@check_ssl_certificate example_runtime
                 "http://example.com:8080/")).2).
  - apply run_exec.
  - apply list_elem_of_further, list_elem_of_here.
Defined.

(** *** The link probe, run by run *)

Section LinkRuns.
Context `{Runtime}.

(** X6.  When the page is not fetched with an OK status (the fetch
    raised, or the status is 4xx or 5xx), [find_broken_links] returns the
    empty list after that one request: nothing is parsed and no link is
    requested. *)
Theorem find_broken_links_no_page (url : string) tr r :
  exec (find_broken_links url) tr r ->
  (forall response,
      Event (requests_get url CONFIG.REQUEST_TIMEOUT links_headers true)
        (Ok response) ∈ tr ->
      ok response = false) ->
  calls tr = [requests_get url CONFIG.REQUEST_TIMEOUT links_headers true] /\
  r = Ok [].
Proof.
  intros Hex Hbad.
  destruct (find_broken_links_cases url tr r Hex) as (x & [tr0 Htr] & Hcase).
  destruct x as [response|e]; [|by destruct Hcase as [-> ->]].
  assert (ok response = false) as Hok.
  { apply Hbad. rewrite Htr. apply list_elem_of_here. }
  rewrite Hok in Hcase. by destruct Hcase as [-> ->].
Qed.

(** X7.  The list [find_broken_links] returns is read off its run: one
    entry for each link request answered with a status of 400 or more
    (with that status) or with a [RequestException] (a connection
    failure), in the order of the requests, and nothing else.  A link
    answered with a status below 400 is never listed. *)
Theorem find_broken_links_reports (url : string) tr r :
  exec (find_broken_links url) tr r -> r = Ok (omap head_report tr).
Proof.
  intros Hex.
  destruct (find_broken_links_cases url tr r Hex) as (x & _ & Hcase).
  destruct x as [response|e]; [|by destruct Hcase as [-> ->]].
  destruct (ok response); [|by destruct Hcase as [-> ->]].
  destruct Hcase as (y & tr' & -> & Hcase).
  destruct y as [soup|e]; [|by destruct Hcase as [-> ->]].
  destruct (collect_links url (find_all_a_href soup) ∅) as [links|e];
    [|by destruct Hcase as [-> ->]].
  destruct Hcase as (broken & stopped & Hloop & ->).
  by apply check_links_reports in Hloop as (-> & _ & _).
Qed.

(** X8.  A failure on one link does not end the checks: on a page that
    was fetched and parsed, if every exception of the link requests is a
    [RequestException], each link chosen for checking is requested, once
    and in the chosen order. *)
Theorem find_broken_links_checks_all (url : string) response soup links tr' r :
  exec (find_broken_links url)
    (Event (requests_get url CONFIG.REQUEST_TIMEOUT links_headers true)
       (Ok response)
     :: Event (BeautifulSoup (text response) "html.parser") (Ok soup) :: tr') r ->
  collect_links url (find_all_a_href soup) ∅ = Ok links ->
  (forall e, raised_in tr' e -> Py.is_RequestException e = true) ->
  head_requests tr' = links_to_check links.
Proof. apply find_broken_links_head_requests. Qed.

(** X9.  On a page with at most [MAX_LINKS_TO_CHECK] distinct same-domain
    links, none is left out.  When the page was fetched and parsed, its
    anchors were collected without an exception into a set of at most
    [MAX_LINKS_TO_CHECK] URLs, and every exception of the link requests
    is a [RequestException], then every URL that an anchor resolves to
    with the page's network location is requested, provided the anchor's
    [href] starts with neither [#] nor [javascript:] (such anchors are
    never checked). *)
Theorem find_broken_links_small_page (url : string) response soup links tr' r :
  exec (find_broken_links url)
    (Event (requests_get url CONFIG.REQUEST_TIMEOUT links_headers true)
       (Ok response)
     :: Event (BeautifulSoup (text response) "html.parser") (Ok soup) :: tr') r ->
  collect_links url (find_all_a_href soup) ∅ = Ok links ->
  (forall e, raised_in tr' e -> Py.is_RequestException e = true) ->
  (size links <= Z.to_nat CONFIG.MAX_LINKS_TO_CHECK)%nat ->
  forall link, same_domain_anchor url soup link -> link ∈ head_requests tr'.
Proof.
  intros Hex Hc Hreq Hsize link (tag & href & pf & pu & Htag & Hrest).
  rewrite (find_broken_links_head_requests url response soup links tr' r Hex Hc Hreq).
  destruct (collect_links_complete url _ _ _ Hc) as [_ Hall].
  destruct Hrest as (Ha & Hf & Hj & Hu & Hpf & Hpu & Hn).
  pose proof (Hall link tag href pf pu Htag Ha Hf Hj Hu Hpf Hpu Hn) as Hin.
  unfold links_to_check, slice_to. rewrite take_ge.
  - rewrite (set_list_perm list_of_set links). by apply elem_of_elements.
  - rewrite (set_list_perm list_of_set links). exact Hsize.
Qed.

End LinkRuns.

Lemma find_broken_links_no_page_witness :
  calls (run not_found_world
           (@find_broken_links example_runtime "https://example.com/gone")).1
  = [requests_get "https://example.com/gone" CONFIG.REQUEST_TIMEOUT
       links_headers true] /\
  (run not_found_world
     (@find_broken_links example_runtime "https://example.com/gone")).2 = Ok [].
Proof.
  apply (@find_broken_links_no_page example_runtime "https://example.com/gone").
  - apply run_exec.
  - intros response Hin. cbn in Hin.
    apply list_elem_of_singleton, Event_inj in Hin. by injection Hin as ->.
Defined.

Lemma find_broken_links_reports_witness :
  flaky_links_run.2 = Ok (omap head_report flaky_links_run.1).
Proof.
  apply (@find_broken_links_reports example_runtime "https://example.com/").
  apply run_exec.
Defined.

(** In that world the first link checked fails to connect; the second is
    still requested. *)
Example flaky_links_run_value :
  flaky_links_run.1
  = [Event (requests_get "https://example.com/" CONFIG.REQUEST_TIMEOUT
              links_headers true) (Ok (mkResponse 200 ∅ "<html>...</html>"));
     Event (BeautifulSoup "<html>...</html>" "html.parser") (Ok example_soup);
     Event (requests_head "https://example.com/missing" true
              CONFIG.HEAD_REQUEST_TIMEOUT links_headers) (Raise name_not_resolved);
     Event (requests_head "https://example.com/about" true
              CONFIG.HEAD_REQUEST_TIMEOUT links_headers)
       (Ok (mkResponse 200 ∅ EmptyString))]
  /\ flaky_links_run.2
     = Ok ["https://example.com/missing (Error: Connection failed)"].
Proof. split; vm_compute; reflexivity. Qed.

Lemma flaky_links_run_raises (e : exn) :
  raised_in (drop 2 flaky_links_run.1) e -> Py.is_RequestException e = true.
Proof.
  rewrite (proj1 flaky_links_run_value). cbn [drop]. intros Hr.
  apply raised_in_cons in Hr as [Hr|Hr];
    [simpl in Hr; by injection Hr as <-|].
  apply raised_in_cons in Hr as [Hr|Hr]; [discriminate Hr|].
  by apply raised_in_nil in Hr.
Qed.

Lemma flaky_links_run_exec :
  exec (@find_broken_links example_runtime "https://example.com/")
    (Event (requests_get "https://example.com/" CONFIG.REQUEST_TIMEOUT
              links_headers true) (Ok (mkResponse 200 ∅ "<html>...</html>"))
     :: Event (BeautifulSoup (text (mkResponse 200 ∅ "<html>...</html>"))
                 "html.parser") (Ok example_soup)
     :: drop 2 flaky_links_run.1)
    flaky_links_run.2.
Proof.
  replace (_ :: _ :: drop 2 flaky_links_run.1) with flaky_links_run.1
    by (vm_compute; reflexivity).
  apply run_exec.
Qed.

Lemma find_broken_links_checks_all_witness :
  head_requests (drop 2 flaky_links_run.1)
  = @links_to_check example_runtime
      {[ "https://example.com/about"; "https://example.com/missing" ]}.
Proof.
  apply (@find_broken_links_checks_all example_runtime "https://example.com/"
           (mkResponse 200 ∅ "<html>...</html>") example_soup _ _
           flaky_links_run.2).
  - apply flaky_links_run_exec.
  - apply example_collect_links.
  - apply flaky_links_run_raises.
Defined.

Lemma example_same_domain_anchor :
  @same_domain_anchor example_runtime "https://example.com/" example_soup
    "https://example.com/about".
Proof.
  exists (anchor "about"), "about".
  destruct (@urllib.urlparse example_runtime "https://example.com/about")
    as [parsed_full|] eqn:Hfull; [|by vm_compute in Hfull].
  destruct (@urllib.urlparse example_runtime "https://example.com/")
    as [parsed|] eqn:Hpage; [|by vm_compute in Hpage].
  exists parsed_full, parsed.
  split; [apply list_elem_of_here|]. do 4 (split; [reflexivity|]).
  split; [done|]. split; [done|].
  vm_compute in Hfull, Hpage. by injection Hfull as <-; injection Hpage as <-.
Qed.

Lemma find_broken_links_small_page_witness :
  "https://example.com/about" ∈ head_requests (drop 2 flaky_links_run.1).
Proof.
  apply (@find_broken_links_small_page example_runtime "https://example.com/"
           (mkResponse 200 ∅ "<html>...</html>") example_soup
           {[ "https://example.com/about"; "https://example.com/missing" ]}
           _ flaky_links_run.2).
  - apply flaky_links_run_exec.
  - apply example_collect_links.
  - apply flaky_links_run_raises.
  - vm_compute. lia.
  - apply example_same_domain_anchor.
Defined.

(** *** The responsiveness probe, run by run *)

(** The runs of [check_mobile_responsiveness]: the page was fetched and
    parsed, and the result is read off the three signals; or a call
    raised. *)
Lemma check_mobile_responsiveness_cases (url : string) tr r :
  exec (check_mobile_responsiveness url) tr r ->
  (exists response soup,
      tr = [Event (requests_get url CONFIG.REQUEST_TIMEOUT mobile_headers true)
              (Ok response);
            Event (BeautifulSoup (text response) "html.parser") (Ok soup)] /\
      r = Ok (has_viewport soup || media_queries soup || frameworks soup,
              (if has_viewport soup then ["Has viewport meta tag"] else []) ++
              (if media_queries soup then ["Uses media queries"] else []) ++
              (if frameworks soup then ["Uses responsive framework"] else [])))
  \/ ((exists e, raised_in tr e) /\
      r = Ok (false, ["Error checking responsiveness"])).
Proof.
  intros Hex. apply exec_try_except in Hex
    as [(v & Hex & ->) | (tr1 & tr2 & e & -> & Hex & [-> ->])].
  - left. unfold check_mobile_responsiveness_try in Hex.
    exec_step Hex. destruct x as [response|e]; [|by destruct Hex].
    exec_step Hex. destruct x as [soup|e]; [|by destruct Hex].
    exec_step Hex. exists response, soup. split; [done|].
    injection Hex as ->. unfold has_viewport, media_queries, frameworks.
    f_equal. cbn [responsive_frameworks existsb].
    destruct (match find_meta_viewport soup with Some _ => _ | None => _ end),
      (existsb _ (find_all_style soup)),
      (existsb _ (find_all_link_stylesheet soup)); reflexivity.
  - right. split; [|done]. rewrite app_nil_r. exists e.
    unfold check_mobile_responsiveness_try in Hex.
    exec_step Hex. destruct x as [response|e'].
    2: { destruct Hex as [-> [= ->]]. apply raised_in_cons. by left. }
    exec_step Hex. destruct x as [soup|e'].
    2: { destruct Hex as [-> [= ->]].
         apply raised_in_cons. right. apply raised_in_cons. by left. }
    exec_step Hex. discriminate Hex.
Qed.

(** X10.  The verdict of [check_mobile_responsiveness] agrees with the
    reasons it lists.  A page is reported responsive only with at least
    one reason, and the reasons are among the three labels, each at most
    once and in the order viewport, media queries, framework.  A page
    reported not responsive has no reason listed, unless a call raised:
    then, and only then, the one entry is the error text. *)
Theorem check_mobile_responsiveness_verdict (url : string) tr r :
  exec (check_mobile_responsiveness url) tr r ->
  exists responsive details,
    r = Ok (responsive, details) /\
    (responsive = true ->
       details <> [] /\ details `sublist_of` responsiveness_labels /\
       forall e, ~ raised_in tr e) /\
    (responsive = false ->
       (details = [] /\ forall e, ~ raised_in tr e) \/
       (details = ["Error checking responsiveness"] /\ exists e, raised_in tr e)).
Proof.
  intros Hex.
  destruct (check_mobile_responsiveness_cases url tr r Hex)
    as [(response & soup & -> & ->) | (Hr & ->)].
  - eexists _, _. split; [reflexivity|].
    assert (forall e,
               ~ raised_in
                   [Event (requests_get url CONFIG.REQUEST_TIMEOUT mobile_headers true)
                      (Ok response);
                    Event (BeautifulSoup (text response) "html.parser") (Ok soup)] e)
      as Hclean by (intros e Hr; no_raise Hr).
    unfold responsiveness_labels.
    destruct (has_viewport soup), (media_queries soup), (frameworks soup);
      simpl; (split; [intros Hres | intros Hres]); try discriminate Hres;
      try (left; by split);
      (split; [done|]); (split; [|exact Hclean]);
      repeat first [ apply sublist_nil
                   | apply sublist_skip; solve [repeat first
                       [ apply sublist_nil | apply sublist_skip
                       | apply sublist_cons ]]
                   | apply sublist_cons ].
  - exists false, ["Error checking responsiveness"]. split; [done|].
    split; [done|]. intros _. right. by split.
Qed.

(** X11.  What each reason stands for, on a page that was fetched and
    parsed.  The viewport label is listed exactly when the page has a
    viewport [meta] tag whose [content], lower-cased, mentions
    [width=device-width] or [initial-scale]; the media-queries label
    exactly when the text of some [style] tag contains [@media] as
    written (this test is case-sensitive); the framework label exactly
    when the lower-cased [href] of some style-sheet link contains the name
    of one of the five frameworks. *)
Theorem check_mobile_responsiveness_reasons (url : string) response soup r :
  exec (check_mobile_responsiveness url)
    [Event (requests_get url CONFIG.REQUEST_TIMEOUT mobile_headers true)
       (Ok response);
     Event (BeautifulSoup (text response) "html.parser") (Ok soup)] r ->
  exists responsive details,
    r = Ok (responsive, details) /\
    ("Has viewport meta tag" ∈ details <->
       exists viewport,
         find_meta_viewport soup = Some viewport /\
         (Py.contains "width=device-width"
            (Py.lower (tag_get viewport "content")) = true \/
          Py.contains "initial-scale"
            (Py.lower (tag_get viewport "content")) = true)) /\
    ("Uses media queries" ∈ details <->
       exists style s,
         style ∈ find_all_style soup /\ tag_string style = Some s /\
         Py.contains "@media" s = true) /\
    ("Uses responsive framework" ∈ details <->
       exists link fw,
         link ∈ find_all_link_stylesheet soup /\ fw ∈ responsive_frameworks /\
         Py.contains fw (Py.lower (tag_get link "href")) = true).
Proof.
  intros Hex.
  destruct (check_mobile_responsiveness_cases url _ r Hex)
    as [(response' & soup' & Htr & ->) | ([e Hr] & _)].
  2: { exfalso. no_raise Hr. }
  apply trace_cons_inv in Htr as [Hresp Htr]. apply Event_inj in Hresp.
  injection Hresp as <-.
  apply trace_cons_inv in Htr as [Hsoup _]. apply Event_inj in Hsoup.
  injection Hsoup as <-.
  eexists _, _. split; [reflexivity|].
  assert (has_viewport soup = true <->
          exists viewport,
            find_meta_viewport soup = Some viewport /\
            (Py.contains "width=device-width"
               (Py.lower (tag_get viewport "content")) = true \/
             Py.contains "initial-scale"
               (Py.lower (tag_get viewport "content")) = true)) as Hv.
  { unfold has_viewport. destruct (find_meta_viewport soup) as [viewport|].
    - rewrite orb_true_iff. split.
      + intros Hc. by exists viewport.
      + by intros (? & [= <-] & Hc).
    - split; [done|]. by intros (? & [=] & _). }
  assert (media_queries soup = true <->
          exists style s,
            style ∈ find_all_style soup /\ tag_string style = Some s /\
            Py.contains "@media" s = true) as Hm.
  { unfold media_queries. rewrite existsb_exists. split.
    - intros (style & Hin%list_elem_of_In & Hs).
      destruct (tag_string style) as [s|] eqn:Hstr; [|done].
      apply andb_true_iff in Hs as [_ Hc]. by exists style, s.
    - intros (style & s & Hin%list_elem_of_In & Hstr & Hc).
      exists style. split; [done|]. rewrite Hstr, Hc.
      by destruct s. }
  assert (frameworks soup = true <->
          exists link fw,
            link ∈ find_all_link_stylesheet soup /\ fw ∈ responsive_frameworks /\
            Py.contains fw (Py.lower (tag_get link "href")) = true) as Hf.
  { unfold frameworks. rewrite existsb_exists. split.
    - intros (link & Hin%list_elem_of_In & Hfw).
      apply existsb_exists in Hfw as (fw & Hfw%list_elem_of_In & Hc).
      by exists link, fw.
    - intros (link & fw & Hin%list_elem_of_In & Hfw%list_elem_of_In & Hc).
      exists link. split; [done|]. apply existsb_exists. by exists fw. }
  rewrite <- Hv, <- Hm, <- Hf.
  destruct (has_viewport soup), (media_queries soup), (frameworks soup);
    simpl; repeat split; intros Hin; try done;
    repeat (apply elem_of_cons in Hin as [Hin|Hin]; [discriminate Hin|]);
    try (by apply elem_of_nil in Hin);
    repeat first [ apply list_elem_of_here | apply list_elem_of_further ].
Qed.

Lemma check_mobile_responsiveness_verdict_witness :
  exists responsive details,
    (run shouting_world (check_mobile_responsiveness "https://example.com/")).2
    = Ok (responsive, details) /\
    (responsive = true ->
       details <> [] /\ details `sublist_of` responsiveness_labels /\
       forall e,
         ~ raised_in
             (run shouting_world
                (check_mobile_responsiveness "https://example.com/")).1 e) /\
    (responsive = false ->
       (details = [] /\
        forall e,
          ~ raised_in
              (run shouting_world
                 (check_mobile_responsiveness "https://example.com/")).1 e) \/
       (details = ["Error checking responsiveness"] /\
        exists e,
          raised_in
            (run shouting_world
               (check_mobile_responsiveness "https://example.com/")).1 e)).
Proof.
  apply (check_mobile_responsiveness_verdict "https://example.com/").
  apply run_exec.
Defined.

(** On that page the upper-case viewport declaration counts, the
    upper-case [@MEDIA] does not. *)
Example shouting_run_value :
  run shouting_world (check_mobile_responsiveness "https://example.com/")
  = ([Event (requests_get "https://example.com/" CONFIG.REQUEST_TIMEOUT
               mobile_headers true) (Ok (mkResponse 200 ∅ "<html>...</html>"));
      Event (BeautifulSoup (text (mkResponse 200 ∅ "<html>...</html>"))
               "html.parser") (Ok shouting_soup)],
     Ok (true, ["Has viewport meta tag"])).
Proof. vm_compute. reflexivity. Qed.

Lemma check_mobile_responsiveness_reasons_witness :
  exists responsive details,
    Ok (true, ["Has viewport meta tag"]) = Ok (responsive, details) /\
    ("Has viewport meta tag" ∈ details <->
       exists viewport,
         find_meta_viewport shouting_soup = Some viewport /\
         (Py.contains "width=device-width"
            (Py.lower (tag_get viewport "content")) = true \/
          Py.contains "initial-scale"
            (Py.lower (tag_get viewport "content")) = true)) /\
    ("Uses media queries" ∈ details <->
       exists style s,
         style ∈ find_all_style shouting_soup /\ tag_string style = Some s /\
         Py.contains "@media" s = true) /\
    ("Uses responsive framework" ∈ details <->
       exists link fw,
         link ∈ find_all_link_stylesheet shouting_soup /\
         fw ∈ responsive_frameworks /\
         Py.contains fw (Py.lower (tag_get link "href")) = true).
Proof.
  apply (check_mobile_responsiveness_reasons "https://example.com/"
           (mkResponse 200 ∅ "<html>...</html>") shouting_soup).
  pose proof (run_exec shouting_world
                (check_mobile_responsiveness "https://example.com/")) as Hex.
  rewrite shouting_run_value in Hex. exact Hex.
Defined.

(** *** The suggestions and what they depend on *)

(** X12.  [generate_suggestions] returns no suggestion exactly when
    nothing is wrong: the certificate is valid and, when its remaining
    days are known, they are not below [SSL_EXPIRY_THRESHOLD]; no link is
    broken; the site is responsive; and the load time, when known, is not
    above 3 seconds.  Any one finding gives at least one suggestion. *)
Theorem generate_suggestions_empty_iff ssl_ok days_left broken mobile_friendly
    mobile_details load_time :
  generate_suggestions ssl_ok days_left broken
    (mobile_friendly, mobile_details) load_time = []
  <->
  ssl_ok = true /\
  (forall d, days_left = Some d -> CONFIG.SSL_EXPIRY_THRESHOLD <= d) /\
  broken = [] /\
  mobile_friendly = true /\
  (forall t, load_time = Some t -> Py.float_gt t 3 = false).
Proof.
  rewrite generate_suggestions_rules. unfold Rules.synthesize. split.
  - intros Hnil.
    apply app_eq_nil in Hnil as [Hcert Hnil].
    apply app_eq_nil in Hnil as [Hlinks Hnil].
    apply app_eq_nil in Hnil as [Hresp Hperf].
    destruct ssl_ok; [|discriminate Hcert].
    destruct broken; [|discriminate Hlinks].
    destruct mobile_friendly; [|discriminate Hresp].
    repeat split; try done.
    + intros d ->. simpl in Hcert.
      destruct (Z.ltb_spec d CONFIG.SSL_EXPIRY_THRESHOLD); [done | lia].
    + intros t ->. simpl in Hperf. by destruct (Py.float_gt t 3).
  - intros (-> & Hdays & -> & -> & Hload).
    assert (Rules.certificate true days_left = []) as ->.
    { destruct days_left as [d|]; simpl; [|done].
      specialize (Hdays d eq_refl).
      destruct (Z.ltb_spec d CONFIG.SSL_EXPIRY_THRESHOLD); [lia | done]. }
    assert (Rules.performance load_time = []) as ->.
    { destruct load_time as [t|]; simpl; [|done]. by rewrite (Hload t). }
    reflexivity.
Qed.

(** X13.  What [generate_suggestions] does not look at: the texts of the
    broken-link entries (only their number counts), the reasons that come
    with the responsiveness verdict, and, when the certificate is not
    valid, the days left. *)
Theorem generate_suggestions_inputs ssl_ok days_left days_left'
    broken broken' mobile_friendly mobile_details mobile_details' load_time :
  length broken = length broken' ->
  (ssl_ok = true -> days_left = days_left') ->
  generate_suggestions ssl_ok days_left broken
    (mobile_friendly, mobile_details) load_time
  = generate_suggestions ssl_ok days_left' broken'
      (mobile_friendly, mobile_details') load_time.
Proof.
  intros Hlen Hdays. rewrite !generate_suggestions_rules. unfold Rules.synthesize.
  f_equal.
  - destruct ssl_ok; [by rewrite Hdays | done].
  - f_equal. unfold Rules.links.
    destruct broken, broken'; try done. by rewrite Hlen.
Qed.

Lemma generate_suggestions_inputs_witness :
  generate_suggestions false (Some 90)
    ["https://example.com/missing (Status: 404)"]
    (false, ["Site not reachable"]) (Some 4.5%float)
  = generate_suggestions false None
      ["https://example.com/about (Error: Connection failed)"]
      (false, []) (Some 4.5%float).
Proof.
  apply (generate_suggestions_inputs false (Some 90) None
           ["https://example.com/missing (Status: 404)"]
           ["https://example.com/about (Error: Connection failed)"]
           false ["Site not reachable"] [] (Some 4.5%float)).
  - reflexivity.
  - intros Hvalid. discriminate Hvalid.
Defined.

(** *** Which URLs [validate_url] accepts *)

Section ValidateUrlDecides.
Context `{Runtime}.

(** X14.  Which non-empty inputs [validate_url] takes, for a network
    location in ASCII without square brackets.  Take the input with
    [https://] put in front, unless it starts with [http://] or
    [https://] as written.  A non-empty input is accepted exactly when
    something stands between that scheme and the first [/], [?] or [#]
    (tabs and line ends not counted), and what is returned is the input
    with its scheme, spaces and all.  Otherwise the error is
    ["Invalid URL: "] followed by the input with its scheme.  (The empty
    input is rejected before, with another message.) *)
Theorem validate_url_decides (url prefix rest : string) :
  url <> EmptyString ->
  prefix = "http://" \/ prefix = "https://" ->
  with_scheme url = prefix +:+ rest ->
  let netloc := (Py.break_at urllib.is_delim (urllib.remove_unsafe rest)).1 in
  Py.has_char "[" netloc = false ->
  Py.has_char "]" netloc = false ->
  Py.isascii netloc = true ->
  validate_url url =
    if Py.truthy netloc then Ok (prefix +:+ rest)
    else Raise (Exn Py.ValueError ("Invalid URL: " +:+ prefix +:+ rest)).
Proof.
  intros Hne Hprefix Hurl netloc Hopen Hclose Hascii.
  rewrite (validate_url_unfold url Hne), Hurl.
  destruct (urlparse_netloc prefix rest Hprefix Hopen Hclose Hascii)
    as (parsed & -> & ->).
  reflexivity.
Qed.

End ValidateUrlDecides.

(** An upper-case scheme is not recognised: a second scheme is put in
    front, and the first one becomes the network location. *)
Lemma validate_url_decides_witness :
  @validate_url example_runtime "HTTP://example.com/a b"
  = Ok "https://HTTP://example.com/a b" /\
  @validate_url example_runtime "/about"
  = Raise (Exn Py.ValueError "Invalid URL: https:///about").
Proof.
  split.
  - apply (@validate_url_decides example_runtime "HTTP://example.com/a b"
             "https://" "HTTP://example.com/a b"); try reflexivity.
    + discriminate.
    + by right.
  - apply (@validate_url_decides example_runtime "/about" "https://" "/about");
      try reflexivity.
    + discriminate.
    + by right.
Defined.

(** *** Who prints and who probes *)














Section Silence.
Context `{Runtime}.






End Silence.




Section ReachableRuns.
Context `{Runtime}.


End ReachableRuns.

(** *** Runs that end without an exception *)

Lemma returns_ret {A} (a : A) (Q : A -> Prop) : Q a -> returns (ret a) Q.
Proof. intros Hq tr r [_ ->]. by exists a. Qed.

Lemma returns_print (line : string) (Q : unit -> Prop) :
  Q tt -> returns (call_print line) Q.
Proof. intros Hq tr r ([] & tr' & _ & _ & ->). by exists tt. Qed.

Lemma returns_bind {A B} (p : M A) (f : A -> M B) (Q : A -> Prop) (R : B -> Prop) :
  returns p Q -> (forall a, Q a -> returns (f a) R) -> returns (bind p f) R.
Proof.
  intros Hp Hf tr r Hex.
  apply exec_bind in Hex as [(tr1 & tr2 & a & -> & Ha & Hb) | (e & Ha & ->)].
  - destruct (Hp _ _ Ha) as (a' & [= <-] & Hq). by apply (Hf a Hq tr2).
  - by destruct (Hp _ _ Ha) as (a' & [=] & _).
Qed.

Lemma returns_weaken {A} (p : M A) (Q R : A -> Prop) :
  returns p Q -> (forall a, Q a -> R a) -> returns p R.
Proof.
  intros Hp Hqr tr r Hex. destruct (Hp _ _ Hex) as (a & -> & Hq).
  exists a. split; [done | by apply Hqr].
Qed.

Lemma print_links_returns (i : Z) (links : list string) :
  returns (print_links i links) (fun _ => True).
Proof.
  revert i. induction links as [|link rest IH]; intros i.
  - by apply returns_ret.
  - cbn [print_links].
    apply (returns_bind _ _ (fun _ => True)); [by apply returns_print|].
    intros _ _. apply IH.
Qed.

Lemma print_suggestions_returns (suggestions : list string) :
  returns (print_suggestions suggestions) (fun _ => True).
Proof.
  induction suggestions as [|s rest IH].
  - by apply returns_ret.
  - cbn [print_suggestions].
    apply (returns_bind _ _ (fun _ => True)); [by apply returns_print|].
    intros _ _. apply IH.
Qed.

Section Returns.
Context `{Runtime}.

Lemma check_ssl_certificate_returns (url : string) :
  returns (check_ssl_certificate url) (fun _ => True).
Proof.
  intros tr r Hex. apply check_ssl_certificate_run in Hex as (r0 & _ & ->).
  destruct r0; by eexists.
Qed.

Lemma find_broken_links_returns (url : string) :
  returns (find_broken_links url) (fun _ => True).
Proof.
  intros tr r Hex.
  destruct (find_broken_links_cases url tr r Hex) as (x & _ & Hcase).
  destruct x as [response|e]; [|destruct Hcase as [_ ->]; by eexists].
  destruct (ok response); [|destruct Hcase as [_ ->]; by eexists].
  destruct Hcase as (y & tr1 & _ & Hcase).
  destruct y as [soup|e]; [|destruct Hcase as [_ ->]; by eexists].
  destruct (collect_links url (find_all_a_href soup) ∅);
    [|destruct Hcase as [_ ->]; by eexists].
  destruct Hcase as (broken & stopped & _ & ->). by eexists.
Qed.

Lemma check_mobile_responsiveness_returns (url : string) :
  returns (check_mobile_responsiveness url) (fun _ => True).
Proof.
  intros tr r Hex.
  destruct (check_mobile_responsiveness_cases url tr r Hex)
    as [(response & soup & _ & ->) | (_ & ->)]; by eexists.
Qed.

(** One step of a proof that a block of the orchestrator returns. *)
Ltac returning :=
  repeat first
    [ by apply returns_ret
    | by apply returns_print
    | apply check_ssl_certificate_returns
    | apply find_broken_links_returns
    | apply check_mobile_responsiveness_returns
    | apply print_links_returns
    | apply print_suggestions_returns
    | match goal with
      | |- returns (match ?x with _ => _ end) _ => destruct x
      end
    | apply (returns_bind _ _ (fun _ => True)); [|intros ? _] ].

(** With the status in [results], the rest of the [try] block cannot
    raise: every key it reads has been written. *)
Lemma from_status_returns url results0 st :
  r_status results0 = Some st ->
  returns (run_website_test_from_status url results0) (fun _ => True).
Proof.
  intros Hst. unfold run_website_test_from_status. rewrite Hst.
  cbn [getitem]. rewrite bind_ret_l.
  destruct st as [[[reachable status] hdrs] load_time].
  apply (returns_bind _ _
           (fun results => reachable = false ->
              is_Some (r_ssl results) /\ is_Some (r_broken_links results) /\
              is_Some (r_mobile results))).
  { destruct reachable.
    - apply (returns_bind _ _ (fun _ => True)); [by apply returns_print|].
      intros _ _. apply (returns_bind _ _ (fun _ => True)); [returning|].
      intros _ _. by apply returns_ret.
    - apply (returns_bind _ _ (fun _ => True)); [by apply returns_print|].
      intros _ _. apply returns_ret. intros _. by repeat split. }
  intros results1 Hdefaults.
  apply (returns_bind _ _
           (fun results =>
              is_Some (r_ssl results) /\ is_Some (r_broken_links results) /\
              is_Some (r_mobile results))).
  { destruct reachable; [|apply returns_ret; by apply Hdefaults].
    apply (returns_bind _ _ (fun _ => True)); [by apply returns_print|].
    intros _ _. apply (returns_bind _ _ (fun _ => True)); [returning|].
    intros ssl _. cbn [r_ssl getitem]. rewrite bind_ret_l.
    destruct ssl as [ssl_ok days_left].
    apply (returns_bind _ _ (fun _ => True)); [returning|]. intros _ _.
    apply (returns_bind _ _ (fun _ => True)); [returning|]. intros _ _.
    apply (returns_bind _ _ (fun _ => True)); [returning|]. intros found _.
    cbn [r_broken_links getitem]. rewrite bind_ret_l.
    apply (returns_bind _ _ (fun _ => True)); [returning|]. intros _ _.
    apply (returns_bind _ _ (fun _ => True)); [returning|]. intros _ _.
    apply (returns_bind _ _ (fun _ => True)); [returning|]. intros mobile _.
    cbn [r_mobile getitem]. rewrite bind_ret_l.
    destruct mobile as [mobile_friendly mobile_details].
    apply (returns_bind _ _ (fun _ => True)); [returning|]. intros _ _.
    apply returns_ret. cbn [r_ssl r_broken_links r_mobile]. by repeat split. }
  intros results2 ([ssl Hssl] & [broken Hbroken] & [mobile Hmobile]).
  rewrite Hssl, Hbroken, Hmobile. cbn [getitem]. rewrite bind_ret_l.
  destruct ssl as [ssl_ok days_left]. rewrite !bind_ret_l.
  returning.
Qed.

End Returns.

(** *** The orchestrator, run by run *)

Section OrchestratorRuns.
Context `{Runtime}.

(** A run of the [try] block that ends well ends with the closing
    line. *)
Lemma from_status_last url results0 tr results :
  exec (run_website_test_from_status url results0) tr (Ok results) ->
  last tr = Some (Event (print (NL +:+ "✅ Health check completed!" +:+ NL)) tt).
Proof.
  intros Hex. unfold run_website_test_from_status in Hex. walk Hex.
  destruct Hex as [-> _].
  repeat first [rewrite app_comm_cons | rewrite app_assoc].
  apply last_snoc.
Qed.

(** X15.  An input [validate_url] rejects never reaches the network:
    [run_website_test] prints the one line that reports the error, with
    the text of the exception, and ends. *)
Theorem run_website_test_invalid (raw : string) (e : exn) tr r :
  validate_url raw = Raise e ->
  exec (run_website_test raw) tr r ->
  tr = [Event (print ("❌ An error occurred: " +:+ Py.utf8 (Py.exc_str e))) tt] /\
  r = Ok None.
Proof.
  intros Hv Hex. unfold run_website_test, run_website_test_try in Hex.
  rewrite Hv in Hex. unfold lift in Hex.
  change (Ret (Raise e)) with (@raise string e) in Hex.
  rewrite !bind_raise_l in Hex.
  apply exec_try_except in Hex
    as [(a & [_ [=]] & _) | (tr1 & tr2 & e' & -> & [-> [= <-]] & Hh)].
  by apply exec_bind_print in Hh as (tr' & -> & [-> ->]).
Qed.

(** X16.  [run_website_test] never raises, and each run says how it
    ended.  Either the report was built and the last line printed is the
    closing line; or the last line reports an exception [e], and then
    [e] was raised by [validate_url], or it was raised under the fetch of
    the reachability probe and is not a [RequestException].  Nothing that
    goes wrong in the three later probes ends the run. *)
Theorem run_website_test_ending (raw : string) tr r :
  exec (run_website_test raw) tr r ->
  (exists results,
      r = Ok (Some results) /\
      last tr = Some (Event (print (NL +:+ "✅ Health check completed!" +:+ NL)) tt))
  \/ (exists e,
        r = Ok None /\
        last tr = Some (Event (print ("❌ An error occurred: " +:+
                                      Py.utf8 (Py.exc_str e))) tt) /\
        (validate_url raw = Raise e \/
         exists url,
           validate_url raw = Ok url /\
           Event (requests_get url CONFIG.REQUEST_TIMEOUT status_headers true)
             (Raise e) ∈ tr /\
           Py.is_RequestException e = false)).
Proof.
  intros Hex. unfold run_website_test in Hex.
  apply exec_try_except in Hex
    as [(a & Hex & ->) | (tr1 & tr2 & e & -> & Hex & Hh)].
  - left.
    apply exec_bind in Hex
      as [(tr1 & tr2 & results & -> & Hex & [-> [= ->]]) | (? & _ & [=])].
    exists results. split; [done|]. rewrite app_nil_r.
    unfold run_website_test_try in Hex.
    destruct (validate_url raw) as [url|e]; [|by destruct Hex as [_ [=]]].
    unfold lift in Hex. change (Ret (Ok url)) with (ret url) in Hex.
    rewrite bind_ret_l in Hex.
    apply exec_bind_print in Hex as (tr2 & -> & Hex).
    apply exec_bind_print in Hex as (tr3 & -> & Hex).
    apply exec_bind in Hex as [(tr4 & tr5 & st & -> & _ & Hex) | (? & _ & [=])].
    apply from_status_last in Hex.
    destruct tr5 as [|ev tr5]; [discriminate Hex|].
    rewrite !app_comm_cons, last_app. by rewrite Hex.
  - right. exists e.
    apply exec_bind_print in Hh as (tr' & -> & [-> ->]).
    split; [done|]. split; [apply last_snoc|].
    apply exec_bind in Hex as [(? & ? & ? & _ & _ & [_ [=]]) | (e' & Hex & [= <-])].
    unfold run_website_test_try in Hex.
    destruct (validate_url raw) as [url|e0]; [|left; by destruct Hex as [_ [= ->]]].
    right. exists url. split; [done|].
    unfold lift in Hex. change (Ret (Ok url)) with (ret url) in Hex.
    rewrite bind_ret_l in Hex.
    apply exec_bind_print in Hex as (tr2 & -> & Hex).
    apply exec_bind_print in Hex as (tr3 & -> & Hex).
    apply exec_bind in Hex as [(tr4 & tr5 & st & -> & _ & Hex) | (e' & Hex & [= <-])].
    + match type of Hex with
      | exec (run_website_test_from_status _ ?results0) _ _ =>
          by destruct (from_status_returns url results0 st eq_refl _ _ Hex)
            as (? & [=] & _)
      end.
    + destruct (check_site_status_cases url tr3 _ Hex)
        as (t0 & x & [(resp & t1 & -> & -> & [=]) | (e' & -> & -> & Hr)]).
      destruct (Py.is_RequestException e') eqn:He; [done|].
      injection Hr as ->. split; [|done].
      apply elem_of_app. left. do 3 apply list_elem_of_further.
      apply list_elem_of_here.
Qed.


End OrchestratorRuns.

Lemma run_website_test_invalid_witness :
  (run offline_world (@run_website_test example_runtime "http://")).1
  = [Event (print ("❌ An error occurred: " +:+
                   Py.utf8 (Py.exc_str (Exn Py.ValueError "Invalid URL: http://"))))
       tt] /\
  (run offline_world (@run_website_test example_runtime "http://")).2 = Ok None.
Proof.
  apply (@run_website_test_invalid example_runtime "http://"
           (Exn Py.ValueError "Invalid URL: http://")).
  - reflexivity.
  - apply run_exec.
Defined.

Lemma run_website_test_ending_witness :
  (exists results,
      (run failing_client_world
         (@run_website_test example_runtime "example.com")).2
      = Ok (Some results) /\
      last (run failing_client_world
              (@run_website_test example_runtime "example.com")).1
      = Some (Event (print (NL +:+ "✅ Health check completed!" +:+ NL)) tt))
  \/ (exists e,
        (run failing_client_world
           (@run_website_test example_runtime "example.com")).2 = Ok None /\
        last (run failing_client_world
                (@run_website_test example_runtime "example.com")).1
        = Some (Event (print ("❌ An error occurred: " +:+
                              Py.utf8 (Py.exc_str e))) tt) /\
        (@validate_url example_runtime "example.com" = Raise e \/
         exists url,
           @validate_url example_runtime "example.com" = Ok url /\
           Event (requests_get url CONFIG.REQUEST_TIMEOUT status_headers true)
             (Raise e)
             ∈ (run failing_client_world
                  (@run_website_test example_runtime "example.com")).1 /\
           Py.is_RequestException e = false)).
Proof.
  apply (@run_website_test_ending example_runtime "example.com").
  apply run_exec.
Defined.


